(** * Anthropic Manifold Pipe: a shallow embedding of [anthropic-function.py]

    The development follows the source file top to bottom:

    - [Py]      the fragment of Python the pipe relies on: JSON-shaped values,
                exceptions, subscripting, [in], [.get], string methods, [int()],
                f-string formatting of integers and of [:.2f] floats;
    - [Net]     the HTTP collaborators ([requests.head], [requests.post]) as
                oracles, and the monad that threads exceptions and the log of
                network calls through the code;
    - [Pipe]    the class [Pipe]: [_extract_model_id], [process_image], [pipe],
                [stream_response], [non_stream_response];
    - [Demo]    instances of the library functions and the inputs of the
                worked examples;
    - [Spec]    the predicates the statements are written with;
    - the theorems, component by component, and the worked examples.

    Conventions.  A Python [str] is a Rocq [string], one [ascii] per character;
    [bytes] likewise, one [ascii] per byte.  A Python float is the rational it
    denotes, in [Q].  The sizes of inline images ([len * 3 / 4], sums of such,
    and their quotients by [1024 * 1024]) are dyadic rationals far below 2^53,
    on which IEEE arithmetic is exact.  The length a remote host declares is
    an integer of any size, so its quotient by [1024 * 1024] goes through
    [Py.true_div], which rounds to the nearest float and raises beyond the
    range of floats.  Library functions whose code is not part of the
    repository ([json.loads], [bytes.decode], [pop_system_message], [str] on
    arbitrary objects) are section variables. *)

From Stdlib Require Import ZArith QArith Lia List Bool.
From Stdlib Require Import Strings.String Strings.Ascii Numbers.DecimalString.
Import ListNotations.

Local Open Scope string_scope.
Local Open Scope Z_scope.

(* ================================================================== *)
(** * Python values and primitives *)

Module Py.

(** Objects that [json.loads] can return and that the host passes in [body]. *)
#[warnings="-register-all"]
Inductive json : Type :=
| JNone
| JBool (b : bool)
| JInt (n : Z)
| JFloat (q : Q)
| JStr (s : string)
| JList (l : list json)
| JDict (d : list (string * json)).

(** [repr(s)] for a string of characters below 256: apostrophes around the
    text, quotation marks instead when the text has an apostrophe and no
    quotation mark; the chosen quote and the backslash are escaped, tab,
    newline and carriage return by their letter, and the characters that are
    not printable (controls, 127 to 160, the soft hyphen) by [\xhh]. *)
Definition dquote : ascii := ascii_of_nat 34.
Definition backslash : ascii := ascii_of_nat 92.

Fixpoint has_char (c : ascii) (s : string) : bool :=
  match s with
  | EmptyString => false
  | String c' s' => Ascii.eqb c c' || has_char c s'
  end.

Definition hex_digit (n : nat) : ascii :=
  nth n (list_ascii_of_string "0123456789abcdef") "0"%char.

Definition escape (quote c : ascii) : string :=
  let n := nat_of_ascii c in
  if Ascii.eqb c quote || Ascii.eqb c backslash then String backslash (String c EmptyString)
  else if (n =? 9)%nat then String backslash "t"
  else if (n =? 10)%nat then String backslash "n"
  else if (n =? 13)%nat then String backslash "r"
  else if ((n <? 32) || (127 <=? n) && (n <=? 160) || (n =? 173))%nat
       then String backslash
              (String "x" (String (hex_digit (n / 16)) (String (hex_digit (n mod 16)) EmptyString)))
       else String c EmptyString.

Fixpoint escaped (quote : ascii) (s : string) : string :=
  match s with
  | EmptyString => EmptyString
  | String c s' => escape quote c ++ escaped quote s'
  end.

Definition repr_str (s : string) : string :=
  let quote := if has_char "'" s && negb (has_char dquote s) then dquote else "'"%char in
  String quote (escaped quote s ++ String quote EmptyString).

(** The exceptions that the source names or that its primitives raise; each
    carries [str(e)]. *)
Inductive exn : Type :=
| KeyError (key : string)
| TypeError (msg : string)
| ValueError (msg : string)
| IndexError (msg : string)
| AttributeError (msg : string)
| UnicodeDecodeError (msg : string)
| JSONDecodeError (msg : string)
| RequestsTimeout (msg : string)       (* requests.exceptions.Timeout *)
| RequestException (msg : string)      (* any other requests exception *)
| ZeroDivisionError (msg : string)
| OverflowError (msg : string)
| OtherException (msg : string).

(** [isinstance(e, requests.exceptions.RequestException)] *)
Definition is_request_exception (e : exn) : bool :=
  match e with
  | RequestsTimeout _ | RequestException _ => true
  | _ => false
  end.

Definition is_timeout (e : exn) : bool :=
  match e with RequestsTimeout _ => true | _ => false end.

(** [str(e)]: a [KeyError] prints the [repr] of its key. *)
Definition str_exn (e : exn) : string :=
  match e with
  | KeyError k => repr_str k
  | TypeError m | ValueError m | IndexError m | AttributeError m
  | UnicodeDecodeError m | JSONDecodeError m | RequestsTimeout m
  | RequestException m | ZeroDivisionError m | OverflowError m
  | OtherException m => m
  end.

Inductive result (A : Type) : Type :=
| Ok (a : A)
| Raise (e : exn).
Arguments Ok {A} a.
Arguments Raise {A} e.

(** Sequencing of computations that may raise. *)
Definition and_then {A B} (r : result A) (k : A -> result B) : result B :=
  match r with
  | Ok a => k a
  | Raise e => Raise e
  end.

Definition type_name (v : json) : string :=
  match v with
  | JNone => "NoneType"
  | JBool _ => "bool"
  | JInt _ => "int"
  | JFloat _ => "float"
  | JStr _ => "str"
  | JList _ => "list"
  | JDict _ => "dict"
  end.

(** Truth value of an object ([if x:], [not x]). *)
Definition truthy (v : json) : bool :=
  match v with
  | JNone => false
  | JBool b => b
  | JInt n => negb (n =? 0)
  | JFloat q => negb (Qnum q =? 0)
  | JStr s => negb (s =? "")%string
  | JList l => match l with [] => false | _ => true end
  | JDict d => match d with [] => false | _ => true end
  end.

(** [v == "lit"] for a string literal. *)
Definition eq_str (v : json) (lit : string) : bool :=
  match v with
  | JStr s => (s =? lit)%string
  | _ => false
  end.

(** Dictionary lookup: the first binding of the key. *)
Fixpoint lookup (k : string) (d : list (string * json)) : option json :=
  match d with
  | [] => None
  | (k', v) :: d' => if (k' =? k)%string then Some v else lookup k d'
  end.

(** [v[k]] with a string subscript. *)
Definition getitem (v : json) (k : string) : result json :=
  match v with
  | JDict d =>
      match lookup k d with
      | Some x => Ok x
      | None => Raise (KeyError k)
      end
  | JList _ => Raise (TypeError "list indices must be integers or slices, not str")
  | JStr _ => Raise (TypeError "string indices must be integers, not 'str'")
  | _ => Raise (TypeError ("'" ++ type_name v ++ "' object is not subscriptable"))
  end.

(** [v.get(k, default)]: only dictionaries have the method. *)
Definition get (v : json) (k : string) (default : json) : result json :=
  match v with
  | JDict d =>
      match lookup k d with
      | Some x => Ok x
      | None => Ok default
      end
  | _ => Raise (AttributeError ("'" ++ type_name v ++ "' object has no attribute 'get'"))
  end.

(** [sub in s] on strings: substring test. *)
Fixpoint str_in (sub s : string) : bool :=
  match s with
  | EmptyString => (sub =? "")%string
  | String _ s' => prefix sub s || str_in sub s'
  end.

(** [k in v] for a string [k]: key membership on a dictionary, element
    membership on a list, substring test on a string; other objects are not
    containers. *)
Definition contains (k : string) (v : json) : result bool :=
  match v with
  | JDict d => Ok (match lookup k d with Some _ => true | None => false end)
  | JList l => Ok (existsb (fun x => eq_str x k) l)
  | JStr s => Ok (str_in k s)
  | _ => Raise (TypeError ("argument of type '" ++ type_name v ++ "' is not iterable"))
  end.

(** [s[n:]] *)
Fixpoint drop (n : nat) (s : string) : string :=
  match n, s with
  | O, _ => s
  | S _, EmptyString => EmptyString
  | S n', String _ s' => drop n' s'
  end.

(** [s.startswith(p)] *)
Definition startswith (s p : string) : bool := prefix p s.

(** The separators of the source are all one character long.
    [cut sep s] is [s.partition(sep)]: the text before the first [sep] and,
    when there is one, the text after it. *)
Fixpoint cut (sep : ascii) (s : string) : string * option string :=
  match s with
  | EmptyString => (EmptyString, None)
  | String c s' =>
      if Ascii.eqb c sep then (EmptyString, Some s')
      else let (a, b) := cut sep s' in (String c a, b)
  end.

(** [s.split(sep, 1)] *)
Definition split1 (sep : ascii) (s : string) : list string :=
  match cut sep s with
  | (a, Some b) => [a; b]
  | (a, None) => [a]
  end.

(** [s.split(sep)]: the fields between separators, at least one. *)
Fixpoint split (sep : ascii) (s : string) : list string :=
  match s with
  | EmptyString => [EmptyString]
  | String c s' =>
      if Ascii.eqb c sep then EmptyString :: split sep s'
      else match split sep s' with
           | field :: fields => String c field :: fields
           | [] => [String c EmptyString]
           end
  end.

(** [l[i]] on a list of strings. *)
Definition index (l : list string) (i : nat) : result string :=
  match nth_error l i with
  | Some x => Ok x
  | None => Raise (IndexError "list index out of range")
  end.

(** [str(n)] for an integer. *)
Definition str_int (n : Z) : string :=
  NilZero.string_of_int (Z.to_int n).

(** [f"{x:.2f}"] for a non-negative float [x]: two decimals, ties to even on
    the exact value. *)
Definition format_2f (x : Q) : string :=
  let num := Qnum x * 100 in
  let den := Zpos (Qden x) in
  let fl := num / den in
  let r := num mod den in
  let hundredths :=
    if 2 * r <? den then fl
    else if den <? 2 * r then fl + 1
    else if Z.even fl then fl else fl + 1 in
  let frac := hundredths mod 100 in
  str_int (hundredths / 100) ++ "." ++
  (if frac <? 10 then "0" else "") ++ str_int frac.

(** [a / b] between two integers is a float: the binary64 number nearest to
    the quotient, ties to even, with 53 bits of mantissa and exponents down to
    -1074.  The float is kept as the rational it denotes.  [nearest_float n d]
    rounds [n / d] for positive [n] and [d]. *)
Definition nearest_float (n d : Z) : Q :=
  let k := Z.log2 n - Z.log2 d in
  let above := if 0 <=? k then d * 2 ^ k <=? n else d <=? n * 2 ^ (- k) in
  let e := Z.max ((if above then k else k - 1) - 52) (- 1074) in
  let num := if 0 <=? e then n else n * 2 ^ (- e) in
  let den := if 0 <=? e then d * 2 ^ e else d in
  let fl := num / den in
  let r := num mod den in
  let m :=
    if 2 * r <? den then fl
    else if den <? 2 * r then fl + 1
    else if Z.even fl then fl else fl + 1 in
  if 0 <=? e then inject_Z (m * 2 ^ e) else Qmake m (Z.to_pos (2 ^ (- e))).

(** [a / b]: division by zero and results beyond the range of a float raise. *)
Definition true_div (a b : Z) : result Q :=
  if b =? 0 then Raise (ZeroDivisionError "division by zero")
  else if a =? 0 then Ok 0%Q
  else
    let q := nearest_float (Z.abs a) (Z.abs b) in
    if Qle_bool (inject_Z (2 ^ 1024)) q
    then Raise (OverflowError "integer division result too large for a float")
    else Ok (if Z.sgn a * Z.sgn b <? 0 then Qopp q else q).
Arguments true_div : simpl never.

(** [int(s)] on a string: surrounding blanks, an optional sign, then decimal
    digits, single underscores allowed between digits, at most 4300 digits.
    The blanks are the characters below 256 that [int] skips: the blanks of
    ASCII (9 to 13 and 32) and, beyond ASCII, the spaces of Unicode (133 and
    160). *)
Definition is_space (c : ascii) : bool :=
  let n := nat_of_ascii c in
  ((9 <=? n) && (n <=? 13) || (n =? 32) || (n =? 133) || (n =? 160))%nat.

Definition digit_of (c : ascii) : option Z :=
  let n := nat_of_ascii c in
  if ((48 <=? n) && (n <=? 57))%nat then Some (Z.of_nat n - 48) else None.

Fixpoint lstrip (s : string) : string :=
  match s with
  | String c s' => if is_space c then lstrip s' else s
  | EmptyString => s
  end.

(** [s[:n]] *)
Fixpoint take (n : nat) (s : string) : string :=
  match n, s with
  | S n', String c s' => String c (take n' s')
  | _, _ => EmptyString
  end.

(** The run of digits and single underscores at the head of a literal: its
    value, the number of its digits and the text after it; nothing when an
    underscore is doubled or ends the run.  [us] records that the previous
    character was an underscore. *)
Fixpoint digit_run (s : string) (acc count : Z) (us : bool) : option (Z * Z * string) :=
  match s with
  | EmptyString => if us then None else Some (acc, count, s)
  | String c s' =>
      match digit_of c with
      | Some d => digit_run s' (10 * acc + d) (count + 1) false
      | None =>
          if Ascii.eqb c "_" then (if us then None else digit_run s' acc count true)
          else if us then None else Some (acc, count, s)
      end
  end.

(** [sys.get_int_max_str_digits()], at its default. *)
Definition max_str_digits : Z := 4300.

Inductive literal : Type :=
| Invalid
| TooLong (count : Z)
| Literal (n : Z).

(** The literal after the sign: it starts with a digit; more digits than the
    limit are refused before the text after the run is looked at; only blanks
    may follow the run. *)
Definition unsigned (s : string) : literal :=
  match s with
  | String c _ =>
      match digit_of c with
      | Some _ =>
          match digit_run s 0 0 false with
          | Some (n, count, rest) =>
              if max_str_digits <? count then TooLong count
              else match lstrip rest with
                   | EmptyString => Literal n
                   | _ => Invalid
                   end
          | None => Invalid
          end
      | None => Invalid
      end
  | EmptyString => Invalid
  end.

(** The message of the failure shows at most 200 characters of [repr(s)]. *)
Definition int_of_str (s : string) : result Z :=
  let body := lstrip s in
  let r :=
    match body with
    | String "-" s' =>
        match unsigned s' with
        | Literal n => Literal (- n)
        | other => other
        end
    | String "+" s' => unsigned s'
    | _ => unsigned body
    end in
  match r with
  | Literal n => Ok n
  | TooLong count =>
      Raise (ValueError ("Exceeds the limit (" ++ str_int max_str_digits
                         ++ " digits) for integer string conversion: value has "
                         ++ str_int count
                         ++ " digits; use sys.set_int_max_str_digits() to increase the limit"))
  | Invalid =>
      Raise (ValueError ("invalid literal for int() with base 10: "
                         ++ take 200 (repr_str s)))
  end.

End Py.

(* ================================================================== *)
(** * Network collaborators and the effect monad *)

Module Net.
Import Py.

(** What [requests.head(url, allow_redirects=True, timeout=5)] gives: an
    exception, or a response of which the code reads one header. *)
Inductive head_reply : Type :=
| HeadRaises (e : exn)
| HeadResponse (content_length : option string).

(** A response to [requests.post]: [text] is [response.text], [lines] are the
    byte lines [response.iter_lines()] produces and [lines_end] the exception
    that interrupts the iteration after them, if any. *)
Record response : Type := {
  status_code : Z;
  text : string;
  lines : list string;
  lines_end : option exn
}.

Inductive post_reply : Type :=
| PostRaises (e : exn)
| PostResponse (r : response).

(** The network calls made, in order. *)
Inductive call : Type :=
| HeadCall (url : string)
| PostCall (stream : bool) (url : string) (headers payload : json).

Definition is_post (c : call) : bool :=
  match c with PostCall _ _ _ _ => true | HeadCall _ => false end.

(** Computations that may raise and that append to the call log. *)
Definition M (A : Type) : Type := list call -> result A * list call.

Definition ret {A} (a : A) : M A := fun log => (Ok a, log).
Definition raise {A} (e : exn) : M A := fun log => (Raise e, log).
Definition bind {A B} (m : M A) (k : A -> M B) : M B :=
  fun log =>
    match m log with
    | (Ok a, log') => k a log'
    | (Raise e, log') => (Raise e, log')
    end.
Definition lift {A} (r : result A) : M A := fun log => (r, log).
Definition tell (c : call) : M unit := fun log => (Ok tt, (log ++ [c])%list).

(** [try: m  except <handles> as e: h e] *)
Definition try_except {A} (m : M A) (handles : exn -> bool) (h : exn -> M A) : M A :=
  fun log =>
    match m log with
    | (Raise e, log') => if handles e then h e log' else (Raise e, log')
    | ok => ok
    end.

End Net.

Declare Scope py_scope.
Delimit Scope py_scope with py.
Notation "x <- m ;; k" := (Net.bind m (fun x => k))
  (at level 61, m at next level, right associativity) : py_scope.
Notation "m ;;; k" := (Net.bind m (fun _ => k))
  (at level 61, right associativity) : py_scope.
Notation "x <~ r ;; k" := (Py.and_then r (fun x => k))
  (at level 61, r at next level, right associativity) : py_scope.

(* ================================================================== *)
(** * The class [Pipe] *)

Module Pipe.
Import Py Net.
Local Open Scope py_scope.

(** [Pipe.Valves] *)
Record Valves : Type := {
  ANTHROPIC_API_KEY : string;
  ANTHROPIC_API_VERSION : string;
  MAX_TOKENS : Z;
  TEMPERATURE : Q;
  REQUEST_TIMEOUT : Z;
  CONNECTION_TIMEOUT : Q
}.

(** Set in [__init__]. *)
Definition MAX_IMAGE_SIZE : Z := 5 * 1024 * 1024.
Definition MAX_TOTAL_IMAGE_SIZE : Z := 100 * 1024 * 1024.

(** [get_anthropic_models] and [pipes]: the catalog. *)
Definition get_anthropic_models : list json :=
  [JDict [("id", JStr "claude-sonnet-4-5-20250929"); ("name", JStr "claude-sonnet-4.5")];
   JDict [("id", JStr "claude-haiku-4-5-20251001"); ("name", JStr "claude-haiku-4.5")];
   JDict [("id", JStr "claude-opus-4-5-20251101"); ("name", JStr "claude-opus-4.5")]].

Definition pipes : list json := get_anthropic_models.

(** [x > limit] between a float and an integer constant. *)
Definition exceeds (x : Q) (limit : Z) : bool := negb (Qle_bool x (inject_Z limit)).

(** [len(s) * 3 / 4] *)
Definition estimated_size (s : string) : Q :=
  (inject_Z (Z.of_nat (String.length s) * 3) / inject_Z 4)%Q.

(** [x / (1024 * 1024)] *)
Definition megabytes (x : Q) : Q := (x / inject_Z (1024 * 1024))%Q.

(** The receiver of a string method: objects of other types have none of
    them. *)
Definition str_method (v : json) (name : string) : result string :=
  match v with
  | JStr s => Ok s
  | _ => Raise (AttributeError
                  ("'" ++ type_name v ++ "' object has no attribute '" ++ name ++ "'"))
  end.

(** [a, b = l] *)
Definition unpack2 (l : list string) : result (string * string) :=
  match l with
  | [a; b] => Ok (a, b)
  | [] => Raise (ValueError "not enough values to unpack (expected 2, got 0)")
  | [_] => Raise (ValueError "not enough values to unpack (expected 2, got 1)")
  | _ => Raise (ValueError "too many values to unpack (expected 2)")
  end.

(** [len(v)] *)
Definition len (v : json) : result Z :=
  match v with
  | JStr s => Ok (Z.of_nat (String.length s))
  | JList l => Ok (Z.of_nat (List.length l))
  | JDict d => Ok (Z.of_nat (List.length d))
  | _ => Raise (TypeError ("object of type '" ++ type_name v ++ "' has no len()"))
  end.

(** [for x in v] *)
Definition iterate (v : json) : result (list json) :=
  match v with
  | JList l => Ok l
  | JDict d => Ok (map (fun kv => JStr (fst kv)) d)
  | JStr s => Ok (map (fun c => JStr (String c EmptyString)) (list_ascii_of_string s))
  | _ => Raise (TypeError ("'" ++ type_name v ++ "' object is not iterable"))
  end.

Definition text_block (t : json) : json :=
  JDict [("type", JStr "text"); ("text", t)].

Definition base64_image (media_type base64_data : string) : json :=
  JDict [("type", JStr "image");
         ("source", JDict [("type", JStr "base64");
                           ("media_type", JStr media_type);
                           ("data", JStr base64_data)])].

Definition url_image (url : string) : json :=
  JDict [("type", JStr "image");
         ("source", JDict [("type", JStr "url"); ("url", JStr url)])].

(** A [for] loop body either goes on with the loop state or leaves the
    enclosing function with [return v]. *)
Inductive flow (A : Type) : Type :=
| Next (a : A)
| Return (v : json).
Arguments Next {A} a.
Arguments Return {A} v.

(** What [pipe] hands back: a value, or the generator object made by calling
    [stream_response], whose body has not started to run. *)
Inductive pipe_return : Type :=
| Value (v : json)
| Generator (url : string) (headers payload : json).

(** A generator run to exhaustion: the elements it yielded and the exception
    that ended it, if it did not end by returning. *)
Definition generated : Type := list json * option exn.

(** What one data line does to the streaming loop. *)
Inductive step : Type :=
| Emit (v : json)
| Skip
| Break.

Section WithEnvironment.

Variable valves : Valves.
(** [json.loads] *)
Variable json_loads : string -> result json.
(** [bytes.decode("utf-8")] *)
Variable decode_utf8 : string -> result string.
(** [open_webui.utils.misc.pop_system_message] *)
Variable pop_system_message : json -> result (json * list json).
(** [str(obj)] *)
Variable py_str : json -> string.
(** The network. *)
Variable http_head : string -> head_reply.
Variable http_post : bool -> string -> json -> json -> post_reply.

(** ** [_extract_model_id] *)
Definition _extract_model_id (model_string : json) : result json :=
  if negb (truthy model_string) then Raise (ValueError "Model string is empty")
  else
    match contains "." model_string with
    | Raise e => Raise e
    | Ok true =>
        match str_method model_string "split" with
        | Raise e => Raise e
        | Ok s =>
            match index (split1 "." s) 1 with
            | Ok id => Ok (JStr id)
            | Raise e => Raise e
            end
        end
    | Ok false => Ok model_string
    end.

(** ** [process_image]
    The outer [except (KeyError, ValueError)] logs and re-raises, so it does
    not show in the model. *)
Definition probe (url : string) : M unit :=
  tell (HeadCall url) ;;;
  match http_head url with
  | HeadRaises e => raise e
  | HeadResponse header =>
      content_length <- lift (match header with
                              | Some s => int_of_str s
                              | None => Ok 0
                              end) ;;
      if MAX_IMAGE_SIZE <? content_length then
        size <- lift (true_div content_length (1024 * 1024)) ;;
        raise (ValueError ("Image at URL exceeds 5MB limit: " ++ format_2f size ++ "MB"))
      else ret tt
  end.

Definition process_image (image_data : json) : M json :=
  image_url <- lift (getitem image_data "image_url") ;;
  url_obj <- lift (getitem image_url "url") ;;
  url <- lift (str_method url_obj "startswith") ;;
  if startswith url "data:image" then
    parts <- lift (unpack2 (split1 "," url)) ;;
    let (mime_type, base64_data) := parts in
    after_colon <- lift (index (split ":" mime_type) 1) ;;
    media_type <- lift (index (split ";" after_colon) 0) ;;
    let image_size := estimated_size base64_data in
    if exceeds image_size MAX_IMAGE_SIZE then
      raise (ValueError ("Image size exceeds 5MB limit: "
                         ++ format_2f (megabytes image_size) ++ "MB"))
    else ret (base64_image media_type base64_data)
  else
    try_except (probe url) is_request_exception (fun _ => ret tt) ;;;
    ret (url_image url).

(** ** [pipe]: the normalisation loops *)

(** The body of the [try] around an [image_url] item. *)
Definition image_item (item : json) (processed_content : list json) (total_image_size : Q)
  : M (list json * Q) :=
  processed_image <- process_image item ;;
  let processed_content := (processed_content ++ [processed_image])%list in
  source <- lift (getitem processed_image "source") ;;
  source_type <- lift (getitem source "type") ;;
  if eq_str source_type "base64" then
    source <- lift (getitem processed_image "source") ;;
    data <- lift (getitem source "data") ;;
    n <- lift (len data) ;;
    let image_size := (inject_Z (n * 3) / inject_Z 4)%Q in
    let total_image_size := (total_image_size + image_size)%Q in
    if exceeds total_image_size MAX_TOTAL_IMAGE_SIZE then
      raise (ValueError ("Total image size exceeds 100MB limit: "
                         ++ format_2f (megabytes total_image_size) ++ "MB"))
    else ret (processed_content, total_image_size)
  else ret (processed_content, total_image_size).

(** [for item in message["content"]] *)
Fixpoint process_items (items : list json) (processed_content : list json)
  (total_image_size : Q) : M (flow (list json * Q)) :=
  match items with
  | [] => ret (Next (processed_content, total_image_size))
  | item :: rest =>
      item_type <- lift (getitem item "type") ;;
      if eq_str item_type "text" then
        item_text <- lift (getitem item "text") ;;
        process_items rest (processed_content ++ [text_block item_text])%list total_image_size
      else
        item_type <- lift (getitem item "type") ;;
        if eq_str item_type "image_url" then
          r <- try_except
                 (st <- image_item item processed_content total_image_size ;; ret (Next st))
                 (fun _ => true)
                 (fun e => ret (Return (JStr ("Error: Failed to process image: " ++ str_exn e)))) ;;
          match r with
          | Next (processed_content, total_image_size) =>
              process_items rest processed_content total_image_size
          | Return v => ret (Return v)
          end
        else process_items rest processed_content total_image_size
  end.

(** [for message in messages]; in the list branch [message["content"]] is the
    list that [isinstance] has just seen. *)
Fixpoint process_messages (messages : list json) (processed_messages : list json)
  (total_image_size : Q) : M (flow (list json)) :=
  match messages with
  | [] => ret (Next processed_messages)
  | message :: rest =>
      content <- lift (get message "content" JNone) ;;
      r <- match content with
           | JList items => process_items items [] total_image_size
           | _ =>
               content <- lift (get message "content" (JStr "")) ;;
               ret (Next ([text_block content], total_image_size))
           end ;;
      match r with
      | Return v => ret (Return v)
      | Next (processed_content, total_image_size) =>
          role <- lift (getitem message "role") ;;
          process_messages rest
            (processed_messages
               ++ [JDict [("role", role); ("content", JList processed_content)]])%list
            total_image_size
      end
  end.

(** ** [non_stream_response] *)

(** [for content in res["content"]: if content.get("type") == "text": return ...] *)
Fixpoint scan_content (blocks : list json) : result (option json) :=
  match blocks with
  | [] => Ok None
  | content :: rest =>
      match get content "type" JNone with
      | Raise e => Raise e
      | Ok t =>
          if eq_str t "text" then
            match get content "text" (JStr "") with
            | Ok v => Ok (Some v)
            | Raise e => Raise e
            end
          else scan_content rest
      end
  end.

(** [response.json()]: a decoding failure is re-raised by [requests] as its own
    exception. *)
Definition response_json (r : response) : result json :=
  match json_loads (text r) with
  | Raise (JSONDecodeError m) => Raise (RequestException m)
  | other => other
  end.

Definition http_error (r : response) : json :=
  JStr ("Error: HTTP " ++ str_int (status_code r) ++ ": " ++ text r).

(** The [try] block. *)
Definition non_stream_try (url : string) (headers payload : json) : M json :=
  tell (PostCall false url headers payload) ;;;
  match http_post false url headers payload with
  | PostRaises e => raise e
  | PostResponse response =>
      if negb (status_code response =? 200) then ret (http_error response)
      else
        res <- lift (response_json response) ;;
        has_content <- lift (contains "content" res) ;;
        found <- (if has_content then
                    res_content <- lift (getitem res "content") ;;
                    if truthy res_content then
                      res_content <- lift (getitem res "content") ;;
                      blocks <- lift (iterate res_content) ;;
                      lift (scan_content blocks)
                    else ret None
                  else ret None) ;;
        match found with
        | Some v => ret v
        | None => ret (JStr "")
        end
  end.

Definition non_stream_response (url : string) (headers payload : json) : M json :=
  try_except (non_stream_try url headers payload) (fun _ => true)
    (fun e => if is_timeout e then ret (JStr "Error: Request timeout")
              else ret (JStr ("Error: " ++ str_exn e))).

(** ** [stream_response] *)

(** The body of the [try] around one data line, after [line[6:]]. *)
Definition on_data (event : string) : result step :=
  data <~ json_loads event ;;
  event_type <~ getitem data "type" ;;
  if eq_str event_type "content_block_delta" then
    has_delta <~ contains "delta" data ;;
    if has_delta then
      delta <~ getitem data "delta" ;;
      has_text <~ contains "text" delta ;;
      if has_text then
        delta <~ getitem data "delta" ;;
        delta_text <~ getitem delta "text" ;;
        Ok (Emit delta_text)
      else Ok Skip
    else Ok Skip
  else
    event_type <~ getitem data "type" ;;
    if eq_str event_type "message_stop" then Ok Break else Ok Skip.

(** The inner [try] with its two handlers, which only log. *)
Definition data_line (line : string) : result step :=
  match on_data (drop 6 line) with
  | Raise (JSONDecodeError _) => Ok Skip
  | Raise (KeyError _) => Ok Skip
  | other => other
  end.

(** [for line in response.iter_lines()] *)
Fixpoint stream_lines (lines : list string) (lines_end : option exn) : generated :=
  match lines with
  | [] => ([], lines_end)
  | line :: rest =>
      if (line =? "")%string then stream_lines rest lines_end
      else
        match decode_utf8 line with
        | Raise e => ([], Some e)
        | Ok line =>
            if startswith line "data: " then
              match data_line line with
              | Raise e => ([], Some e)
              | Ok (Emit v) =>
                  let (yielded, ending) := stream_lines rest lines_end in
                  (v :: yielded, ending)
              | Ok Skip => stream_lines rest lines_end
              | Ok Break => ([], None)
              end
            else stream_lines rest lines_end
        end
  end.

(** The outer [try] block. *)
Definition stream_try (url : string) (headers payload : json)
  : list call -> generated * list call :=
  fun log =>
    let log := (log ++ [PostCall true url headers payload])%list in
    match http_post true url headers payload with
    | PostRaises e => (([], Some e), log)
    | PostResponse response =>
        if negb (status_code response =? 200) then (([http_error response], None), log)
        else (stream_lines (lines response) (lines_end response), log)
    end.

(** The three outer handlers each yield one element and end the generator. *)
Definition stream_error (e : exn) : json :=
  if is_timeout e then JStr "Error: Request timeout"
  else if is_request_exception e then JStr ("Error: Request failed: " ++ str_exn e)
  else JStr ("Error: " ++ str_exn e).

Definition stream_response (url : string) (headers payload : json)
  : list call -> generated * list call :=
  fun log =>
    match stream_try url headers payload log with
    | ((yielded, Some e), log') => ((yielded ++ [stream_error e])%list, None, log')
    | done => done
    end.

(** ** [pipe] *)

Definition dict_get (d : list (string * json)) (k : string) (default : json) : json :=
  match lookup k d with
  | Some v => v
  | None => default
  end.

Definition api_url : string := "https://api.anthropic.com/v1/messages".

Definition build_headers : json :=
  JDict [("x-api-key", JStr (ANTHROPIC_API_KEY valves));
         ("anthropic-version", JStr (ANTHROPIC_API_VERSION valves));
         ("content-type", JStr "application/json")].

Definition build_payload (body : list (string * json)) (model_id : json)
  (processed_messages : list json) (system_message : json) : result json :=
  let payload :=
    [("model", model_id);
     ("messages", JList processed_messages);
     ("max_tokens", dict_get body "max_tokens" (JInt (MAX_TOKENS valves)));
     ("temperature", dict_get body "temperature" (JFloat (TEMPERATURE valves)));
     ("stream", dict_get body "stream" (JBool false))] in
  payload <~ (if truthy (dict_get body "stop" JNone) then
                stop <~ getitem (JDict body) "stop" ;;
                Ok (payload ++ [("stop_sequences", stop)])%list
              else Ok payload) ;;
  let payload :=
    if truthy system_message
    then (payload ++ [("system", JStr (py_str system_message))])%list
    else payload in
  Ok (JDict payload).

Definition pipe (body : list (string * json)) : M pipe_return :=
  if negb (truthy (JStr (ANTHROPIC_API_KEY valves))) then
    ret (Value (JStr "Error: ANTHROPIC_API_KEY not configured"))
  else
    raw_messages <- lift (getitem (JDict body) "messages") ;;
    popped <- lift (pop_system_message raw_messages) ;;
    let (system_message, messages) := popped in
    normalized <- process_messages messages [] 0%Q ;;
    match normalized with
    | Return v => ret (Value v)
    | Next processed_messages =>
        resolved <- try_except
                      (model_string <- lift (getitem (JDict body) "model") ;;
                       model_id <- lift (_extract_model_id model_string) ;;
                       ret (Next model_id))
                      (fun _ => true)
                      (fun e => ret (Return (JStr ("Error: Invalid model format: "
                                                   ++ str_exn e)))) ;;
        match resolved with
        | Return v => ret (Value v)
        | Next model_id =>
            payload <- lift (build_payload body model_id processed_messages system_message) ;;
            let headers := build_headers in
            try_except
              (if truthy (dict_get body "stream" (JBool false)) then
                 ret (Generator api_url headers payload)
               else
                 v <- non_stream_response api_url headers payload ;;
                 ret (Value v))
              (fun _ => true)
              (fun e =>
                 if is_request_exception e
                 then ret (Value (JStr ("Error: Request failed: " ++ str_exn e)))
                 else ret (Value (JStr ("Error: " ++ str_exn e))))
        end
    end.

End WithEnvironment.
End Pipe.

(* ================================================================== *)
(** * A concrete environment

    Instances of the library functions for the worked examples: a decoder for
    the JSON texts the examples use (objects, arrays, strings with the simple
    escapes, integers, [true], [false], [null]), the 7-bit part of the UTF-8
    codec, and [pop_system_message] as [open_webui.utils.misc] defines it. *)

Module Demo.
Import Py Net.

Definition is_json_space (c : ascii) : bool :=
  let n := nat_of_ascii c in
  ((n =? 32) || (n =? 9) || (n =? 10) || (n =? 13))%nat.

Fixpoint skip_ws (s : string) : string :=
  match s with
  | String c s' => if is_json_space c then skip_ws s' else s
  | EmptyString => s
  end.

(** The examples write JSON texts with apostrophes where the wire has double
    quotes. *)
Fixpoint wire (s : string) : string :=
  match s with
  | EmptyString => EmptyString
  | String c s' => String (if Ascii.eqb c "'" then dquote else c) (wire s')
  end.

Definition unescape (e : ascii) : option ascii :=
  if Ascii.eqb e dquote then Some dquote
  else match e with
       | "\"%char => Some "\"%char
       | "/"%char => Some "/"%char
       | "n"%char => Some (ascii_of_nat 10)
       | "t"%char => Some (ascii_of_nat 9)
       | "r"%char => Some (ascii_of_nat 13)
       | _ => None
       end.

(** The characters of a string literal after its opening quote, and the text
    after its closing quote. *)
Fixpoint string_body (s : string) : option (string * string) :=
  match s with
  | EmptyString => None
  | String c rest =>
      if Ascii.eqb c dquote then Some (EmptyString, rest)
      else
        match c, rest with
        | "\"%char, String e rest' =>
            match unescape e, string_body rest' with
            | Some c', Some (body, after) => Some (String c' body, after)
            | _, _ => None
            end
        | "\"%char, EmptyString => None
        | _, _ =>
            match string_body rest with
            | Some (body, after) => Some (String c body, after)
            | None => None
            end
        end
  end.

Fixpoint digits_prefix (s : string) (acc : Z) : Z * string :=
  match s with
  | String c s' =>
      match digit_of c with
      | Some d => digits_prefix s' (10 * acc + d)
      | None => (acc, s)
      end
  | EmptyString => (acc, s)
  end.

(** An integer literal; a fraction or an exponent is outside this decoder. *)
Definition number (s : string) : option (json * string) :=
  let (negative, s) :=
    match s with
    | String "-" s' => (true, s')
    | _ => (false, s)
    end in
  match s with
  | String c _ =>
      match digit_of c with
      | Some _ =>
          let (n, rest) := digits_prefix s 0 in
          match rest with
          | String "." _ | String "e" _ | String "E" _ => None
          | _ => Some (JInt (if negative then - n else n), rest)
          end
      | None => None
      end
  | EmptyString => None
  end.

(** [d[k] = v] *)
Fixpoint dict_set (d : list (string * json)) (k : string) (v : json) : list (string * json) :=
  match d with
  | [] => [(k, v)]
  | (k', v') :: d' =>
      if (k' =? k)%string then (k', v) :: d' else (k', v') :: dict_set d' k v
  end.

Fixpoint value (fuel : nat) (s : string) : option (json * string) :=
  match fuel with
  | O => None
  | S fuel =>
      let s := skip_ws s in
      match s with
      | String "{" rest =>
          match skip_ws rest with
          | String "}" rest' => Some (JDict [], rest')
          | _ => members fuel rest []
          end
      | String "[" rest =>
          match skip_ws rest with
          | String "]" rest' => Some (JList [], rest')
          | _ => elements fuel rest []
          end
      | _ =>
          if prefix (String dquote EmptyString) s then
            match string_body (drop 1 s) with
            | Some (body, rest') => Some (JStr body, rest')
            | None => None
            end
          else if prefix "true" s then Some (JBool true, drop 4 s)
          else if prefix "false" s then Some (JBool false, drop 5 s)
          else if prefix "null" s then Some (JNone, drop 4 s)
          else number s
      end
  end
with members (fuel : nat) (s : string) (acc : list (string * json)) : option (json * string) :=
  match fuel with
  | O => None
  | S fuel =>
      match skip_ws s with
      | String c rest =>
          match (if Ascii.eqb c dquote then string_body rest else None) with
          | Some (key, rest') =>
              match skip_ws rest' with
              | String ":" rest'' =>
                  match value fuel rest'' with
                  | Some (v, after) =>
                      match skip_ws after with
                      | String "," more => members fuel more (dict_set acc key v)
                      | String "}" more => Some (JDict (dict_set acc key v), more)
                      | _ => None
                      end
                  | None => None
                  end
              | _ => None
              end
          | None => None
          end
      | _ => None
      end
  end
with elements (fuel : nat) (s : string) (acc : list json) : option (json * string) :=
  match fuel with
  | O => None
  | S fuel =>
      match value fuel s with
      | Some (v, after) =>
          match skip_ws after with
          | String "," more => elements fuel more (acc ++ [v])%list
          | String "]" more => Some (JList (acc ++ [v])%list, more)
          | _ => None
          end
      | None => None
      end
  end.

Definition loads (s : string) : result json :=
  match value (2 * String.length s + 2) s with
  | Some (v, rest) =>
      match skip_ws rest with
      | EmptyString => Ok v
      | _ => Raise (JSONDecodeError "Extra data")
      end
  | None => Raise (JSONDecodeError "Expecting value")
  end.

(** [bytes.decode("utf-8")] on 7-bit input; the examples use no other. *)
Definition is_7bit (s : string) : bool :=
  forallb (fun c => (nat_of_ascii c <? 128)%nat) (list_ascii_of_string s).

Definition decode (line : string) : result string :=
  if is_7bit line then Ok line
  else Raise (UnicodeDecodeError "'utf-8' codec can't decode byte")%string.

(** [get_system_message], [remove_system_message], [pop_system_message]. *)
Fixpoint get_system_message (messages : list json) : result json :=
  match messages with
  | [] => Ok JNone
  | message :: rest =>
      match getitem message "role" with
      | Raise e => Raise e
      | Ok role => if eq_str role "system" then Ok message else get_system_message rest
      end
  end.

Fixpoint remove_system_message (messages : list json) : result (list json) :=
  match messages with
  | [] => Ok []
  | message :: rest =>
      match getitem message "role", remove_system_message rest with
      | Raise e, _ => Raise e
      | Ok _, Raise e => Raise e
      | Ok role, Ok kept => Ok (if eq_str role "system" then kept else message :: kept)
      end
  end.

Definition pop_system_message (messages : json) : result (json * list json) :=
  match Pipe.iterate messages with
  | Ok l =>
      match get_system_message l, remove_system_message l with
      | Ok system_message, Ok kept => Ok (system_message, kept)
      | Raise e, _ => Raise e
      | _, Raise e => Raise e
      end
  | Raise e => Raise e
  end.

(** [str] as [repr] prints the objects of the examples: no floats. *)
Fixpoint str (v : json) : string :=
  match v with
  | JStr s => repr_str s
  | JNone => "None"
  | JBool true => "True"
  | JBool false => "False"
  | JInt n => str_int n
  | JFloat q => format_2f q
  | JList l =>
      "[" ++ (fix items (l : list json) : string :=
                match l with
                | [] => EmptyString
                | [x] => str x
                | x :: rest => str x ++ ", " ++ items rest
                end) l ++ "]"
  | JDict d =>
      "{" ++ (fix items (d : list (string * json)) : string :=
                match d with
                | [] => EmptyString
                | [(k, x)] => repr_str k ++ ": " ++ str x
                | (k, x) :: rest => repr_str k ++ ": " ++ str x ++ ", " ++ items rest
                end) d ++ "}"
  end.

Definition valves : Pipe.Valves :=
  {| Pipe.ANTHROPIC_API_KEY := "sk-ant-test";
     Pipe.ANTHROPIC_API_VERSION := "2023-06-01";
     Pipe.MAX_TOKENS := 4096;
     Pipe.TEMPERATURE := 1;
     Pipe.REQUEST_TIMEOUT := 60;
     Pipe.CONNECTION_TIMEOUT := 305 # 100 |}.

(** ** Event feeds *)

Definition delta_line (t : string) : string :=
  wire ("data: {'type':'content_block_delta','index':0,"
        ++ "'delta':{'type':'text_delta','text':'" ++ t ++ "'}}").

Definition stop_line : string := wire "data: {'type':'message_stop'}".

(** Two deltas and the stop event, with the event-name lines and blank lines
    of the wire format in between, and a third delta after the stop. *)
Definition feed_a_b_stop : list string :=
  ["event: content_block_delta"; delta_line "a"; EmptyString;
   "event: content_block_delta"; delta_line "b"; EmptyString;
   "event: message_stop"; stop_line; EmptyString;
   delta_line "late"].

(** A line of invalid JSON between two deltas. *)
Definition feed_bad_json : list string :=
  [delta_line "a"; "data: {not json"; delta_line "b"].

(** A line of valid JSON that is not an object between two deltas. *)
Definition feed_scalar : list string :=
  [delta_line "a"; "data: 5"; delta_line "b"].

(** A transport that answers every request with the same response. *)
Definition always (r : response) : bool -> string -> json -> json -> post_reply :=
  fun _ _ _ _ => PostResponse r.

Definition streamed (feed : list string) : response :=
  {| status_code := 200; text := EmptyString; lines := feed; lines_end := None |}.

Definition unauthorized : response :=
  {| status_code := 401; text := "unauthorized"; lines := feed_a_b_stop; lines_end := None |}.

Definition hello_body : string :=
  wire "{'id':'msg_1','content':[{'type':'text','text':'hello'}]}".

Definition message (role : string) (content : json) : json :=
  JDict [("role", JStr role); ("content", content)].

Definition request (stream : bool) (messages : list json) : list (string * json) :=
  [("model", JStr "anthropic.claude-opus-4-5");
   ("stream", JBool stream);
   ("messages", JList messages)].

Definition replied (status : Z) (body : string) : response :=
  {| status_code := status; text := body; lines := []; lines_end := None |}.

Definition empty_content_body : string := wire "{'id':'msg_2','content':[]}".

(** ** Images *)

Definition image_item (url : string) : json :=
  JDict [("type", JStr "image_url"); ("image_url", JDict [("url", JStr url)])].

(** [c * n] *)
Definition repeated (c : ascii) (n : N) : string :=
  N.iter n (String c) EmptyString.

Definition png (payload : string) : json :=
  image_item ("data:image/png;base64," ++ payload).

(** A system prompt, a plain question, then a structured message with a text,
    an inline image, a remote image and an item of another type. *)
Definition mixed_messages : list json :=
  [message "system" (JStr "Be brief.");
   message "user" (JStr "What is in the pictures?");
   message "user"
     (JList [JDict [("type", JStr "text"); ("text", JStr "These two:")];
             png "aGVsbG8=";
             image_item "https://example.com/cat.png";
             JDict [("type", JStr "input_audio"); ("data", JStr "UklGRg==")]])].

(** The messages of the payload expected for [mixed_messages], written out. *)
Definition mixed_normalized : list json :=
  [JDict [("role", JStr "user");
          ("content",
           JList [JDict [("type", JStr "text"); ("text", JStr "What is in the pictures?")]])];
   JDict [("role", JStr "user");
          ("content",
           JList [JDict [("type", JStr "text"); ("text", JStr "These two:")];
                  JDict [("type", JStr "image");
                         ("source", JDict [("type", JStr "base64");
                                           ("media_type", JStr "image/png");
                                           ("data", JStr "aGVsbG8=")])];
                  JDict [("type", JStr "image");
                         ("source", JDict [("type", JStr "url");
                                           ("url", JStr "https://example.com/cat.png")])]])]].

Definition mixed_payload : json :=
  JDict [("model", JStr "claude-opus-4-5");
         ("messages", JList mixed_normalized);
         ("max_tokens", JInt 4096);
         ("temperature", JFloat 1);
         ("stream", JBool true);
         ("system", JStr (str (message "system" (JStr "Be brief."))))].

(** Payloads by length: one just within the per-image limit (5242879.5
    estimated bytes), one just beyond it, one beyond the total limit
    (101.25 MiB). *)
Definition within_limit : string := repeated "A" 6990506.
Definition beyond_limit : string := repeated "A" 7000000.
Definition huge : string := repeated "A" 141557760.

(** Twenty-one images of [within_limit] in one message. *)
Definition album (payload : string) : list json :=
  [message "user" (JList (List.repeat (png payload) 21))].

(** A text item without its text. *)
Definition broken_text : list json :=
  [message "user" (JList [JDict [("type", JStr "text")]])].

(** An image item without its [image_url]. *)
Definition broken_image : list json :=
  [message "user" (JList [JDict [("type", JStr "image_url")]])].

Definition cat_url : string := "https://example.com/cat.png".

(** Probes: a reply without the header, and one whose header is not a number. *)
Definition no_length : string -> head_reply := fun _ => HeadResponse None.
Definition garbled_length : string -> head_reply := fun _ => HeadResponse (Some "abc").

End Demo.


(* ================================================================== *)
(** * Vocabulary of the statements *)

Module Spec.
Import Py Net Pipe.

(** ** Event feed *)

Section Feed.

Variable json_loads : string -> result json.
Variable decode_utf8 : string -> result string.

(** A line the loop passes over: blank, or text without the data prefix. *)
Definition ignorable (line : string) : Prop :=
  line = EmptyString
  \/ exists s, decode_utf8 line = Ok s /\ startswith s "data: " = false.

(** A data line whose JSON text decodes to [data]. *)
Definition data_line_of (line : string) (data : json) : Prop :=
  line <> EmptyString
  /\ exists s, decode_utf8 line = Ok s
               /\ startswith s "data: " = true
               /\ json_loads (drop 6 s) = Ok data.

(** A data line whose JSON text does not decode. *)
Definition undecodable_line (line : string) : Prop :=
  line <> EmptyString
  /\ exists s msg, decode_utf8 line = Ok s
                   /\ startswith s "data: " = true
                   /\ json_loads (drop 6 s) = Raise (JSONDecodeError msg).

End Feed.

(** The events of the remote protocol, as JSON objects. *)
Definition content_delta (data : json) (delta_text : json) : Prop :=
  exists fields delta,
    data = JDict fields
    /\ lookup "type" fields = Some (JStr "content_block_delta")
    /\ lookup "delta" fields = Some (JDict delta)
    /\ lookup "text" delta = Some delta_text.

Definition message_stop (data : json) : Prop :=
  exists fields,
    data = JDict fields /\ lookup "type" fields = Some (JStr "message_stop").

(** ** Response body *)

(** An object whose [type] is "text" and whose [text] is [v]. *)
Definition text_block_with (block v : json) : Prop :=
  exists fields,
    block = JDict fields
    /\ lookup "type" fields = Some (JStr "text")
    /\ lookup "text" fields = Some v.

(** An object whose [type] is missing or is not "text". *)
Definition not_text_block (block : json) : Prop :=
  exists fields,
    block = JDict fields /\ eq_str (dict_get fields "type" JNone) "text" = false.

(** ** Content blocks of the remote protocol

    Written from the data model, not from the code: a content block is
    [Text{text: string}] or [Image{source}], the source being
    [Inline{mediaType, data}] or [Remote{url}]; as JSON, objects tagged by
    "type" that hold these fields and no others. *)

(** [v] is an object that holds the fields [fields] and no others. *)
Definition object_of (fields : list (string * json)) (v : json) : Prop :=
  exists d,
    v = JDict d
    /\ List.length d = List.length fields
    /\ Forall (fun field => lookup (fst field) d = Some (snd field)) fields.

(** A block of type "text" whose text is the value [t]. *)
Definition text_of (t block : json) : Prop :=
  object_of [("type", JStr "text"); ("text", t)] block.

(** [Text{text: string}] *)
Definition protocol_text (block : json) : Prop :=
  exists text : string, text_of (JStr text) block.

(** [Inline{mediaType, data}] and [Remote{url}] *)
Definition inline_source (source : json) : Prop :=
  exists media_type data : string,
    object_of [("type", JStr "base64");
               ("media_type", JStr media_type);
               ("data", JStr data)] source.

Definition remote_source (source : json) : Prop :=
  exists url : string, object_of [("type", JStr "url"); ("url", JStr url)] source.

(** [Image{source}] *)
Definition protocol_image (block : json) : Prop :=
  exists source,
    object_of [("type", JStr "image"); ("source", source)] block
    /\ (inline_source source \/ remote_source source).

(** A content block is exactly one of the two variants. *)
Definition protocol_block (block : json) : Prop :=
  (protocol_text block /\ ~ protocol_image block)
  \/ (protocol_image block /\ ~ protocol_text block).

(** A message of the payload: a role and a list of content blocks. *)
Definition protocol_message (out : json) : Prop :=
  exists role blocks,
    object_of [("role", role); ("content", JList blocks)] out
    /\ Forall protocol_block blocks.

(** The content expected in the payload for a structured content list: for an
    item of type "text" a block of type "text" with the item's text, for an
    item of type "image_url" an image block, for an item of any other type
    nothing; in the order of the items. *)
Inductive expected_blocks : list json -> list json -> Prop :=
| expected_nil : expected_blocks [] []
| expected_text item t block items blocks :
    getitem item "type" = Ok (JStr "text") ->
    getitem item "text" = Ok t ->
    text_of t block ->
    expected_blocks items blocks ->
    expected_blocks (item :: items) (block :: blocks)
| expected_image item block items blocks :
    getitem item "type" = Ok (JStr "image_url") ->
    protocol_image block ->
    expected_blocks items blocks ->
    expected_blocks (item :: items) (block :: blocks)
| expected_other item ty items blocks :
    getitem item "type" = Ok ty ->
    ty <> JStr "text" ->
    ty <> JStr "image_url" ->
    expected_blocks items blocks ->
    expected_blocks (item :: items) blocks.

(** The message expected in the payload for [message]: the same role, and for
    a content list the blocks above, for any other content one block of type
    "text" with that content, the empty string when the message has none. *)
Definition expected_message (message out : json) : Prop :=
  exists role blocks,
    getitem message "role" = Ok role
    /\ object_of [("role", role); ("content", JList blocks)] out
    /\ match get message "content" (JStr EmptyString) with
       | Ok (JList items) => expected_blocks items blocks
       | Ok content => exists block, blocks = [block] /\ text_of content block
       | Raise _ => False
       end.

(** Messages whose texts are strings: the content is a string, is absent, or
    is a list whose items of type "text" have a string for their text. *)
Definition text_is_string (item : json) : Prop :=
  getitem item "type" = Ok (JStr "text") ->
  exists text : string, getitem item "text" = Ok (JStr text).

Definition typed_content (message : json) : Prop :=
  match get message "content" (JStr EmptyString) with
  | Ok (JStr _) => True
  | Ok (JList items) => Forall text_is_string items
  | _ => False
  end.

(** ** Normalised messages, as the code builds them *)

Definition is_image_block (block : json) : Prop :=
  (exists media_type data, block = base64_image media_type data)
  \/ (exists url, block = url_image url).

(** The blocks [pipe] builds for a structured content list: a text item gives
    the text block of its text, an [image_url] item gives an image block,
    items of any other type give nothing. *)
Inductive blocks_of : list json -> list json -> Prop :=
| blocks_nil : blocks_of [] []
| blocks_text item t items blocks :
    getitem item "type" = Ok (JStr "text") ->
    getitem item "text" = Ok t ->
    blocks_of items blocks ->
    blocks_of (item :: items) (text_block t :: blocks)
| blocks_image item block items blocks :
    getitem item "type" = Ok (JStr "image_url") ->
    is_image_block block ->
    blocks_of items blocks ->
    blocks_of (item :: items) (block :: blocks)
| blocks_other item ty items blocks :
    getitem item "type" = Ok ty ->
    ty <> JStr "text" ->
    ty <> JStr "image_url" ->
    blocks_of items blocks ->
    blocks_of (item :: items) blocks.

(** [out] is what [pipe] builds for [message]: the same role, and either the
    blocks of its content list, or, when the content is not a list, the single
    text block of the content (of the empty string when there is none). *)
Definition normalized_from (message out : json) : Prop :=
  exists role content,
    getitem message "role" = Ok role
    /\ get message "content" (JStr EmptyString) = Ok content
    /\ match content with
       | JList items =>
           exists blocks,
             blocks_of items blocks
             /\ out = JDict [("role", role); ("content", JList blocks)]
       | _ => out = JDict [("role", role); ("content", JList [text_block content])]
       end.

(** ** Inline image sizes of a batch *)

(** The base64 payload of an [image_url] item that carries a data URI. *)
Definition image_payload (item : json) : option string :=
  match getitem item "image_url" with
  | Ok image_url =>
      match getitem image_url "url" with
      | Ok (JStr url) => if startswith url "data:image" then snd (cut "," url) else None
      | _ => None
      end
  | Raise _ => None
  end.

Definition item_inline_size (item : json) : Q :=
  match getitem item "type" with
  | Ok ty =>
      if eq_str ty "image_url" then
        match image_payload item with
        | Some payload => estimated_size payload
        | None => 0%Q
        end
      else 0%Q
  | Raise _ => 0%Q
  end.

Definition items_inline_size (items : list json) : Q :=
  fold_right (fun item total => (item_inline_size item + total)%Q) 0%Q items.

Definition message_inline_size (message : json) : Q :=
  match get message "content" JNone with
  | Ok (JList items) => items_inline_size items
  | _ => 0%Q
  end.

Definition batch_inline_size (messages : list json) : Q :=
  fold_right (fun message total => (message_inline_size message + total)%Q) 0%Q messages.

(** The texts [pipe] returns when the processing of an image fails. *)
Definition image_error (v : json) : Prop :=
  exists msg, v = JStr ("Error: Failed to process image: " ++ msg).

(** The exception of the running-total check. *)
Definition total_size_exception (total : Q) : exn :=
  ValueError ("Total image size exceeds 100MB limit: "
              ++ format_2f (megabytes total) ++ "MB").

(** The text [pipe] returns when the running total passes the limit. *)
Definition total_size_error (total : Q) : string :=
  "Error: Failed to process image: Total image size exceeds 100MB limit: "
  ++ format_2f (megabytes total) ++ "MB".

(** ** Well-formed batches *)

Section WellFormed.

Variable http_head : string -> head_reply.

(** A probe that does not stop the request. *)
Definition probe_passes (url : string) : Prop :=
  match http_head url with
  | HeadRaises e => is_request_exception e = true
  | HeadResponse None => True
  | HeadResponse (Some header) =>
      exists n, int_of_str header = Ok n /\ n <= MAX_IMAGE_SIZE
  end.

Inductive valid_item : json -> Prop :=
| valid_text item t :
    getitem item "type" = Ok (JStr "text") ->
    getitem item "text" = Ok t ->
    valid_item item
| valid_inline item image_url media_type params payload :
    getitem item "type" = Ok (JStr "image_url") ->
    getitem item "image_url" = Ok image_url ->
    getitem image_url "url" = Ok (JStr ("data:" ++ media_type ++ params ++ "," ++ payload)) ->
    startswith media_type "image" = true ->
    str_in ":" media_type = false ->
    str_in ";" media_type = false ->
    str_in "," media_type = false ->
    params = EmptyString \/ (exists p, params = ";" ++ p) ->
    str_in "," params = false ->
    (estimated_size payload <= inject_Z MAX_IMAGE_SIZE)%Q ->
    valid_item item
| valid_remote item image_url url :
    getitem item "type" = Ok (JStr "image_url") ->
    getitem item "image_url" = Ok image_url ->
    getitem image_url "url" = Ok (JStr url) ->
    startswith url "data:image" = false ->
    probe_passes url ->
    valid_item item
| valid_other item ty :
    getitem item "type" = Ok ty ->
    eq_str ty "text" = false ->
    eq_str ty "image_url" = false ->
    valid_item item.

Definition valid_message (message : json) : Prop :=
  (exists role, getitem message "role" = Ok role)
  /\ exists content,
       get message "content" JNone = Ok content
       /\ forall items, content = JList items -> Forall valid_item items.

End WellFormed.

(** Network calls other than the request to the messages endpoint. *)
Definition probes_only (calls : list call) : Prop :=
  Forall (fun c => is_post c = false) calls.

(** A payload exists: [pipe] has returned the generator that holds it, or has
    posted it as the last call of the run. *)
Definition payload_built (r : result pipe_return) (log log' : list call) (payload : json)
  : Prop :=
  (exists url headers, r = Ok (Generator url headers payload))
  \/ (exists probes stream url headers,
         log' = (log ++ probes ++ [PostCall stream url headers payload])%list).

(** The error text for a response that is not 200. *)
Definition http_error_text (status : Z) (body : string) : string :=
  "Error: HTTP " ++ str_int status ++ ": " ++ body.

End Spec.

(* ================================================================== *)
(** * Further inputs for the worked examples *)

Module Cases.
Import Py Net.

(** A configuration without an API key. *)
Definition no_key : Pipe.Valves :=
  {| Pipe.ANTHROPIC_API_KEY := EmptyString;
     Pipe.ANTHROPIC_API_VERSION := "2023-06-01";
     Pipe.MAX_TOKENS := 4096;
     Pipe.TEMPERATURE := 1;
     Pipe.REQUEST_TIMEOUT := 60;
     Pipe.CONNECTION_TIMEOUT := 305 # 100 |}.

(** A transport on which every request fails with [e]. *)
Definition failing (e : exn) : bool -> string -> json -> json -> post_reply :=
  fun _ _ _ _ => PostRaises e.

(** ** Event feeds *)

Definition ping_line : string := Demo.wire "data: {'type':'ping'}".

Definition start_line : string := Demo.wire "data: {'type':'message_start'}".

(** A delta that carries no text. *)
Definition json_delta_line : string :=
  Demo.wire ("data: {'type':'content_block_delta','index':1,"
             ++ "'delta':{'type':'input_json_delta','partial_json':'{}'}}").

(** An object without a type. *)
Definition untyped_line : string := Demo.wire "data: {'index':0}".

Definition feed_mixed : list string :=
  ["event: message_start"; start_line; EmptyString;
   Demo.delta_line "a"; ping_line; "data: {not json"; json_delta_line; untyped_line;
   Demo.delta_line "b"].

(** A 200 response whose feed breaks off after [feed] with a connection error. *)
Definition interrupted (feed : list string) : response :=
  {| status_code := 200; text := EmptyString; lines := feed;
     lines_end := Some (RequestException "Connection broken") |}.

(** ** Response bodies *)

Definition no_content_body : string := Demo.wire "{'id':'msg_3','type':'message'}".
Definition null_content_body : string := Demo.wire "{'id':'msg_4','content':null}".
Definition html_body : string := "<html>Bad Gateway</html>".
Definition string_blocks_body : string := Demo.wire "{'content':['hello']}".

(** ** Image items *)

Definition no_image_url : json := JDict [("type", JStr "image_url")].
Definition no_url : json := JDict [("type", JStr "image_url"); ("image_url", JDict [])].
Definition no_comma : json := Demo.image_item "data:image/png;base64".

(** Probes: a declared length, and a host that cannot be reached. *)
Definition declared (header : string) : string -> head_reply :=
  fun _ => HeadResponse (Some header).
Definition unreachable : string -> head_reply :=
  fun _ => HeadRaises (RequestException "Connection refused").

(** The decimal digits of 10^400, a length no float can hold in megabytes. *)
Definition googol4 : string := String "1" (Demo.repeated "0" 400).

(** ** Requests *)

(** A message whose content is null, and the payload [pipe] sends for it. *)
Definition null_content : list json := [Demo.message "user" JNone].

Definition null_text : json := JDict [("type", JStr "text"); ("text", JNone)].

Definition null_content_payload : json :=
  JDict [("model", JStr "claude-opus-4-5");
         ("messages", JList [JDict [("role", JStr "user"); ("content", JList [null_text])]]);
         ("max_tokens", JInt 4096);
         ("temperature", JFloat 1);
         ("stream", JBool false)].

Definition with_stop : list (string * json) :=
  [("model", JStr "anthropic.claude-opus-4-5");
   ("max_tokens", JNone);
   ("stop", JList [JStr "END"]);
   ("messages", JList [Demo.message "user" (JStr "hi")])].

Definition without_model : list (string * json) :=
  [("messages", JList [Demo.message "user" (JStr "hi")])].

Definition numeric_model : list (string * json) :=
  [("model", JInt 5); ("messages", JList [Demo.message "user" (JStr "hi")])].

End Cases.

(* ================================================================== *)
(** * Vocabulary of the further statements *)

Module Behaviour.
Import Py Net Pipe Spec.

(** ** Event feed *)

(** An event object that the loop does nothing with: no [type] (the
    [KeyError] handler), a type other than the two handled, or a content delta
    without a [delta] or whose [delta] object has no [text]. *)
Definition unhandled_event (data : json) : Prop :=
  exists fields,
    data = JDict fields
    /\ (lookup "type" fields = None
        \/ (exists ty,
               lookup "type" fields = Some ty
               /\ eq_str ty "content_block_delta" = false
               /\ eq_str ty "message_stop" = false)
        \/ (lookup "type" fields = Some (JStr "content_block_delta")
            /\ (lookup "delta" fields = None
                \/ exists delta,
                     lookup "delta" fields = Some (JDict delta)
                     /\ lookup "text" delta = None))).

Section Feed.

Variable json_loads : string -> result json.
Variable decode_utf8 : string -> result string.

Definition passed_over (line : string) : Prop :=
  ignorable decode_utf8 line
  \/ undecodable_line json_loads decode_utf8 line
  \/ exists data, data_line_of json_loads decode_utf8 line data /\ unhandled_event data.

(** [feed lines texts stopped]: reading [lines] in order, the content deltas
    met before the first stop event carry [texts]; [stopped] tells whether a
    stop event was met.  Nothing is asked of the lines after it. *)
Inductive feed : list string -> list json -> bool -> Prop :=
| feed_end : feed [] [] false
| feed_pass line rest texts stopped :
    passed_over line ->
    feed rest texts stopped ->
    feed (line :: rest) texts stopped
| feed_delta line data t rest texts stopped :
    data_line_of json_loads decode_utf8 line data ->
    content_delta data t ->
    feed rest texts stopped ->
    feed (line :: rest) (t :: texts) stopped
| feed_stop line data rest :
    data_line_of json_loads decode_utf8 line data ->
    message_stop data ->
    feed (line :: rest) [] true.

End Feed.

(** What the generator yields once the feed is over: nothing after a stop event
    or a clean end, one error text after an interruption. *)
Definition feed_tail (stopped : bool) (lines_end : option exn) : list json :=
  if stopped then []
  else match lines_end with
       | Some e => [stream_error e]
       | None => []
       end.

(** ** Size of the blocks *)

(** An inline image block within the per-image limit; other blocks qualify. *)
Definition within_image_limit (block : json) : Prop :=
  forall media_type data,
    block = base64_image media_type data ->
    (estimated_size data <= inject_Z MAX_IMAGE_SIZE)%Q.

Definition message_within_limit (out : json) : Prop :=
  forall role blocks,
    out = JDict [("role", role); ("content", JList blocks)] ->
    Forall within_image_limit blocks.

(** ** Probes *)

(** The probe that a block of the payload stands for: the HEAD request for the
    URL of a URL image, none for other blocks. *)
Definition block_probes (block : json) : list call :=
  match getitem block "source" with
  | Ok source =>
      match getitem source "url" with
      | Ok (JStr url) => [HeadCall url]
      | _ => []
      end
  | Raise _ => []
  end.

Definition message_probes (out : json) : list call :=
  match getitem out "content" with
  | Ok (JList blocks) => flat_map block_probes blocks
  | _ => []
  end.

(** ** Payload *)

(** The payload field [k] is the caller's value when [body] has the key, and
    [default] when it has not. *)
Definition defaulted (body fields : list (string * json)) (k : string) (default : json)
  : Prop :=
  (forall v, lookup k body = Some v -> lookup k fields = Some v)
  /\ (lookup k body = None -> lookup k fields = Some default).

(** ** The runs of [pipe] *)

Section Runs.

Variable valves : Valves.
Variable json_loads : string -> result json.
Variable pop_system_message : json -> result (json * list json).
Variable py_str : json -> string.
Variable http_head : string -> head_reply.
Variable http_post : bool -> string -> json -> json -> post_reply.

(** [body["model"]] resolved. *)
Definition resolved_model (body : list (string * json)) : result json :=
  and_then (getitem (JDict body) "model") _extract_model_id.

(** The ways through [pipe], in the order of its text. *)
Inductive pipe_run (body : list (string * json)) (log : list call)
  : result pipe_return -> list call -> Prop :=
| run_no_key :
    ANTHROPIC_API_KEY valves = EmptyString ->
    pipe_run body log (Ok (Value (JStr "Error: ANTHROPIC_API_KEY not configured"))) log
| run_no_messages :
    ANTHROPIC_API_KEY valves <> EmptyString ->
    lookup "messages" body = None ->
    pipe_run body log (Raise (KeyError "messages")) log
| run_pop_raises raw e :
    ANTHROPIC_API_KEY valves <> EmptyString ->
    lookup "messages" body = Some raw ->
    pop_system_message raw = Raise e ->
    pipe_run body log (Raise e) log
| run_normalize_raises raw system_message messages e log1 :
    ANTHROPIC_API_KEY valves <> EmptyString ->
    lookup "messages" body = Some raw ->
    pop_system_message raw = Ok (system_message, messages) ->
    process_messages http_head messages [] 0%Q log = (Raise e, log1) ->
    pipe_run body log (Raise e) log1
| run_image_error raw system_message messages v log1 :
    ANTHROPIC_API_KEY valves <> EmptyString ->
    lookup "messages" body = Some raw ->
    pop_system_message raw = Ok (system_message, messages) ->
    process_messages http_head messages [] 0%Q log = (Ok (Return v), log1) ->
    pipe_run body log (Ok (Value v)) log1
| run_model_error raw system_message messages out log1 e :
    ANTHROPIC_API_KEY valves <> EmptyString ->
    lookup "messages" body = Some raw ->
    pop_system_message raw = Ok (system_message, messages) ->
    process_messages http_head messages [] 0%Q log = (Ok (Next out), log1) ->
    resolved_model body = Raise e ->
    pipe_run body log
      (Ok (Value (JStr ("Error: Invalid model format: " ++ str_exn e)))) log1
| run_stream raw system_message messages out log1 model_id payload :
    ANTHROPIC_API_KEY valves <> EmptyString ->
    lookup "messages" body = Some raw ->
    pop_system_message raw = Ok (system_message, messages) ->
    process_messages http_head messages [] 0%Q log = (Ok (Next out), log1) ->
    resolved_model body = Ok model_id ->
    build_payload valves py_str body model_id out system_message = Ok payload ->
    truthy (dict_get body "stream" (JBool false)) = true ->
    pipe_run body log (Ok (Generator api_url (build_headers valves) payload)) log1
| run_post raw system_message messages out log1 model_id payload v :
    ANTHROPIC_API_KEY valves <> EmptyString ->
    lookup "messages" body = Some raw ->
    pop_system_message raw = Ok (system_message, messages) ->
    process_messages http_head messages [] 0%Q log = (Ok (Next out), log1) ->
    resolved_model body = Ok model_id ->
    build_payload valves py_str body model_id out system_message = Ok payload ->
    truthy (dict_get body "stream" (JBool false)) = false ->
    non_stream_response json_loads http_post api_url (build_headers valves) payload log1
    = (Ok v, (log1 ++ [PostCall false api_url (build_headers valves) payload])%list) ->
    pipe_run body log (Ok (Value v))
      (log1 ++ [PostCall false api_url (build_headers valves) payload])%list.

End Runs.

End Behaviour.

(* ================================================================== *)
(** * Facts about the Python primitives *)

Module PyFacts.
Import Py.

(** Integer division raises nothing but its own two errors. *)
Lemma true_div_raises (a b : Z) (e : exn) :
  true_div a b = Raise e ->
  (b = 0 /\ e = ZeroDivisionError "division by zero")
  \/ (b <> 0 /\ e = OverflowError "integer division result too large for a float").
Proof.
  unfold true_div. destruct (Z.eqb_spec b 0) as [->|Hb].
  - intros H. inversion H. left. split; reflexivity.
  - destruct (a =? 0); [discriminate|].
    destruct (Qle_bool _ _); [|discriminate].
    intros H. inversion H. right. split; [assumption | reflexivity].
Qed.

(** The two decimals of a float depend on its value only. *)
Lemma format_2f_Qeq (x y : Q) : (x == y)%Q -> format_2f x = format_2f y.
Proof.
  unfold Qeq, format_2f. destruct x as [a b], y as [c d]. cbn [Qnum Qden]. intros H.
  assert ((a * 100) / Zpos b = (c * 100) / Zpos d) as Hfl.
  { rewrite <- (Z.div_mul_cancel_r (a * 100) (Zpos b) (Zpos d)) by lia.
    rewrite <- (Z.div_mul_cancel_r (c * 100) (Zpos d) (Zpos b)) by lia.
    f_equal; lia. }
  assert (((a * 100) mod Zpos b) * Zpos d = ((c * 100) mod Zpos d) * Zpos b) as Hr.
  { rewrite !Z.mod_eq by lia. rewrite Hfl. nia. }
  rewrite <- Hfl.
  set (fl := a * 100 / Zpos b) in *.
  set (r := (a * 100) mod Zpos b) in *. set (r' := (c * 100) mod Zpos d) in *.
  assert ((2 * r <? Zpos b) = (2 * r' <? Zpos d)) as ->.
  { destruct (Z.ltb_spec (2 * r) (Zpos b)), (Z.ltb_spec (2 * r') (Zpos d));
      try reflexivity; exfalso; nia. }
  assert ((Zpos b <? 2 * r) = (Zpos d <? 2 * r')) as ->.
  { destruct (Z.ltb_spec (Zpos b) (2 * r)), (Z.ltb_spec (Zpos d) (2 * r'));
      try reflexivity; exfalso; nia. }
  reflexivity.
Qed.

(** Below 2^53 the quotient by [1024 * 1024] is a float: the division is
    exact. *)
Lemma true_div_exact (n : Z) :
  0 < n < 2 ^ 53 ->
  exists size,
    true_div n (1024 * 1024) = Ok size
    /\ (size == inject_Z n / inject_Z (1024 * 1024))%Q.
Proof.
  intros [Hpos Hlt].
  pose proof (Z.log2_spec n Hpos) as [Hlow Hhigh].
  pose proof (Z.log2_nonneg n) as Hnonneg.
  assert (Z.log2 n < 53) as Hlog by (apply Z.log2_lt_pow2; assumption).
  set (l := Z.log2 n) in *.
  assert (l < 20 -> 2 ^ 20 = 2 ^ l * 2 ^ (20 - l)) as Hbelow.
  { intros. rewrite <- Z.pow_add_r by lia. f_equal. lia. }
  assert (20 <= l -> 2 ^ l = 2 ^ 20 * 2 ^ (l - 20)) as Habove.
  { intros. rewrite <- Z.pow_add_r by lia. f_equal. lia. }
  assert (2 ^ (72 - l) = 2 ^ (52 - l) * 2 ^ 20) as Hscale.
  { rewrite <- Z.pow_add_r by lia. f_equal. lia. }
  assert (0 < 2 ^ (52 - l)) as Hp by (apply Z.pow_pos_nonneg; lia).
  assert (n * 2 ^ (52 - l) < 2 ^ 53) as Hm.
  { replace (2 ^ 53) with (2 ^ Z.succ l * 2 ^ (52 - l))
      by (rewrite <- Z.pow_add_r by lia; f_equal; lia).
    apply Z.mul_lt_mono_pos_r; assumption. }
  assert (nearest_float n (1024 * 1024)
          = Qmake (n * 2 ^ (52 - l)) (Z.to_pos (2 ^ (72 - l)))) as Hfloat.
  { unfold nearest_float. change (Z.log2 (1024 * 1024)) with 20. fold l.
    change (1024 * 1024) with (2 ^ 20).
    assert ((if 0 <=? l - 20 then 2 ^ 20 * 2 ^ (l - 20) <=? n
             else 2 ^ 20 <=? n * 2 ^ (- (l - 20))) = true) as ->.
    { destruct (Z.leb_spec 0 (l - 20)).
      - apply Z.leb_le. rewrite <- Habove by lia. exact Hlow.
      - apply Z.leb_le. replace (- (l - 20)) with (20 - l) by lia.
        rewrite Hbelow by lia.
        apply Z.mul_le_mono_nonneg_r; [apply Z.pow_nonneg; lia | exact Hlow]. }
    replace (Z.max (l - 20 - 52) (- 1074)) with (l - 72) by lia.
    assert ((0 <=? l - 72) = false) as -> by (apply Z.leb_gt; lia).
    replace (- (l - 72)) with (72 - l) by lia. rewrite Hscale.
    rewrite Z.mul_assoc, Z.div_mul, Z.mod_mul by lia.
    reflexivity. }
  exists (Qmake (n * 2 ^ (52 - l)) (Z.to_pos (2 ^ (72 - l)))). split.
  - unfold true_div. change (1024 * 1024 =? 0) with false. cbv iota.
    assert ((n =? 0) = false) as -> by (apply Z.eqb_neq; lia).
    rewrite (Z.abs_eq n) by lia. change (Z.abs (1024 * 1024)) with (1024 * 1024).
    rewrite Hfloat.
    assert (Qle_bool (inject_Z (2 ^ 1024))
              (Qmake (n * 2 ^ (52 - l)) (Z.to_pos (2 ^ (72 - l)))) = false) as ->.
    { destruct (Qle_bool _ _) eqn:E; [|reflexivity]. exfalso.
      apply Qle_bool_iff in E. unfold Qle in E. cbn [Qnum Qden inject_Z] in E.
      assert (2 ^ 53 < 2 ^ 1024) by (apply Z.pow_lt_mono_r; lia).
      assert (2 ^ 1024 <= 2 ^ 1024 * Zpos (Z.to_pos (2 ^ (72 - l)))) by nia.
      lia. }
    rewrite (Z.sgn_pos n) by lia. reflexivity.
  - assert ((inject_Z n / inject_Z (1024 * 1024))%Q = Qmake (n * 1) 1048576) as ->
      by reflexivity.
    unfold Qeq. cbn [Qnum Qden].
    rewrite Z2Pos.id by (apply Z.pow_pos_nonneg; lia).
    rewrite Hscale. change (Zpos 1048576) with (2 ^ 20). ring.
Qed.

(** The quotient by [1024 * 1024] is beyond the floats exactly from
    2^1044 - 2^990 on: the first integer whose quotient rounds to 2^1024. *)
Lemma true_div_overflow (n : Z) :
  0 < n ->
  (true_div n (1024 * 1024)
   = Raise (OverflowError "integer division result too large for a float")
   <-> 2 ^ 1044 - 2 ^ 990 <= n)
  /\ (n < 2 ^ 1044 - 2 ^ 990 -> exists size, true_div n (1024 * 1024) = Ok size).
Proof.
  intros Hpos.
  pose proof (Z.log2_spec n Hpos) as [Hlow Hhigh].
  pose proof (Z.log2_nonneg n) as Hnonneg.
  set (l := Z.log2 n) in *.
  assert (forall q,
             nearest_float n (1024 * 1024) = q ->
             (Qle_bool (inject_Z (2 ^ 1024)) q = true <-> 2 ^ 1044 - 2 ^ 990 <= n) ->
             (true_div n (1024 * 1024)
              = Raise (OverflowError "integer division result too large for a float")
              <-> 2 ^ 1044 - 2 ^ 990 <= n)
             /\ (n < 2 ^ 1044 - 2 ^ 990 -> exists size, true_div n (1024 * 1024) = Ok size))
    as Hreduce.
  { intros q Hq Hiff. unfold true_div. change (1024 * 1024 =? 0) with false. cbv iota.
    assert ((n =? 0) = false) as -> by (apply Z.eqb_neq; lia).
    rewrite (Z.abs_eq n) by lia. change (Z.abs (1024 * 1024)) with (1024 * 1024).
    rewrite Hq. destruct (Qle_bool (inject_Z (2 ^ 1024)) q).
    - split; [split; [intros _; apply Hiff; reflexivity | reflexivity]|].
      intros Hlt. exfalso. pose proof (proj1 Hiff eq_refl). lia.
    - split; [split; [discriminate | intros H; apply Hiff in H; discriminate]|].
      intros _. eexists. reflexivity. }
  assert (l < 20 -> 2 ^ 20 = 2 ^ l * 2 ^ (20 - l)) as Hbelow.
  { intros. rewrite <- Z.pow_add_r by lia. f_equal. lia. }
  assert (20 <= l -> 2 ^ l = 2 ^ 20 * 2 ^ (l - 20)) as Habove.
  { intros. rewrite <- Z.pow_add_r by lia. f_equal. lia. }
  assert ((if 0 <=? l - 20 then 2 ^ 20 * 2 ^ (l - 20) <=? n
           else 2 ^ 20 <=? n * 2 ^ (- (l - 20))) = true) as Hab.
  { destruct (Z.leb_spec 0 (l - 20)).
    - apply Z.leb_le. rewrite <- Habove by lia. exact Hlow.
    - apply Z.leb_le. replace (- (l - 20)) with (20 - l) by lia.
      rewrite Hbelow by lia.
      apply Z.mul_le_mono_nonneg_r; [apply Z.pow_nonneg; lia | exact Hlow]. }
  assert (2 ^ 72 < 2 ^ 1044 - 2 ^ 990) as Hsmall by (vm_compute; reflexivity).
  assert (2 ^ 1043 < 2 ^ 1044 - 2 ^ 990) as Hmid by (vm_compute; reflexivity).
  assert (2 ^ 1044 - 2 ^ 990 < 2 ^ 1044) as Htop by (vm_compute; reflexivity).
  eapply Hreduce; [reflexivity|].
  unfold nearest_float. change (Z.log2 (1024 * 1024)) with 20. fold l.
  change (1024 * 1024) with (2 ^ 20). rewrite Hab.
  replace (Z.max (l - 20 - 52) (- 1074)) with (l - 72) by lia.
  destruct (Z.leb_spec 0 (l - 72)) as [Hbig|Hsmalll].
  - (* at least 73 bits *)
    assert (2 ^ 20 * 2 ^ (l - 72) = 2 ^ (l - 52)) as ->
        by (rewrite <- Z.pow_add_r by lia; f_equal; lia).
    assert (0 < 2 ^ (l - 52)) as Hden by (apply Z.pow_pos_nonneg; lia).
    assert (0 < 2 ^ (l - 72)) as Hp by (apply Z.pow_pos_nonneg; lia).
    assert (2 ^ l = 2 ^ 52 * 2 ^ (l - 52)) as Hl
        by (rewrite <- Z.pow_add_r by lia; f_equal; lia).
    assert (2 ^ Z.succ l = 2 ^ 53 * 2 ^ (l - 52)) as Hl'
        by (rewrite <- Z.pow_add_r by lia; f_equal; lia).
    assert (2 ^ 52 <= n / 2 ^ (l - 52)) as Hfl1.
    { apply Z.div_le_lower_bound; [exact Hden|]. rewrite Z.mul_comm, <- Hl. exact Hlow. }
    assert (n / 2 ^ (l - 52) < 2 ^ 53) as Hfl2.
    { apply Z.div_lt_upper_bound; [exact Hden|]. rewrite Z.mul_comm, <- Hl'. exact Hhigh. }
    pose proof (Z.div_mod n (2 ^ (l - 52)) ltac:(lia)) as Hdm.
    pose proof (Z.mod_pos_bound n (2 ^ (l - 52)) Hden) as Hr.
    set (fl := n / 2 ^ (l - 52)) in *. set (r := n mod 2 ^ (l - 52)) in *.
    set (m := if 2 * r <? 2 ^ (l - 52) then fl
              else if 2 ^ (l - 52) <? 2 * r then fl + 1
                   else if Z.even fl then fl else fl + 1).
    assert (fl <= m <= fl + 1) as Hm.
    { unfold m. destruct (2 * r <? 2 ^ (l - 52)); [lia|].
      destruct (2 ^ (l - 52) <? 2 * r); [lia|]. destruct (Z.even fl); lia. }
    rewrite Qle_bool_iff. unfold Qle. cbn [Qnum Qden inject_Z]. rewrite !Z.mul_1_r.
    destruct (Z_lt_le_dec l 1043) as [Hl1|Hl1]; [|destruct (Z_lt_le_dec 1043 l) as [Hl2|Hl2]].
    + (* below 2^1043: no overflow *)
      assert (2 ^ (l - 72) <= 2 ^ 970) as Hp' by (apply Z.pow_le_mono_r; lia).
      assert (n < 2 ^ 1043).
      { eapply Z.lt_le_trans; [exact Hhigh|]. apply Z.pow_le_mono_r; lia. }
      assert (m * 2 ^ (l - 72) <= 2 ^ 53 * 2 ^ 970) as Hq
          by (apply Z.mul_le_mono_nonneg; lia).
      change (2 ^ 53 * 2 ^ 970) with (2 ^ 1023) in Hq.
      assert (2 ^ 1023 < 2 ^ 1024) by (vm_compute; reflexivity).
      split; intros; exfalso; lia.
    + (* from 2^1044 on: overflow *)
      assert (2 ^ 972 <= 2 ^ (l - 72)) as Hp' by (apply Z.pow_le_mono_r; lia).
      assert (2 ^ 1044 <= n).
      { eapply Z.le_trans; [|exact Hlow]. apply Z.pow_le_mono_r; lia. }
      assert (2 ^ 52 * 2 ^ 972 <= m * 2 ^ (l - 72)) as Hq
          by (apply Z.mul_le_mono_nonneg; lia).
      change (2 ^ 52 * 2 ^ 972) with (2 ^ 1024) in Hq.
      split; intros; lia.
    + (* 1044 bits: the rounding decides *)
      assert (l = 1043) as El by lia. clearbody fl r. subst m. rewrite El in *.
      change (1043 - 72) with 971 in *. change (1043 - 52) with 991 in *.
      change (Z.succ 1043) with 1044 in *.
      assert (2 ^ 1024 = 2 ^ 53 * 2 ^ 971) as -> by (vm_compute; reflexivity).
      assert (2 ^ 1044 - 2 ^ 990 = (2 ^ 53 - 1) * 2 ^ 991 + 2 ^ 990) as ->
          by (vm_compute; reflexivity).
      assert (2 ^ 991 = 2 * 2 ^ 990) as E991 by (vm_compute; reflexivity).
      assert (0 < 2 ^ 990) as H990 by (vm_compute; reflexivity).
      assert (0 < 2 ^ 971) as H971 by (vm_compute; reflexivity).
      rewrite E991 in *.
      set (a := 2 ^ 990) in *. set (b := 2 ^ 971) in *. set (c := 2 ^ 53) in *.
      assert (c = 9007199254740992) as Ec by reflexivity.
      assert (forall x, c * b <= x * b <-> c <= x) as Hcancel.
      { intros x. split; intros Hx; [|apply Z.mul_le_mono_nonneg_r; lia].
        apply Z.mul_le_mono_pos_r in Hx; assumption. }
      rewrite Hcancel.
      destruct (Z.ltb_spec (2 * r) (2 * a)) as [C1|C1];
        [|destruct (Z.ltb_spec (2 * a) (2 * r)) as [C2|C2]].
      * split; intros; nia.
      * split; intros; nia.
      * assert (r = a) as -> by lia.
        destruct (Z.even fl) eqn:Eeven.
        -- split; intros H.
           ++ exfalso. lia.
           ++ exfalso. assert (fl = c - 1) as Efl by nia.
              rewrite Efl, Ec in Eeven. vm_compute in Eeven. discriminate.
        -- split; intros; nia.
  - (* at most 72 bits: far from the limit *)
    assert ((0 <=? l - 72) = false) as Hneg by (apply Z.leb_gt; lia).
    replace (- (l - 72)) with (72 - l) by lia.
    assert (0 < 2 ^ (72 - l)) as Hp by (apply Z.pow_pos_nonneg; lia).
    assert (2 ^ (72 - l) <= 2 ^ 72) as Hp' by (apply Z.pow_le_mono_r; lia).
    assert (n < 2 ^ 72).
    { eapply Z.lt_le_trans; [exact Hhigh|]. apply Z.pow_le_mono_r; lia. }
    pose proof (Z.div_le_upper_bound (n * 2 ^ (72 - l)) (2 ^ 20) (n * 2 ^ (72 - l))
                  ltac:(lia) ltac:(nia)) as Hfl.
    set (fl := n * 2 ^ (72 - l) / 2 ^ 20) in *. set (r := (n * 2 ^ (72 - l)) mod 2 ^ 20).
    set (m := if 2 * r <? 2 ^ 20 then fl
              else if 2 ^ 20 <? 2 * r then fl + 1
                   else if Z.even fl then fl else fl + 1).
    assert (m <= fl + 1) as Hm.
    { unfold m. destruct (2 * r <? 2 ^ 20); [lia|].
      destruct (2 ^ 20 <? 2 * r); [lia|]. destruct (Z.even fl); lia. }
    rewrite Qle_bool_iff. unfold Qle. cbn [Qnum Qden inject_Z].
    rewrite Z2Pos.id by exact Hp. rewrite Z.mul_1_r.
    assert (n * 2 ^ (72 - l) <= 2 ^ 72 * 2 ^ 72) by (apply Z.mul_le_mono_nonneg; lia).
    assert (2 ^ 72 * 2 ^ 72 + 1 < 2 ^ 1024) by (vm_compute; reflexivity).
    assert (2 ^ 1024 <= 2 ^ 1024 * 2 ^ (72 - l)) by nia.
    split; intros; exfalso; lia.
Qed.

Lemma prefix_empty (s : string) : prefix EmptyString s = true.
Proof. destruct s; reflexivity. Qed.

Lemma prefix_app (p s : string) : prefix p (p ++ s) = true.
Proof.
  induction p as [|c p IH]; simpl.
  - apply prefix_empty.
  - destruct (ascii_dec c c) as [_|ne]; [exact IH | congruence].
Qed.

Lemma str_in_prefix (sub s : string) : prefix sub s = true -> str_in sub s = true.
Proof.
  destruct s as [|c s]; simpl; intros H.
  - destruct sub; [reflexivity | discriminate].
  - rewrite H. reflexivity.
Qed.

(** A string occurs in whatever is built around it. *)
Lemma str_in_app (sub before after : string) :
  str_in sub (before ++ sub ++ after) = true.
Proof.
  induction before as [|c before IH].
  - change (str_in sub (sub ++ after) = true). apply str_in_prefix, prefix_app.
  - simpl. simpl in IH. rewrite IH. apply orb_true_r.
Qed.

(** [sep in s] for a one-character [sep], one character at a time. *)
Lemma str_in_char (sep c : ascii) (s : string) :
  str_in (String sep EmptyString) (String c s)
  = Ascii.eqb c sep || str_in (String sep EmptyString) s.
Proof.
  simpl. destruct (ascii_dec sep c) as [->|ne].
  - rewrite Ascii.eqb_refl, prefix_empty. reflexivity.
  - assert (Ascii.eqb c sep = false) as -> by (apply Ascii.eqb_neq; congruence).
    reflexivity.
Qed.

Lemma str_in_char_app (sep : ascii) (a b : string) :
  str_in (String sep EmptyString) (a ++ b)
  = str_in (String sep EmptyString) a || str_in (String sep EmptyString) b.
Proof.
  induction a as [|c a IH].
  - reflexivity.
  - simpl append. rewrite !str_in_char, IH. apply orb_assoc.
Qed.

(** [cut] stops at the first separator. *)
Lemma cut_first (sep : ascii) (before after : string) :
  str_in (String sep EmptyString) before = false ->
  cut sep (before ++ String sep after) = (before, Some after).
Proof.
  induction before as [|c before IH]; intros H.
  - simpl. rewrite Ascii.eqb_refl. reflexivity.
  - rewrite str_in_char in H. apply orb_false_iff in H as [Hc H].
    simpl. rewrite Hc, (IH H). reflexivity.
Qed.

Lemma cut_absent (sep : ascii) (s : string) :
  str_in (String sep EmptyString) s = false -> cut sep s = (s, None).
Proof.
  induction s as [|c s IH]; intros H.
  - reflexivity.
  - rewrite str_in_char in H. apply orb_false_iff in H as [Hc H].
    simpl. rewrite Hc, (IH H). reflexivity.
Qed.

(** Where [sep in s] holds, [s] splits around the first separator. *)
Lemma cut_present (sep : ascii) (s : string) :
  str_in (String sep EmptyString) s = true ->
  exists before after,
    s = before ++ String sep after
    /\ str_in (String sep EmptyString) before = false.
Proof.
  induction s as [|c s IH]; intros H.
  - discriminate.
  - rewrite str_in_char in H. destruct (Ascii.eqb c sep) eqn:Hc.
    + apply Ascii.eqb_eq in Hc as ->. exists EmptyString, s. split; reflexivity.
    + destruct (IH H) as (before & after & -> & Hb).
      exists (String c before), after. split; [reflexivity|].
      rewrite str_in_char, Hc, Hb. reflexivity.
Qed.

(** The first field of [split] is what [cut] leaves before the separator. *)
Lemma split_first_field (sep : ascii) (s : string) :
  exists fields, split sep s = fst (cut sep s) :: fields.
Proof.
  induction s as [|c s [fields IH]]; simpl.
  - eexists; reflexivity.
  - destruct (Ascii.eqb c sep).
    + eexists; reflexivity.
    + rewrite IH. destruct (cut sep s). eexists; reflexivity.
Qed.

Lemma split_after (sep : ascii) (before after : string) :
  str_in (String sep EmptyString) before = false ->
  split sep (before ++ String sep after) = before :: split sep after.
Proof.
  induction before as [|c before IH]; intros H.
  - simpl. rewrite Ascii.eqb_refl. reflexivity.
  - rewrite str_in_char in H. apply orb_false_iff in H as [Hc H].
    simpl. rewrite Hc, (IH H). reflexivity.
Qed.

End PyFacts.

(* ================================================================== *)
(** * Model Catalog: [_extract_model_id] *)

Module ModelCatalog.
Import Py Net Pipe PyFacts.

Lemma truthy_str (s : string) : s <> EmptyString -> truthy (JStr s) = true.
Proof.
  intros H. simpl. destruct (String.eqb_spec s EmptyString); [contradiction | reflexivity].
Qed.

Lemma extract_with_separator (before after : string) :
  str_in "." before = false ->
  _extract_model_id (JStr (before ++ "." ++ after)) = Ok (JStr after).
Proof.
  intros H. unfold _extract_model_id.
  rewrite truthy_str by (destruct before; discriminate).
  cbn [negb contains str_method].
  rewrite str_in_char_app, H. cbn [orb str_in prefix append].
  destruct (ascii_dec "." "."); [|congruence].
  rewrite prefix_empty. cbn [orb].
  unfold split1. change ("." ++ after) with (String "." after).
  rewrite (cut_first "." before after H). reflexivity.
Qed.

Lemma extract_without_separator (s : string) :
  s <> EmptyString -> str_in "." s = false -> _extract_model_id (JStr s) = Ok (JStr s).
Proof.
  intros Hs H. unfold _extract_model_id.
  rewrite (truthy_str s Hs). cbn [negb contains]. rewrite H. reflexivity.
Qed.

(** C7. Model resolution: a model string that contains "." resolves to the
    text after its first "."; a non-empty string without "." resolves to
    itself; the empty string raises [ValueError], which [pipe] hands to the
    caller as the text "Error: Invalid model format: Model string is empty"
    once the messages have been normalised. *)
Theorem model_resolution :
  (forall s, str_in "." s = true ->
     exists before after,
       s = before ++ "." ++ after
       /\ str_in "." before = false
       /\ _extract_model_id (JStr s) = Ok (JStr after))
  /\ (forall s, s <> EmptyString -> str_in "." s = false ->
        _extract_model_id (JStr s) = Ok (JStr s))
  /\ _extract_model_id (JStr EmptyString) = Raise (ValueError "Model string is empty")
  /\ (forall valves json_loads pop_system_message py_str http_head http_post
             body raw system_message messages processed log log',
        ANTHROPIC_API_KEY valves <> EmptyString ->
        lookup "messages" body = Some raw ->
        pop_system_message raw = Ok (system_message, messages) ->
        process_messages http_head messages [] 0%Q log = (Ok (Next processed), log') ->
        lookup "model" body = Some (JStr EmptyString) ->
        pipe valves json_loads pop_system_message py_str http_head http_post body log
        = (Ok (Value (JStr "Error: Invalid model format: Model string is empty")), log')).
Proof.
  split; [|split; [|split]].
  - intros s H. destruct (cut_present "." s H) as (before & after & -> & Hb).
    exists before, after. split; [reflexivity|]. split; [exact Hb|].
    apply extract_with_separator, Hb.
  - apply extract_without_separator.
  - reflexivity.
  - intros valves json_loads pop py_str http_head http_post body raw sm messages
      processed log log' Hkey Hraw Hpop Hnorm Hmodel.
    unfold pipe. rewrite (truthy_str _ Hkey). cbn [negb].
    unfold bind, lift, try_except, getitem. rewrite Hraw, Hpop, Hnorm, Hmodel.
    reflexivity.
Qed.

End ModelCatalog.

(* ================================================================== *)
(** * Media Validator: [process_image] *)

Module MediaValidator.
Import Py Net Pipe PyFacts.

Lemma exceeds_true (x : Q) (limit : Z) :
  (inject_Z limit < x)%Q -> exceeds x limit = true.
Proof.
  intros H. unfold exceeds. destruct (Qle_bool x (inject_Z limit)) eqn:E; [|reflexivity].
  apply Qle_bool_iff in E. exfalso. exact (Qlt_not_le _ _ H E).
Qed.

Lemma exceeds_false (x : Q) (limit : Z) :
  (x <= inject_Z limit)%Q -> exceeds x limit = false.
Proof.
  intros H. unfold exceeds. apply Qle_bool_iff in H. rewrite H. reflexivity.
Qed.

Lemma exceeds_spec (x : Q) (limit : Z) :
  if exceeds x limit then (inject_Z limit < x)%Q else (x <= inject_Z limit)%Q.
Proof.
  unfold exceeds. destruct (Qle_bool x (inject_Z limit)) eqn:E; cbn [negb].
  - apply Qle_bool_iff, E.
  - apply Qnot_le_lt. intros H. apply Qle_bool_iff in H. congruence.
Qed.

Lemma prefix_weaken (p s t : string) : prefix p s = true -> prefix p (s ++ t) = true.
Proof.
  revert s. induction p as [|c p IH]; intros s H.
  - apply prefix_empty.
  - destruct s as [|c' s]; [discriminate|]. simpl in *.
    destruct (ascii_dec c c'); [auto | discriminate].
Qed.

Lemma append_empty_r (s : string) : s ++ EmptyString = s.
Proof. induction s as [|c s IH]; simpl; congruence. Qed.

Lemma append_assoc (a b c : string) : (a ++ b) ++ c = a ++ b ++ c.
Proof. induction a as [|x a IH]; simpl; congruence. Qed.

(** Cutting [a ++ b] where the separator is not in [a]. *)
Lemma cut_app (sep : ascii) (a b : string) :
  str_in (String sep EmptyString) a = false ->
  fst (cut sep (a ++ b)) = a ++ fst (cut sep b).
Proof.
  induction a as [|c a IH]; intros H.
  - reflexivity.
  - rewrite str_in_char in H. apply orb_false_iff in H as [Hc H].
    simpl. rewrite Hc. specialize (IH H). destruct (cut sep (a ++ b)).
    simpl in *. congruence.
Qed.

(** The header of a data URI: ["data:"], the media type, then parameters that
    are empty or start with [";"]. *)
Lemma media_type_of_header (media_type params : string) :
  str_in ":" media_type = false ->
  str_in ";" media_type = false ->
  params = EmptyString \/ (exists p, params = ";" ++ p) ->
  exists fields fields',
    split ":" ("data:" ++ media_type ++ params)
    = "data" :: fst (cut ":" (media_type ++ params)) :: fields
    /\ split ";" (fst (cut ":" (media_type ++ params))) = media_type :: fields'.
Proof.
  intros Hcolon Hsemi Hparams.
  destruct (split_first_field ":" (media_type ++ params)) as [fields Hf].
  destruct (split_first_field ";" (fst (cut ":" (media_type ++ params)))) as [fields' Hf'].
  exists fields, fields'. split.
  - change ("data:" ++ media_type ++ params)
      with ("data" ++ String ":" (media_type ++ params)).
    rewrite split_after by reflexivity. rewrite Hf. reflexivity.
  - rewrite Hf'. f_equal. rewrite cut_app by assumption.
    destruct Hparams as [-> | [p ->]].
    + change (fst (cut ":" EmptyString)) with EmptyString.
      rewrite append_empty_r, cut_absent by assumption. reflexivity.
    + change (cut ":" (";" ++ p)) with (let (a, b) := cut ":" p in (String ";" a, b)).
      destruct (cut ":" p) as [a b]. cbn [fst].
      rewrite (cut_first ";" media_type a Hsemi). reflexivity.
Qed.

Section Inline.

Variable http_head : string -> head_reply.
Variables (image_data image_url : json) (media_type params payload : string).

Hypothesis item_image_url : getitem image_data "image_url" = Ok image_url.
Hypothesis item_url :
  getitem image_url "url" = Ok (JStr ("data:" ++ media_type ++ params ++ "," ++ payload)).
Hypothesis type_is_image : startswith media_type "image" = true.
Hypothesis type_no_colon : str_in ":" media_type = false.
Hypothesis type_no_semicolon : str_in ";" media_type = false.
Hypothesis type_no_comma : str_in "," media_type = false.
Hypothesis params_shape : params = EmptyString \/ (exists p, params = ";" ++ p).
Hypothesis params_no_comma : str_in "," params = false.

(** [process_image] on an inline image, as one equation. *)
Lemma process_inline (log : list call) :
  process_image http_head image_data log
  = if exceeds (estimated_size payload) MAX_IMAGE_SIZE
    then (Raise (ValueError ("Image size exceeds 5MB limit: "
                             ++ format_2f (megabytes (estimated_size payload)) ++ "MB")), log)
    else (Ok (base64_image media_type payload), log).
Proof.
  unfold process_image, bind, lift.
  rewrite item_image_url, item_url. cbn [str_method].
  assert (startswith ("data:" ++ media_type ++ params ++ "," ++ payload) "data:image" = true)
    as ->.
  { unfold startswith. cbn. apply prefix_weaken, type_is_image. }
  assert (split1 "," ("data:" ++ media_type ++ params ++ "," ++ payload)
          = ["data:" ++ media_type ++ params; payload]) as ->.
  { unfold split1.
    replace ("data:" ++ media_type ++ params ++ "," ++ payload)
      with (("data:" ++ media_type ++ params) ++ String "," payload).
    2:{ rewrite !append_assoc. reflexivity. }
    rewrite cut_first; [reflexivity|].
    change ("data:" ++ media_type ++ params) with ("data:" ++ (media_type ++ params)).
    rewrite !str_in_char_app, type_no_comma, params_no_comma. reflexivity. }
  cbn [unpack2].
  destruct (media_type_of_header media_type params type_no_colon type_no_semicolon
              params_shape) as (fields & fields' & -> & Hsemi).
  cbn [index nth_error]. rewrite Hsemi. cbn [index nth_error].
  destruct (exceeds (estimated_size payload) MAX_IMAGE_SIZE); reflexivity.
Qed.

End Inline.

(** C3. Per-image limit on an inline image [data:<media type><params>,<payload>]:
    the estimated size is [len(payload) * 3 / 4]; above 5 MiB the validator
    raises the image-too-large [ValueError]; at or below 5 MiB it returns the
    image block whose data is the payload itself and whose media type is the
    declared one.  No network call is made. *)
Theorem inline_image_limit :
  forall (http_head : string -> head_reply) image_data image_url media_type params payload log,
    getitem image_data "image_url" = Ok image_url ->
    getitem image_url "url" = Ok (JStr ("data:" ++ media_type ++ params ++ "," ++ payload)) ->
    startswith media_type "image" = true ->
    str_in ":" media_type = false ->
    str_in ";" media_type = false ->
    str_in "," media_type = false ->
    params = EmptyString \/ (exists p, params = ";" ++ p) ->
    str_in "," params = false ->
    (estimated_size payload == inject_Z (Z.of_nat (String.length payload)) * (3 # 4))%Q
    /\ ((inject_Z (5 * 1024 * 1024) < estimated_size payload)%Q ->
        process_image http_head image_data log
        = (Raise (ValueError ("Image size exceeds 5MB limit: "
                              ++ format_2f (megabytes (estimated_size payload)) ++ "MB")),
           log))
    /\ ((estimated_size payload <= inject_Z (5 * 1024 * 1024))%Q ->
        process_image http_head image_data log
        = (Ok (JDict [("type", JStr "image");
                      ("source", JDict [("type", JStr "base64");
                                        ("media_type", JStr media_type);
                                        ("data", JStr payload)])]),
           log)).
Proof.
  intros http_head image_data image_url media_type params payload log
    H1 H2 H3 H4 H5 H6 H7 H8.
  pose proof (process_inline http_head _ _ _ _ _ H1 H2 H3 H4 H5 H6 H7 H8 log) as E.
  split; [|split].
  - unfold estimated_size. rewrite inject_Z_mult. unfold Qdiv.
    rewrite <- Qmult_assoc. reflexivity.
  - intros Hbig. rewrite E, (exceeds_true _ MAX_IMAGE_SIZE Hbig). reflexivity.
  - intros Hsmall. rewrite E, (exceeds_false _ MAX_IMAGE_SIZE Hsmall). reflexivity.
Qed.

End MediaValidator.

(* ================================================================== *)
(** * Response Parser, streaming: [stream_response] *)

Module StreamParser.
Import Py Net Pipe Spec.

Section Lines.

Variable json_loads : string -> result json.
Variable decode_utf8 : string -> result string.

Local Abbreviation stream_lines := (stream_lines json_loads decode_utf8).
Local Abbreviation ignorable := (ignorable decode_utf8).
Local Abbreviation data_line_of := (data_line_of json_loads decode_utf8).
Local Abbreviation undecodable_line := (undecodable_line json_loads decode_utf8).

Lemma nonempty_eqb (line : string) : line <> EmptyString -> (line =? "")%string = false.
Proof. intros H. destruct (String.eqb_spec line EmptyString); [contradiction | reflexivity]. Qed.

Lemma pass_ignorable (line : string) (rest : list string) (ending : option exn) :
  ignorable line -> stream_lines (line :: rest) ending = stream_lines rest ending.
Proof.
  intros [-> | (s & Hs & Hp)]; [reflexivity|].
  cbn [Pipe.stream_lines]. destruct (line =? "")%string; [reflexivity|].
  rewrite Hs, Hp. reflexivity.
Qed.

Lemma pass_noise (noise rest : list string) (ending : option exn) :
  Forall ignorable noise -> stream_lines (noise ++ rest) ending = stream_lines rest ending.
Proof.
  induction 1 as [|line noise Hl _ IH]; [reflexivity|].
  cbn [app]. rewrite pass_ignorable by assumption. exact IH.
Qed.

(** What the [try] body does with each kind of event. *)
Lemma on_content_delta (event : string) (data t : json) :
  json_loads event = Ok data -> content_delta data t ->
  on_data json_loads event = Ok (Emit t).
Proof.
  intros Hload (fields & delta & -> & Htype & Hdelta & Htext).
  unfold on_data. rewrite Hload. cbn [and_then getitem contains].
  rewrite Htype. cbn [and_then eq_str String.eqb Ascii.eqb Bool.eqb].
  rewrite Hdelta. cbn [and_then getitem contains]. rewrite Htext. reflexivity.
Qed.

Lemma on_message_stop (event : string) (data : json) :
  json_loads event = Ok data -> message_stop data ->
  on_data json_loads event = Ok Break.
Proof.
  intros Hload (fields & -> & Htype).
  unfold on_data. rewrite Hload. cbn [and_then getitem]. rewrite Htype. reflexivity.
Qed.

Lemma emit_delta (line : string) (data t : json) (rest : list string) (ending : option exn) :
  data_line_of line data -> content_delta data t ->
  stream_lines (line :: rest) ending
  = (t :: fst (stream_lines rest ending), snd (stream_lines rest ending)).
Proof.
  intros (Hne & s & Hs & Hp & Hload) Hdelta.
  cbn [Pipe.stream_lines]. rewrite (nonempty_eqb line Hne), Hs, Hp.
  unfold data_line. rewrite (on_content_delta _ _ _ Hload Hdelta).
  destruct (stream_lines rest ending). reflexivity.
Qed.

Lemma stop_at (line : string) (data : json) (rest : list string) (ending : option exn) :
  data_line_of line data -> message_stop data ->
  stream_lines (line :: rest) ending = ([], None).
Proof.
  intros (Hne & s & Hs & Hp & Hload) Hstop.
  cbn [Pipe.stream_lines]. rewrite (nonempty_eqb line Hne), Hs, Hp.
  unfold data_line. rewrite (on_message_stop _ _ Hload Hstop). reflexivity.
Qed.

Lemma skip_undecodable (line : string) (rest : list string) (ending : option exn) :
  undecodable_line line -> stream_lines (line :: rest) ending = stream_lines rest ending.
Proof.
  intros (Hne & s & msg & Hs & Hp & Hload).
  cbn [Pipe.stream_lines]. rewrite (nonempty_eqb line Hne), Hs, Hp.
  unfold data_line, on_data. rewrite Hload. reflexivity.
Qed.

End Lines.

(** C1. Ordering and termination of the streaming parser: on a 200 response
    whose feed carries, between lines the loop passes over, the data lines of
    [ContentDelta(t1)], [ContentDelta(t2)] and [MessageStop], the generator
    yields exactly [t1; t2] (["a"; "b"] for the deltas "a" and "b") and ends
    without an exception, whatever lines follow the stop event and however the
    feed would have ended. *)
Theorem stream_ordering_and_stop :
  forall json_loads decode_utf8 http_post url headers payload log
         response noise0 line1 noise1 line2 noise2 line3 rest data1 data2 data3 t1 t2,
    http_post true url headers payload = PostResponse response ->
    status_code response = 200 ->
    lines response = (noise0 ++ line1 :: noise1 ++ line2 :: noise2 ++ line3 :: rest)%list ->
    Forall (ignorable decode_utf8) noise0 ->
    Forall (ignorable decode_utf8) noise1 ->
    Forall (ignorable decode_utf8) noise2 ->
    data_line_of json_loads decode_utf8 line1 data1 -> content_delta data1 (JStr t1) ->
    data_line_of json_loads decode_utf8 line2 data2 -> content_delta data2 (JStr t2) ->
    data_line_of json_loads decode_utf8 line3 data3 -> message_stop data3 ->
    stream_response json_loads decode_utf8 http_post url headers payload log
    = (([JStr t1; JStr t2], None), (log ++ [PostCall true url headers payload])%list).
Proof.
  intros json_loads decode_utf8 http_post url headers payload log
    response noise0 line1 noise1 line2 noise2 line3 rest data1 data2 data3 t1 t2
    Hpost Hstatus Hlines Hn0 Hn1 Hn2 Hl1 Hd1 Hl2 Hd2 Hl3 Hd3.
  unfold stream_response, stream_try. rewrite Hpost, Hstatus, Hlines. cbn [Z.eqb Pos.eqb negb].
  rewrite (pass_noise _ _ noise0 _ _ Hn0).
  rewrite (emit_delta _ _ line1 data1 (JStr t1) _ _ Hl1 Hd1).
  rewrite (pass_noise _ _ noise1 _ _ Hn1).
  rewrite (emit_delta _ _ line2 data2 (JStr t2) _ _ Hl2 Hd2).
  rewrite (pass_noise _ _ noise2 _ _ Hn2).
  rewrite (stop_at _ _ line3 data3 rest _ Hl3 Hd3).
  reflexivity.
Qed.

Lemma stream_ordering_and_stop_witness :
  stream_response Demo.loads Demo.decode (Demo.always (Demo.streamed Demo.feed_a_b_stop))
    api_url JNone JNone []
  = (([JStr "a"; JStr "b"], None), [PostCall true api_url JNone JNone]).
Proof.
  apply (stream_ordering_and_stop Demo.loads Demo.decode
           (Demo.always (Demo.streamed Demo.feed_a_b_stop)) api_url JNone JNone []
           (Demo.streamed Demo.feed_a_b_stop)
           ["event: content_block_delta"] (Demo.delta_line "a")
           [EmptyString; "event: content_block_delta"] (Demo.delta_line "b")
           [EmptyString; "event: message_stop"] Demo.stop_line
           [EmptyString; Demo.delta_line "late"]
           (JDict [("type", JStr "content_block_delta"); ("index", JInt 0);
                   ("delta", JDict [("type", JStr "text_delta"); ("text", JStr "a")])])
           (JDict [("type", JStr "content_block_delta"); ("index", JInt 0);
                   ("delta", JDict [("type", JStr "text_delta"); ("text", JStr "b")])])
           (JDict [("type", JStr "message_stop")])
           "a" "b").
  - reflexivity.
  - reflexivity.
  - reflexivity.
  - apply Forall_cons; [|apply Forall_nil]. right. eexists. split; reflexivity.
  - apply Forall_cons; [left; reflexivity|].
    apply Forall_cons; [|apply Forall_nil]. right. eexists. split; reflexivity.
  - apply Forall_cons; [left; reflexivity|].
    apply Forall_cons; [|apply Forall_nil]. right. eexists. split; reflexivity.
  - split; [discriminate|]. eexists. repeat split; reflexivity.
  - do 2 eexists. repeat split; reflexivity.
  - split; [discriminate|]. eexists. repeat split; reflexivity.
  - do 2 eexists. repeat split; reflexivity.
  - split; [discriminate|]. eexists. repeat split; reflexivity.
  - eexists. repeat split; reflexivity.
Defined.

(** One undecodable data line between two deltas is passed over. *)
Lemma invalid_json_between_deltas :
  forall json_loads decode_utf8 line1 bad line2 rest ending data1 data2 t1 t2,
    data_line_of json_loads decode_utf8 line1 data1 -> content_delta data1 t1 ->
    undecodable_line json_loads decode_utf8 bad ->
    data_line_of json_loads decode_utf8 line2 data2 -> content_delta data2 t2 ->
    stream_lines json_loads decode_utf8 (line1 :: bad :: line2 :: rest) ending
    = (t1 :: t2 :: fst (stream_lines json_loads decode_utf8 rest ending),
       snd (stream_lines json_loads decode_utf8 rest ending)).
Proof.
  intros json_loads decode_utf8 line1 bad line2 rest ending data1 data2 t1 t2
    Hl1 Hd1 Hbad Hl2 Hd2.
  rewrite (emit_delta _ _ line1 data1 t1 _ _ Hl1 Hd1).
  rewrite (skip_undecodable _ _ bad _ _ Hbad).
  rewrite (emit_delta _ _ line2 data2 t2 _ _ Hl2 Hd2).
  reflexivity.
Qed.

(** A data line whose JSON is not an object ends the loop with the [TypeError]
    of the subscript, whatever follows. *)
Lemma non_object_event_aborts :
  forall json_loads decode_utf8 line data rest ending,
    data_line_of json_loads decode_utf8 line data ->
    (forall fields, data <> JDict fields) ->
    exists msg,
      stream_lines json_loads decode_utf8 (line :: rest) ending = ([], Some (TypeError msg)).
Proof.
  intros json_loads decode_utf8 line data rest ending (Hne & s & Hs & Hp & Hload) Hdata.
  cbn [stream_lines]. rewrite (nonempty_eqb line Hne), Hs, Hp.
  unfold data_line, on_data. rewrite Hload.
  destruct data; try (eexists; reflexivity).
  exfalso. eapply Hdata. reflexivity.
Qed.

Example invalid_json_is_skipped :
  stream_lines Demo.loads Demo.decode Demo.feed_bad_json None = ([JStr "a"; JStr "b"], None).
Proof. reflexivity. Qed.

(** C4. Malformed-event robustness fails on a data line that is valid JSON but
    not an object: on the feed [delta "a"; "data: 5"; delta "b"] the subscript
    [data["type"]] raises [TypeError], which neither inner handler catches; the
    generator yields "a", then the error text of the outer handler, and ends:
    the delta "b" is never produced. *)
Theorem scalar_event_aborts_stream :
  stream_response Demo.loads Demo.decode (Demo.always (Demo.streamed Demo.feed_scalar))
    api_url JNone JNone []
  = (([JStr "a"; JStr "Error: 'int' object is not subscriptable"], None),
     [PostCall true api_url JNone JNone]).
Proof. reflexivity. Qed.

End StreamParser.

(* ================================================================== *)
(** * Response Parser, non-streaming: [non_stream_response] *)

Module NonStreamParser.
Import Py Net Pipe Spec.

Lemma scan_passes (block : json) (rest : list json) :
  not_text_block block -> scan_content (block :: rest) = scan_content rest.
Proof.
  intros (fields & -> & Htype). cbn [scan_content get].
  unfold dict_get in Htype. destruct (lookup "type" fields); rewrite Htype; reflexivity.
Qed.

Lemma scan_finds (before : list json) (block v : json) (after : list json) :
  Forall not_text_block before -> text_block_with block v ->
  scan_content (before ++ block :: after) = Ok (Some v).
Proof.
  intros Hbefore (fields & -> & Htype & Htext).
  induction Hbefore as [|b before Hb _ IH].
  - cbn [app scan_content get]. rewrite Htype, Htext. reflexivity.
  - cbn [app]. rewrite scan_passes by assumption. exact IH.
Qed.

Lemma scan_finds_none (blocks : list json) :
  Forall not_text_block blocks -> scan_content blocks = Ok None.
Proof.
  induction 1 as [|b blocks Hb _ IH]; [reflexivity|].
  rewrite scan_passes by assumption. exact IH.
Qed.

Section OnSuccess.

Variable json_loads : string -> result json.
Variable http_post : bool -> string -> json -> json -> post_reply.
Variables (url : string) (headers payload : json) (response : response).
Variables (fields : list (string * json)) (blocks : list json).

Hypothesis replied : http_post false url headers payload = PostResponse response.
Hypothesis status_200 : status_code response = 200.
Hypothesis body_object : json_loads (text response) = Ok (JDict fields).
Hypothesis content_array : lookup "content" fields = Some (JList blocks).

(** On a 200 response the result is what the scan of the content list finds. *)
Lemma non_stream_scan (log : list call) :
  non_stream_response json_loads http_post url headers payload log
  = match scan_content blocks with
    | Ok (Some v) => (Ok v, (log ++ [PostCall false url headers payload])%list)
    | Ok None => (Ok (JStr EmptyString), (log ++ [PostCall false url headers payload])%list)
    | Raise e =>
        (Ok (if is_timeout e then JStr "Error: Request timeout"
             else JStr ("Error: " ++ str_exn e)),
         (log ++ [PostCall false url headers payload])%list)
    end.
Proof.
  unfold non_stream_response, try_except, non_stream_try, bind, tell, lift, ret, response_json.
  rewrite replied, status_200, body_object. cbn [Z.eqb Pos.eqb negb contains getitem].
  rewrite content_array. destruct blocks as [|b bs] eqn:E.
  - reflexivity.
  - cbn [truthy iterate]. destruct (scan_content (b :: bs)) as [[v|]|e].
    + reflexivity.
    + reflexivity.
    + cbn. destruct (is_timeout e); reflexivity.
Qed.

End OnSuccess.

(** An element that is not an object, met before any text block, ends the
    scan with the [AttributeError] of its missing [get]. *)
Lemma scan_fails (before : list json) (block : json) (after : list json) :
  Forall not_text_block before -> (forall d, block <> JDict d) ->
  scan_content (before ++ block :: after)
  = Raise (AttributeError ("'" ++ type_name block ++ "' object has no attribute 'get'")).
Proof.
  intros Hbefore Hblock. induction Hbefore as [|b before Hb _ IH].
  - cbn [app scan_content]. destruct block; try reflexivity.
    exfalso. eapply Hblock. reflexivity.
  - cbn [app]. rewrite scan_passes by assumption. exact IH.
Qed.

(** C6, as the code has it.  A response whose status is not 200, the other 2xx
    statuses included, gives the text "Error: HTTP <status>: <body>".  On a
    response with status 200 whose body is a JSON object with a [content]
    array, the non-streaming parser scans the array in order: it returns the
    [text] of the first object whose type is "text", the elements before it
    being objects of other types; it returns the empty string when every
    element is an object of another type; and when an element that is not an
    object comes before any text block, it returns the text
    "Error: '<type>' object has no attribute 'get'". *)
Theorem non_stream_extraction :
  forall json_loads http_post url headers payload log response,
    http_post false url headers payload = PostResponse response ->
    (status_code response <> 200 ->
     non_stream_response json_loads http_post url headers payload log
     = (Ok (JStr (http_error_text (status_code response) (text response))),
        (log ++ [PostCall false url headers payload])%list))
    /\ (status_code response = 200 ->
        forall fields blocks,
          json_loads (text response) = Ok (JDict fields) ->
          lookup "content" fields = Some (JList blocks) ->
          (forall before block v after,
              blocks = (before ++ block :: after)%list ->
              Forall not_text_block before ->
              text_block_with block v ->
              non_stream_response json_loads http_post url headers payload log
              = (Ok v, (log ++ [PostCall false url headers payload])%list))
          /\ (Forall not_text_block blocks ->
              non_stream_response json_loads http_post url headers payload log
              = (Ok (JStr EmptyString), (log ++ [PostCall false url headers payload])%list))
          /\ (forall before block after,
                 blocks = (before ++ block :: after)%list ->
                 Forall not_text_block before ->
                 (forall d, block <> JDict d) ->
                 non_stream_response json_loads http_post url headers payload log
                 = (Ok (JStr ("Error: '" ++ type_name block
                              ++ "' object has no attribute 'get'")),
                    (log ++ [PostCall false url headers payload])%list))).
Proof.
  intros json_loads http_post url headers payload log response Hpost. split.
  - intros Hstatus.
    unfold non_stream_response, try_except, non_stream_try, bind, tell, ret.
    rewrite Hpost. apply Z.eqb_neq in Hstatus. rewrite Hstatus. reflexivity.
  - intros Hstatus fields blocks Hbody Hcontent.
    pose proof (non_stream_scan json_loads http_post url headers payload response
                  fields blocks Hpost Hstatus Hbody Hcontent log) as E.
    split; [|split].
    + intros before block v after -> Hbefore Hblock.
      rewrite E, (scan_finds before block v after Hbefore Hblock). reflexivity.
    + intros Hnone. rewrite E, (scan_finds_none blocks Hnone). reflexivity.
    + intros before block after -> Hbefore Hblock.
      rewrite E, (scan_fails before block after Hbefore Hblock). reflexivity.
Qed.

Lemma non_stream_extraction_witness :
  non_stream_response Demo.loads (Demo.always (Demo.replied 200 Demo.hello_body))
    api_url JNone JNone []
  = (Ok (JStr "hello"), [PostCall false api_url JNone JNone])
  /\ non_stream_response Demo.loads (Demo.always (Demo.replied 200 Demo.empty_content_body))
       api_url JNone JNone []
     = (Ok (JStr EmptyString), [PostCall false api_url JNone JNone])
  /\ non_stream_response Demo.loads (Demo.always (Demo.replied 204 EmptyString))
       api_url JNone JNone []
     = (Ok (JStr "Error: HTTP 204: "), [PostCall false api_url JNone JNone]).
Proof.
  split; [|split].
  - refine (proj1 (proj2 (non_stream_extraction Demo.loads
                            (Demo.always (Demo.replied 200 Demo.hello_body))
                            api_url JNone JNone []
                            (Demo.replied 200 Demo.hello_body) eq_refl)
                     eq_refl
                     [("id", JStr "msg_1");
                      ("content", JList [JDict [("type", JStr "text"); ("text", JStr "hello")]])]
                     [JDict [("type", JStr "text"); ("text", JStr "hello")]]
                     eq_refl eq_refl)
              [] (JDict [("type", JStr "text"); ("text", JStr "hello")]) (JStr "hello") []
              eq_refl (Forall_nil _) _).
    eexists. repeat split; reflexivity.
  - refine (proj1 (proj2 (proj2 (non_stream_extraction Demo.loads
                                   (Demo.always (Demo.replied 200 Demo.empty_content_body))
                                   api_url JNone JNone []
                                   (Demo.replied 200 Demo.empty_content_body) eq_refl)
                            eq_refl
                            [("id", JStr "msg_2"); ("content", JList [])] []
                            eq_refl eq_refl))
              (Forall_nil _)).
  - refine (proj1 (non_stream_extraction Demo.loads
                     (Demo.always (Demo.replied 204 EmptyString))
                     api_url JNone JNone []
                     (Demo.replied 204 EmptyString) eq_refl) _).
    discriminate.
Defined.

(** C6, as the claim has it, fails in two ways.  A 201 response, which is 2xx,
    whose body holds the text block "hello" is reported as an HTTP error.  And
    a 200 response whose content array holds the string "hello", so that no
    block has type "text", gives an error text, not the empty string. *)
Lemma extraction_fails_on_201_and_on_strings :
  (200 <= status_code (Demo.replied 201 Demo.hello_body) < 300
   /\ Demo.loads (text (Demo.replied 201 Demo.hello_body))
      = Ok (JDict [("id", JStr "msg_1");
                   ("content", JList [JDict [("type", JStr "text"); ("text", JStr "hello")]])])
   /\ non_stream_response Demo.loads (Demo.always (Demo.replied 201 Demo.hello_body))
        api_url JNone JNone []
      = (Ok (JStr (http_error_text 201 Demo.hello_body)), [PostCall false api_url JNone JNone])
   /\ fst (non_stream_response Demo.loads (Demo.always (Demo.replied 201 Demo.hello_body))
             api_url JNone JNone [])
      <> Ok (JStr "hello"))
  /\ (200 <= status_code (Demo.replied 200 Cases.string_blocks_body) < 300
      /\ Demo.loads (text (Demo.replied 200 Cases.string_blocks_body))
         = Ok (JDict [("content", JList [JStr "hello"])])
      /\ non_stream_response Demo.loads
           (Demo.always (Demo.replied 200 Cases.string_blocks_body)) api_url JNone JNone []
         = (Ok (JStr "Error: 'str' object has no attribute 'get'"),
            [PostCall false api_url JNone JNone])
      /\ fst (non_stream_response Demo.loads
                (Demo.always (Demo.replied 200 Cases.string_blocks_body))
                api_url JNone JNone [])
         <> Ok (JStr EmptyString)).
Proof.
  split.
  - split; [split; [discriminate | reflexivity]|].
    split; [reflexivity|]. split; [reflexivity|]. discriminate.
  - split; [split; [discriminate | reflexivity]|].
    split; [reflexivity|]. split; [reflexivity|]. discriminate.
Qed.

End NonStreamParser.

(* ================================================================== *)
(** * Responses that are not 200 *)

Module ErrorStatus.
Import Py Net Pipe Spec PyFacts.

Lemma error_text_mentions (status : Z) (body : string) :
  str_in (str_int status) (http_error_text status body) = true
  /\ str_in body (http_error_text status body) = true.
Proof.
  unfold http_error_text. split.
  - apply str_in_app.
  - replace ("Error: HTTP " ++ str_int status ++ ": " ++ body)
      with (("Error: HTTP " ++ str_int status ++ ": ") ++ body ++ EmptyString).
    + apply str_in_app.
    + rewrite MediaValidator.append_empty_r, !MediaValidator.append_assoc. reflexivity.
Qed.

(** C5. A response whose status is outside 200..299: the generator yields the
    one text "Error: HTTP <status>: <body>" and ends, whatever lines the
    response holds; the non-streaming parser returns the same text; the text
    contains the status code and the body; neither path raises. *)
Theorem non_2xx_status :
  forall json_loads decode_utf8 http_post url headers payload log response,
    ~ (200 <= status_code response <= 299) ->
    (http_post true url headers payload = PostResponse response ->
     stream_response json_loads decode_utf8 http_post url headers payload log
     = (([JStr (http_error_text (status_code response) (text response))], None),
        (log ++ [PostCall true url headers payload])%list))
    /\ (http_post false url headers payload = PostResponse response ->
        non_stream_response json_loads http_post url headers payload log
        = (Ok (JStr (http_error_text (status_code response) (text response))),
           (log ++ [PostCall false url headers payload])%list))
    /\ str_in (str_int (status_code response))
         (http_error_text (status_code response) (text response)) = true
    /\ str_in (text response)
         (http_error_text (status_code response) (text response)) = true.
Proof.
  intros json_loads decode_utf8 http_post url headers payload log response Hstatus.
  assert ((status_code response =? 200) = false) as Hne by (apply Z.eqb_neq; lia).
  split; [|split; [|apply error_text_mentions]].
  - intros Hpost. unfold stream_response, stream_try. rewrite Hpost, Hne. reflexivity.
  - intros Hpost.
    unfold non_stream_response, try_except, non_stream_try, bind, tell, ret.
    rewrite Hpost, Hne. reflexivity.
Qed.

Lemma non_2xx_status_witness :
  stream_response Demo.loads Demo.decode (Demo.always Demo.unauthorized) api_url JNone JNone []
  = (([JStr "Error: HTTP 401: unauthorized"], None), [PostCall true api_url JNone JNone])
  /\ non_stream_response Demo.loads (Demo.always Demo.unauthorized) api_url JNone JNone []
     = (Ok (JStr "Error: HTTP 401: unauthorized"), [PostCall false api_url JNone JNone])
  /\ str_in "401" "Error: HTTP 401: unauthorized" = true
  /\ str_in "unauthorized" "Error: HTTP 401: unauthorized" = true.
Proof.
  assert (~ (200 <= status_code Demo.unauthorized <= 299)) as H by (cbn; lia).
  destruct (non_2xx_status Demo.loads Demo.decode (Demo.always Demo.unauthorized)
              api_url JNone JNone [] Demo.unauthorized H) as (Hs & Hn & Hc & Hb).
  split; [exact (Hs eq_refl)|]. split; [exact (Hn eq_refl)|]. split; [exact Hc | exact Hb].
Defined.

End ErrorStatus.

(* ================================================================== *)
(** * Message Normalizer: the loops of [pipe] *)

Module Normalizer.
Import Py Net Pipe Spec PyFacts.

(** ** Inversion of the monad *)

Lemma bind_inv {A B} (m : M A) (k : A -> M B) (log : list call) (r : result B) (log' : list call) :
  bind m k log = (r, log') ->
  (exists e, m log = (Raise e, log') /\ r = Raise e)
  \/ (exists a log1, m log = (Ok a, log1) /\ k a log1 = (r, log')).
Proof.
  unfold bind. destruct (m log) as [[a|e] log1]; intros H.
  - right. exists a, log1. split; [reflexivity | exact H].
  - left. exists e. inversion H; subst. split; reflexivity.
Qed.

(** Computations that leave the call log as it is. *)
Lemma silent_bind {A B} (m : M A) (k : A -> M B) :
  (forall log r log', m log = (r, log') -> log' = log) ->
  (forall a log r log', k a log = (r, log') -> log' = log) ->
  forall log r log', bind m k log = (r, log') -> log' = log.
Proof.
  intros Hm Hk log r log' H.
  apply bind_inv in H as [(e & H & _) | (a & log1 & H & H')].
  - exact (Hm _ _ _ H).
  - rewrite (Hk _ _ _ _ H'). exact (Hm _ _ _ H).
Qed.

Lemma silent_lift {A} (x : result A) :
  forall log r log', lift x log = (r, log') -> log' = log.
Proof. unfold lift. intros log r log' H. inversion H. reflexivity. Qed.

Lemma silent_ret {A} (a : A) :
  forall log r log', ret a log = (r, log') -> log' = log.
Proof. unfold ret. intros log r log' H. inversion H. reflexivity. Qed.

Lemma silent_raise {A} (e : exn) :
  forall log (r : result A) log', raise e log = (r, log') -> log' = log.
Proof. unfold raise. intros log r log' H. inversion H. reflexivity. Qed.

Ltac silent :=
  repeat first
    [ apply silent_ret | apply silent_raise | apply silent_lift
    | apply silent_bind; [|intros ?]
    | match goal with
      | |- forall log r log', (match ?x with _ => _ end) log = (r, log') -> log' = log =>
          destruct x
      end ].

Lemma probes_only_app (a b : list call) :
  probes_only a -> probes_only b -> probes_only (a ++ b).
Proof. intros Ha Hb. apply Forall_app. split; assumption. Qed.

Lemma probes_only_nil : probes_only [].
Proof. apply Forall_nil. Qed.

Lemma probes_only_head (url : string) : probes_only [HeadCall url].
Proof. apply Forall_cons; [reflexivity | apply Forall_nil]. Qed.

Create HintDb probes.
#[local] Hint Resolve probes_only_app probes_only_nil probes_only_head : probes.

Lemma eq_str_true (v : json) (lit : string) : eq_str v lit = true <-> v = JStr lit.
Proof.
  destruct v; cbn; try (split; [discriminate | congruence]).
  rewrite String.eqb_eq. split; congruence.
Qed.

Lemma eq_str_false (v : json) (lit : string) : eq_str v lit = false -> v <> JStr lit.
Proof. intros H E. apply eq_str_true in E. congruence. Qed.

Section WithProbe.

Variable http_head : string -> head_reply.

(** ** One image *)

(** [process_image] either makes no call and, when it succeeds, returns the
    inline block of the item's payload, or probes a URL once and, when it
    succeeds, returns the URL block. *)
Lemma process_image_outcome (item : json) (log : list call) (r : result json)
  (log' : list call) :
  process_image http_head item log = (r, log') ->
  (log' = log
   /\ forall block, r = Ok block ->
        exists media_type payload,
          image_payload item = Some payload /\ block = base64_image media_type payload)
  \/ (exists url,
        log' = (log ++ [HeadCall url])%list
        /\ image_payload item = None
        /\ forall block, r = Ok block -> block = url_image url).
Proof.
  unfold process_image, image_payload, bind, lift. intros H.
  destruct (getitem item "image_url") as [image_url|e] eqn:E1;
    [|inversion H; subst; left; split; [reflexivity | discriminate]].
  destruct (getitem image_url "url") as [url_obj|e] eqn:E2;
    [|inversion H; subst; left; split; [reflexivity | discriminate]].
  destruct url_obj as [| | | |url| |];
    try (inversion H; subst; left; split; [reflexivity | discriminate]).
  cbn [str_method] in H. destruct (startswith url "data:image") eqn:E3.
  - left. unfold split1 in H. destruct (cut "," url) as [mime_type [base64_data|]] eqn:E4;
      cbn [unpack2 snd] in *;
      [|inversion H; subst; split; [reflexivity | discriminate]].
    destruct (index (split ":" mime_type) 1) as [after_colon|e];
      [|inversion H; subst; split; [reflexivity | discriminate]].
    destruct (index (split ";" after_colon) 0) as [media_type|e];
      [|inversion H; subst; split; [reflexivity | discriminate]].
    destruct (exceeds (estimated_size base64_data) MAX_IMAGE_SIZE);
      inversion H; subst; (split; [reflexivity|]); [discriminate|].
    intros block Hb. inversion Hb; subst. exists media_type, base64_data. split; reflexivity.
  - right. exists url. unfold try_except, probe, bind, tell, lift, raise, ret in H.
    destruct (http_head url) as [e|[header|]].
    + destruct (is_request_exception e); inversion H; subst;
        (split; [reflexivity|]); (split; [reflexivity|]); congruence.
    + destruct (int_of_str header) as [n|e].
      * destruct (MAX_IMAGE_SIZE <? n);
          [destruct (true_div n (1024 * 1024)) as [size|e]|];
          cbn in H; [|destruct (is_request_exception e)|]; inversion H; subst;
          (split; [reflexivity|]); (split; [reflexivity|]); congruence.
      * cbn in H. destruct (is_request_exception e); inversion H; subst;
          (split; [reflexivity|]); (split; [reflexivity|]); congruence.
    + cbn in H. inversion H; subst. (split; [reflexivity|]); (split; [reflexivity|]); congruence.
Qed.

(** The body of the [try] around an image item: at most one probe; on success
    one image block more, and a running total that has grown by the item's
    inline size and is within the limit if it was. *)
Lemma image_item_outcome (item : json) (processed : list json) (total : Q)
  (log : list call) (r : result (list json * Q)) (log' : list call) :
  image_item http_head item processed total log = (r, log') ->
  exists probes,
    log' = (log ++ probes)%list
    /\ probes_only probes
    /\ forall processed' total',
         r = Ok (processed', total') ->
         (exists block, processed' = (processed ++ [block])%list /\ is_image_block block)
         /\ (total' == total + match image_payload item with
                               | Some payload => estimated_size payload
                               | None => 0
                               end)%Q
         /\ ((total <= inject_Z MAX_TOTAL_IMAGE_SIZE)%Q ->
             (total' <= inject_Z MAX_TOTAL_IMAGE_SIZE)%Q).
Proof.
  unfold image_item. intros H.
  apply bind_inv in H as [(e & H & ->) | (block & log1 & H & Hk)];
    apply process_image_outcome in H
      as [(-> & Hblock) | (url & -> & Hpayload & Hblock)].
  - exists []. rewrite app_nil_r. split; [reflexivity|]. split; [auto with probes|].
    discriminate.
  - exists [HeadCall url]. split; [reflexivity|]. split; [auto with probes|]. discriminate.
  - destruct (Hblock block eq_refl) as (media_type & payload & Hpayload & ->).
    rewrite Hpayload. cbn in Hk.
    change (inject_Z (Z.of_nat (String.length payload) * 3) / inject_Z 4)%Q
      with (estimated_size payload) in Hk.
    change 104857600 with MAX_TOTAL_IMAGE_SIZE in Hk.
    pose proof (MediaValidator.exceeds_spec (total + estimated_size payload)
                  MAX_TOTAL_IMAGE_SIZE) as Hlimit.
    exists []. rewrite app_nil_r.
    destruct (exceeds (total + estimated_size payload) MAX_TOTAL_IMAGE_SIZE);
      inversion Hk; subst; (split; [reflexivity|]); (split; [auto with probes|]);
      intros processed' total' Hr; inversion Hr; subst.
    split; [eexists; split; [reflexivity | left; eauto]|].
    split; [reflexivity | intros _; exact Hlimit].
  - rewrite (Hblock block eq_refl) in Hk. rewrite Hpayload. cbn in Hk.
    exists [HeadCall url]. inversion Hk; subst.
    split; [reflexivity|]. split; [auto with probes|].
    intros processed' total' Hr. inversion Hr; subst.
    split; [eexists; split; [reflexivity | right; eauto]|].
    split; [rewrite Qplus_0_r; reflexivity | auto].
Qed.

(** ** The items of one message *)

Lemma process_items_outcome (items : list json) :
  forall processed total log r log',
    process_items http_head items processed total log = (r, log') ->
    exists probes,
      log' = (log ++ probes)%list
      /\ probes_only probes
      /\ match r with
         | Ok (Next (processed', total')) =>
             (exists blocks,
                 processed' = (processed ++ blocks)%list /\ blocks_of items blocks)
             /\ (total' == total + items_inline_size items)%Q
             /\ ((total <= inject_Z MAX_TOTAL_IMAGE_SIZE)%Q ->
                 (total' <= inject_Z MAX_TOTAL_IMAGE_SIZE)%Q)
         | Ok (Return v) => image_error v
         | Raise _ => True
         end.
Proof.
  induction items as [|item rest IH]; intros processed total log r log' H.
  - inversion H; subst. exists []. rewrite app_nil_r.
    split; [reflexivity|]. split; [auto with probes|].
    split; [exists []; rewrite app_nil_r; split; [reflexivity | constructor]|].
    split; [cbn; rewrite Qplus_0_r; reflexivity | auto].
  - cbn [process_items] in H. unfold bind at 1, lift at 1 in H.
    unfold items_inline_size. cbn [fold_right]. fold (items_inline_size rest).
    unfold item_inline_size.
    destruct (getitem item "type") as [ty|e] eqn:Ety.
    2:{ inversion H; subst. exists []. rewrite app_nil_r. auto with probes. }
    destruct (eq_str ty "text") eqn:Etext.
    + apply eq_str_true in Etext. subst ty. cbn [eq_str String.eqb Ascii.eqb Bool.eqb].
      unfold bind at 1, lift at 1 in H.
      destruct (getitem item "text") as [t|e] eqn:Et.
      2:{ inversion H; subst. exists []. rewrite app_nil_r. auto with probes. }
      apply IH in H as (probes & -> & Hp & Hr). exists probes.
      split; [reflexivity|]. split; [assumption|].
      destruct r as [[[processed' total']|v]|e]; [|exact Hr|exact I].
      destruct Hr as ((blocks & -> & Hblocks) & Htotal & Hbound).
      split; [exists (text_block t :: blocks); split;
              [rewrite <- app_assoc; reflexivity | econstructor; eassumption]|].
      split; [rewrite Htotal, Qplus_0_l; reflexivity | assumption].
    + unfold bind at 1, lift at 1 in H.
      destruct (eq_str ty "image_url") eqn:Eimage.
      * apply eq_str_true in Eimage. subst ty.
        apply bind_inv in H as [(e & H & ->) | (step & log1 & H & Hk)].
        { unfold try_except in H.
          destruct (bind (image_item http_head item processed total)
                      (fun st => ret (Next st)) log) as [[?|?] ?]; discriminate. }
        unfold try_except in H.
        destruct (bind (image_item http_head item processed total)
                    (fun st => ret (Next st)) log) as [r1 log2] eqn:Estep.
        apply bind_inv in Estep as [(e & Hitem & ->) | (st & log3 & Hitem & Hret)];
          apply image_item_outcome in Hitem as (probes1 & -> & Hp1 & Hitem).
        { inversion H; subst. inversion Hk; subst. exists probes1.
          split; [reflexivity|]. split; [assumption|]. eexists; reflexivity. }
        inversion Hret; subst. inversion H; subst. destruct st as [processed1 total1].
        destruct (Hitem processed1 total1 eq_refl) as ((block & -> & Hblock) & Htotal1 & Hbound1).
        apply IH in Hk as (probes2 & -> & Hp2 & Hr). exists (probes1 ++ probes2)%list.
        split; [rewrite app_assoc; reflexivity|]. split; [auto with probes|].
        destruct r as [[[processed' total']|v]|e]; [|exact Hr|exact I].
        destruct Hr as ((blocks & -> & Hblocks) & Htotal & Hbound).
        split; [exists (block :: blocks); split;
                [rewrite <- app_assoc; reflexivity | econstructor; eassumption]|].
        split; [rewrite Htotal, Htotal1, Qplus_assoc; reflexivity | auto].
      * apply IH in H as (probes & -> & Hp & Hr). exists probes.
        split; [reflexivity|]. split; [assumption|].
        destruct r as [[[processed' total']|v]|e]; [|exact Hr|exact I].
        destruct Hr as ((blocks & -> & Hblocks) & Htotal & Hbound).
        split; [exists blocks; split; [reflexivity|];
                eapply blocks_other; eauto using eq_str_false|].
        split; [rewrite Htotal, Qplus_0_l; reflexivity | assumption].
Qed.

(** ** The messages of a batch *)

Lemma get_list (message : json) (k : string) (default : json) (items : list json) :
  get message k JNone = Ok (JList items) -> get message k default = Ok (JList items).
Proof.
  destruct message; cbn; try discriminate.
  destruct (lookup k d); [auto | discriminate].
Qed.

Lemma get_not_list (message : json) (k : string) (c c' : json) :
  get message k JNone = Ok c -> (forall items, c <> JList items) ->
  get message k (JStr EmptyString) = Ok c' ->
  forall items, c' <> JList items.
Proof.
  destruct message; cbn; try discriminate.
  destruct (lookup k d); intros H Hc H'; inversion H; inversion H'; subst;
    [assumption | discriminate].
Qed.

(** The content of one message: the list branch and the wrapping branch. *)
Lemma content_outcome (message content : json) (total : Q) (log : list call)
  (r : result (flow (list json * Q))) (log1 : list call) :
  get message "content" JNone = Ok content ->
  match content with
  | JList items => process_items http_head items [] total
  | _ =>
      bind (lift (get message "content" (JStr EmptyString)))
        (fun content => ret (Next ([text_block content], total)))
  end log = (r, log1) ->
  exists probes,
    log1 = (log ++ probes)%list
    /\ probes_only probes
    /\ match r with
       | Ok (Next (processed_content, total1)) =>
           (forall role, getitem message "role" = Ok role ->
              normalized_from message
                (JDict [("role", role); ("content", JList processed_content)]))
           /\ (total1 == total + message_inline_size message)%Q
           /\ ((total <= inject_Z MAX_TOTAL_IMAGE_SIZE)%Q ->
               (total1 <= inject_Z MAX_TOTAL_IMAGE_SIZE)%Q)
       | Ok (Return v) => image_error v
       | Raise _ => True
       end.
Proof.
  intros Econtent H. unfold message_inline_size. rewrite Econtent.
  assert ((forall items, content <> JList items) ->
             bind (lift (get message "content" (JStr EmptyString)))
               (fun content => ret (Next ([text_block content], total))) log = (r, log1) ->
             exists probes,
               log1 = (log ++ probes)%list
               /\ probes_only probes
               /\ match r with
                  | Ok (Next (processed_content, total1)) =>
                      (forall role, getitem message "role" = Ok role ->
                         normalized_from message
                           (JDict [("role", role); ("content", JList processed_content)]))
                      /\ (total1 == total + 0)%Q
                      /\ ((total <= inject_Z MAX_TOTAL_IMAGE_SIZE)%Q ->
                          (total1 <= inject_Z MAX_TOTAL_IMAGE_SIZE)%Q)
                  | Ok (Return v) => image_error v
                  | Raise _ => True
                  end) as Hwrap.
  { intros Hnot Hb. unfold bind, lift, ret in Hb.
    destruct (get message "content" (JStr EmptyString)) as [c'|e] eqn:Ec';
      inversion Hb; subst; exists []; rewrite app_nil_r;
      (split; [reflexivity|]); (split; [auto with probes|]); [|exact I].
    split; [|split; [rewrite Qplus_0_r; reflexivity | auto]].
    intros role Hrole. exists role, c'. split; [exact Hrole|]. split; [exact Ec'|].
    pose proof (get_not_list _ _ _ _ Econtent Hnot Ec') as Hc'.
    destruct c'; try reflexivity. exfalso. eapply Hc'. reflexivity. }
  destruct content as [| | | | |items|];
    try (apply Hwrap; [intros; discriminate | exact H]).
  apply process_items_outcome in H as (probes & -> & Hp & Hr).
  exists probes. split; [reflexivity|]. split; [assumption|].
  destruct r as [[[processed_content total1]|v]|e]; [|exact Hr|exact I].
  destruct Hr as ((blocks & Hpc & Hblocks) & Htotal & Hbound). cbn [app] in Hpc. subst.
  split; [|split; assumption].
  intros role Hrole. exists role, (JList items).
  split; [exact Hrole|]. split; [exact (get_list _ _ _ _ Econtent)|].
  exists blocks. split; [assumption | reflexivity].
Qed.

Lemma process_messages_outcome (messages : list json) :
  forall processed total log r log',
    process_messages http_head messages processed total log = (r, log') ->
    exists probes,
      log' = (log ++ probes)%list
      /\ probes_only probes
      /\ match r with
         | Ok (Next processed') =>
             (exists out,
                 processed' = (processed ++ out)%list
                 /\ Forall2 normalized_from messages out)
             /\ ((total <= inject_Z MAX_TOTAL_IMAGE_SIZE)%Q ->
                 (total + batch_inline_size messages <= inject_Z MAX_TOTAL_IMAGE_SIZE)%Q)
         | Ok (Return v) => image_error v
         | Raise _ => True
         end.
Proof.
  induction messages as [|message rest IH]; intros processed total log r log' H.
  - inversion H; subst. exists []. rewrite app_nil_r.
    split; [reflexivity|]. split; [auto with probes|].
    split; [exists []; rewrite app_nil_r; split; [reflexivity | constructor]|].
    cbn. rewrite Qplus_0_r. auto.
  - cbn [process_messages] in H. unfold bind at 1, lift at 1 in H.
    unfold batch_inline_size. cbn [fold_right]. fold (batch_inline_size rest).
    destruct (get message "content" JNone) as [content|e] eqn:Econtent.
    2:{ inversion H; subst. exists []. rewrite app_nil_r. auto with probes. }
    apply bind_inv in H as [(e & H & ->) | (step & log1 & H & Hk)];
      apply (content_outcome message content total log _ _ Econtent) in H
        as (probes1 & -> & Hp1 & Hstep).
    + exists probes1. auto.
    + destruct step as [[processed_content total1]|v].
      2:{ inversion Hk; subst. exists probes1. auto. }
      destruct Hstep as (Hnorm & Htotal1 & Hbound1).
      unfold bind at 1, lift at 1 in Hk.
      destruct (getitem message "role") as [role|e] eqn:Erole.
      2:{ inversion Hk; subst. exists probes1. auto. }
      apply IH in Hk as (probes2 & -> & Hp2 & Hr). exists (probes1 ++ probes2)%list.
      split; [rewrite app_assoc; reflexivity|]. split; [auto with probes|].
      destruct r as [[processed'|v]|e]; [|exact Hr|exact I].
      destruct Hr as ((out & -> & Hout) & Hbound).
      split.
      * eexists (_ :: out). split; [rewrite <- app_assoc; reflexivity|].
        constructor; [exact (Hnorm role eq_refl) | exact Hout].
      * intros Hle. rewrite Qplus_assoc, <- Htotal1. auto.
Qed.

(** ** Well-formed batches go on until the total passes the limit *)

Lemma process_remote (item image_url : json) (url : string) (log : list call) :
  getitem item "image_url" = Ok image_url ->
  getitem image_url "url" = Ok (JStr url) ->
  startswith url "data:image" = false ->
  probe_passes http_head url ->
  process_image http_head item log = (Ok (url_image url), (log ++ [HeadCall url])%list).
Proof.
  intros H1 H2 H3 Hprobe. unfold process_image, bind, lift.
  rewrite H1, H2. cbn [str_method]. rewrite H3.
  unfold try_except, probe, bind, tell, lift, raise, ret. unfold probe_passes in Hprobe.
  destruct (http_head url) as [e|[header|]].
  - rewrite Hprobe. reflexivity.
  - destruct Hprobe as (n & -> & Hn).
    assert ((MAX_IMAGE_SIZE <? n) = false) as -> by (apply Z.ltb_ge; exact Hn).
    reflexivity.
  - reflexivity.
Qed.

Lemma image_item_remote (item image_url : json) (url : string) (processed : list json)
  (total : Q) (log : list call) :
  getitem item "image_url" = Ok image_url ->
  getitem image_url "url" = Ok (JStr url) ->
  startswith url "data:image" = false ->
  probe_passes http_head url ->
  image_item http_head item processed total log
  = (Ok ((processed ++ [url_image url])%list, total), (log ++ [HeadCall url])%list).
Proof.
  intros H1 H2 H3 Hprobe. unfold image_item, bind.
  rewrite (process_remote _ _ _ _ H1 H2 H3 Hprobe). reflexivity.
Qed.

Lemma image_item_inline (item image_url : json) (media_type params payload : string)
  (processed : list json) (total : Q) (log : list call) :
  getitem item "image_url" = Ok image_url ->
  getitem image_url "url" = Ok (JStr ("data:" ++ media_type ++ params ++ "," ++ payload)) ->
  startswith media_type "image" = true ->
  str_in ":" media_type = false ->
  str_in ";" media_type = false ->
  str_in "," media_type = false ->
  params = EmptyString \/ (exists p, params = ";" ++ p) ->
  str_in "," params = false ->
  (estimated_size payload <= inject_Z MAX_IMAGE_SIZE)%Q ->
  image_item http_head item processed total log
  = if exceeds (total + estimated_size payload) MAX_TOTAL_IMAGE_SIZE
    then (Raise (total_size_exception (total + estimated_size payload)), log)
    else (Ok ((processed ++ [base64_image media_type payload])%list,
              (total + estimated_size payload)%Q), log).
Proof.
  intros H1 H2 H3 H4 H5 H6 H7 H8 Hsize. unfold image_item, bind.
  rewrite (MediaValidator.process_inline http_head _ _ _ _ _ H1 H2 H3 H4 H5 H6 H7 H8).
  rewrite (MediaValidator.exceeds_false _ _ Hsize).
  cbn [lift getitem base64_image lookup String.eqb Ascii.eqb Bool.eqb eq_str len].
  change (inject_Z (Z.of_nat (String.length payload) * 3) / inject_Z 4)%Q
    with (estimated_size payload).
  destruct (exceeds (total + estimated_size payload) MAX_TOTAL_IMAGE_SIZE); reflexivity.
Qed.

Lemma valid_items_progress (items : list json) :
  Forall (valid_item http_head) items ->
  forall processed total log,
  exists step log',
    process_items http_head items processed total log = (Ok step, log')
    /\ match step with
       | Next _ => True
       | Return v =>
           exists t, (inject_Z MAX_TOTAL_IMAGE_SIZE < t)%Q /\ v = JStr (total_size_error t)
       end.
Proof.
  induction 1 as [|item rest Hitem _ IH]; intros processed total log.
  - eexists _, log. split; [reflexivity | exact I].
  - cbn [process_items]. unfold bind at 1, lift at 1.
    destruct Hitem as [item t Htype Htext
                      |item image_url media_type params payload Htype H1 H2 H3 H4 H5 H6 H7 H8 Hsize
                      |item image_url url Htype H1 H2 H3 Hprobe
                      |item ty Htype Hnot_text Hnot_image].
    + rewrite Htype. change (eq_str (JStr "text") "text") with true. cbv iota.
      unfold bind at 1, lift at 1. rewrite Htext. apply IH.
    + rewrite Htype. change (eq_str (JStr "image_url") "text") with false. cbv iota.
      unfold bind at 1, lift at 1.
      change (eq_str (JStr "image_url") "image_url") with true. cbv iota.
      unfold bind at 1, try_except, bind at 1.
      rewrite (image_item_inline _ _ _ _ _ _ _ _ H1 H2 H3 H4 H5 H6 H7 H8 Hsize).
      pose proof (MediaValidator.exceeds_spec (total + estimated_size payload)
                    MAX_TOTAL_IMAGE_SIZE) as Hlimit.
      destruct (exceeds (total + estimated_size payload) MAX_TOTAL_IMAGE_SIZE).
      * eexists _, log. split; [reflexivity|].
        exists (total + estimated_size payload)%Q. split; [exact Hlimit | reflexivity].
      * apply IH.
    + rewrite Htype. change (eq_str (JStr "image_url") "text") with false. cbv iota.
      unfold bind at 1, lift at 1.
      change (eq_str (JStr "image_url") "image_url") with true. cbv iota.
      unfold bind at 1, try_except, bind at 1.
      rewrite (image_item_remote _ _ _ _ _ _ H1 H2 H3 Hprobe). apply IH.
    + rewrite Htype, Hnot_text. unfold bind at 1, lift at 1.
      rewrite Hnot_image. apply IH.
Qed.

Lemma valid_messages_progress (messages : list json) :
  Forall (valid_message http_head) messages ->
  forall processed total log,
  exists step log',
    process_messages http_head messages processed total log = (Ok step, log')
    /\ match step with
       | Next _ => True
       | Return v =>
           exists t, (inject_Z MAX_TOTAL_IMAGE_SIZE < t)%Q /\ v = JStr (total_size_error t)
       end.
Proof.
  induction 1 as [|message rest Hmessage _ IH]; intros processed total log.
  - eexists _, log. split; [reflexivity | exact I].
  - destruct Hmessage as ((role & Hrole) & content & Hcontent & Hitems).
    cbn [process_messages]. unfold bind at 1, lift at 1. rewrite Hcontent.
    assert (exists c, get message "content" (JStr EmptyString) = Ok c) as [c Hc].
    { destruct message; try discriminate. cbn. destruct (lookup "content" d); eauto. }
    destruct content as [| | | | |items|];
      try (unfold bind at 1 2 3, lift; rewrite Hc, Hrole; cbn [ret]; apply IH).
    unfold bind at 1.
    destruct (valid_items_progress items (Hitems items eq_refl) [] total log)
      as ([[processed_content total1]|v] & log1 & -> & Hstep).
    + unfold bind at 1, lift. rewrite Hrole. apply IH.
    + eexists _, log1. split; [reflexivity | exact Hstep].
Qed.

End WithProbe.

(** ** The whole of [pipe] *)

(** The blocks the code builds are those of the protocol. *)
Lemma text_block_is_text_of (t : json) : text_of t (text_block t).
Proof.
  exists [("type", JStr "text"); ("text", t)].
  split; [reflexivity|]. split; [reflexivity|].
  apply Forall_cons; [reflexivity|]. apply Forall_cons; [reflexivity | apply Forall_nil].
Qed.

Lemma image_block_is_protocol_image (block : json) :
  is_image_block block -> protocol_image block.
Proof.
  intros [(media_type & data & ->) | (url & ->)].
  - exists (JDict [("type", JStr "base64"); ("media_type", JStr media_type);
                   ("data", JStr data)]).
    split.
    + eexists. split; [reflexivity|]. split; [reflexivity|].
      apply Forall_cons; [reflexivity|]. apply Forall_cons; [reflexivity | apply Forall_nil].
    + left. exists media_type, data. eexists. split; [reflexivity|]. split; [reflexivity|].
      apply Forall_cons; [reflexivity|]. apply Forall_cons; [reflexivity|].
      apply Forall_cons; [reflexivity | apply Forall_nil].
  - exists (JDict [("type", JStr "url"); ("url", JStr url)]).
    split.
    + eexists. split; [reflexivity|]. split; [reflexivity|].
      apply Forall_cons; [reflexivity|]. apply Forall_cons; [reflexivity | apply Forall_nil].
    + right. exists url. eexists. split; [reflexivity|]. split; [reflexivity|].
      apply Forall_cons; [reflexivity|]. apply Forall_cons; [reflexivity | apply Forall_nil].
Qed.

(** The two variants exclude each other: they differ in their tag. *)
Lemma text_is_no_image (t block : json) : text_of t block -> ~ protocol_image block.
Proof.
  intros (d & -> & _ & Hd) (source & (d' & E & _ & Hd') & _).
  inversion E; subst d'. inversion Hd as [|? ? Htype _]. inversion Hd' as [|? ? Htype' _].
  cbn [fst snd] in Htype, Htype'. rewrite Htype in Htype'. discriminate.
Qed.

Lemma expected_of_blocks (items blocks : list json) :
  blocks_of items blocks -> expected_blocks items blocks.
Proof.
  induction 1 as [|item t items blocks Hty Ht _ IH|item block items blocks Hty Hb _ IH
                  |item ty items blocks Hty Hn1 Hn2 _ IH].
  - constructor.
  - exact (expected_text _ _ _ _ _ Hty Ht (text_block_is_text_of t) IH).
  - exact (expected_image _ _ _ _ Hty (image_block_is_protocol_image _ Hb) IH).
  - exact (expected_other _ _ _ _ Hty Hn1 Hn2 IH).
Qed.

Lemma expected_of_normalized (message out : json) :
  normalized_from message out -> expected_message message out.
Proof.
  intros (role & content & Hrole & Hcontent & Hshape).
  assert (forall blocks,
             object_of [("role", role); ("content", JList blocks)]
               (JDict [("role", role); ("content", JList blocks)])) as Hobject.
  { intros blocks. eexists. split; [reflexivity|]. split; [reflexivity|].
    apply Forall_cons; [reflexivity|]. apply Forall_cons; [reflexivity | apply Forall_nil]. }
  assert (out = JDict [("role", role); ("content", JList [text_block content])] ->
          (forall items, content <> JList items) ->
          expected_message message out) as Hwrap.
  { intros -> Hnot. exists role, [text_block content].
    split; [exact Hrole|]. split; [apply Hobject|]. rewrite Hcontent.
    destruct content; try (eexists; split; [reflexivity | apply text_block_is_text_of]).
    exfalso. eapply Hnot. reflexivity. }
  destruct content as [| | | | |items|]; try (apply Hwrap; [exact Hshape | discriminate]).
  destruct Hshape as (blocks & Hblocks & ->). exists role, blocks.
  split; [exact Hrole|]. split; [apply Hobject|]. rewrite Hcontent.
  exact (expected_of_blocks _ _ Hblocks).
Qed.

(** With string texts, the expected blocks are content blocks. *)
Lemma expected_blocks_typed (items blocks : list json) :
  expected_blocks items blocks -> Forall text_is_string items ->
  Forall protocol_block blocks.
Proof.
  induction 1 as [|item t block items blocks Hty Ht Hb _ IH
                  |item block items blocks Hty Hb _ IH
                  |item ty items blocks Hty Hn1 Hn2 _ IH];
    intros Htyped; inversion Htyped as [|? ? Hitem Hrest]; subst.
  - constructor.
  - constructor; [|exact (IH Hrest)].
    destruct (Hitem Hty) as (text & Htext). rewrite Ht in Htext. inversion Htext; subst t.
    left. split; [exists text; exact Hb | exact (text_is_no_image _ _ Hb)].
  - constructor; [|exact (IH Hrest)].
    right. split; [exact Hb|]. intros (text & Htext).
    exact (text_is_no_image _ _ Htext Hb).
  - exact (IH Hrest).
Qed.

Lemma expected_message_typed (message out : json) :
  expected_message message out -> typed_content message -> protocol_message out.
Proof.
  intros (role & blocks & _ & Hout & Hblocks) Htyped. exists role, blocks.
  split; [exact Hout|]. unfold typed_content in Htyped.
  destruct (get message "content" (JStr EmptyString)) as [content|e]; [|contradiction].
  destruct content as [| | | |text|items|]; try contradiction.
  - destruct Hblocks as (block & -> & Hblock).
    constructor; [|constructor].
    left. split; [exists text; exact Hblock | exact (text_is_no_image _ _ Hblock)].
  - exact (expected_blocks_typed _ _ Hblocks Htyped).
Qed.

Section WithEnvironment.

Variable valves : Valves.
Variable json_loads : string -> result json.
Variable pop_system_message : json -> result (json * list json).
Variable py_str : json -> string.
Variable http_head : string -> head_reply.
Variable http_post : bool -> string -> json -> json -> post_reply.

Local Abbreviation pipe :=
  (pipe valves json_loads pop_system_message py_str http_head http_post).

(** [non_stream_response] makes its one request and never raises. *)
Lemma non_stream_response_returns (url : string) (headers payload : json) (log : list call) :
  exists v,
    non_stream_response json_loads http_post url headers payload log
    = (Ok v, (log ++ [PostCall false url headers payload])%list).
Proof.
  unfold non_stream_response, try_except.
  assert (forall r log1,
             non_stream_try json_loads http_post url headers payload log = (r, log1) ->
             log1 = (log ++ [PostCall false url headers payload])%list) as Hlog.
  { unfold non_stream_try. intros r log1 H.
    apply bind_inv in H as [(e & H & _) | ([] & log2 & H & Hk)]; [discriminate|].
    inversion H; subst. revert Hk. generalize (log ++ [PostCall false url headers payload])%list.
    intros log2. revert log2 r log1. silent. }
  destruct (non_stream_try json_loads http_post url headers payload log)
    as [[v|e] log1]; rewrite (Hlog _ _ eq_refl).
  - eexists; reflexivity.
  - destruct (is_timeout e); eexists; reflexivity.
Qed.

Lemma build_payload_messages (body : list (string * json)) (model_id : json)
  (out : list json) (system_message payload : json) :
  build_payload valves py_str body model_id out system_message = Ok payload ->
  getitem payload "messages" = Ok (JList out).
Proof.
  unfold build_payload, and_then.
  destruct (truthy (dict_get body "stop" JNone));
    [destruct (getitem (JDict body) "stop"); [|discriminate]|];
    destruct (truthy system_message); intros H; inversion H; reflexivity.
Qed.

(** [pipe] either stops before a payload exists, having made probes only, or
    builds the payload from the normalised batch, whose inline images are
    within the total limit, and hands it to one of the two response paths. *)
Lemma pipe_outcome (body : list (string * json)) (log : list call)
  (r : result pipe_return) (log' : list call) :
  pipe body log = (r, log') ->
  (exists probes,
      log' = (log ++ probes)%list
      /\ probes_only probes
      /\ forall url headers payload, r <> Ok (Generator url headers payload))
  \/ (exists raw system_message messages out model_id payload probes,
         lookup "messages" body = Some raw
         /\ pop_system_message raw = Ok (system_message, messages)
         /\ Forall2 normalized_from messages out
         /\ (batch_inline_size messages <= inject_Z MAX_TOTAL_IMAGE_SIZE)%Q
         /\ build_payload valves py_str body model_id out system_message = Ok payload
         /\ probes_only probes
         /\ ((r = Ok (Generator api_url (build_headers valves) payload)
              /\ log' = (log ++ probes)%list)
             \/ (exists v,
                    r = Ok (Value v)
                    /\ log' = (log ++ probes
                                 ++ [PostCall false api_url (build_headers valves) payload])%list))).
Proof.
  assert (forall (x : result pipe_return),
             (forall url headers payload, x <> Ok (Generator url headers payload)) ->
             exists probes,
               log = (log ++ probes)%list /\ probes_only probes
               /\ forall url headers payload, x <> Ok (Generator url headers payload))
    as Hstop.
  { intros x Hx. exists []. rewrite app_nil_r. auto with probes. }
  unfold Pipe.pipe. intros H.
  destruct (negb (truthy (JStr (ANTHROPIC_API_KEY valves)))).
  { inversion H; subst. left. apply Hstop. discriminate. }
  unfold bind at 1, lift at 1 in H. cbn [getitem] in H.
  destruct (lookup "messages" body) as [raw|] eqn:Eraw.
  2:{ inversion H; subst. left. apply Hstop. discriminate. }
  unfold bind at 1, lift at 1 in H.
  destruct (pop_system_message raw) as [[system_message messages]|e] eqn:Epop.
  2:{ inversion H; subst. left. apply Hstop. discriminate. }
  apply bind_inv in H as [(e & H & ->) | (normalized & log1 & H & Hk)];
    apply process_messages_outcome in H as (probes & -> & Hp & Hr).
  { left. exists probes. split; [reflexivity|]. split; [assumption | discriminate]. }
  destruct normalized as [out|v].
  2:{ inversion Hk; subst. left. exists probes.
      split; [reflexivity|]. split; [assumption | discriminate]. }
  destruct Hr as ((out' & Hout' & Hnorm) & Hbound). cbn [app] in Hout'. subst out'.
  assert (batch_inline_size messages <= inject_Z MAX_TOTAL_IMAGE_SIZE)%Q as Hsize.
  { rewrite <- (Qplus_0_l (batch_inline_size messages)). apply Hbound. discriminate. }
  unfold bind at 1, try_except at 1, bind at 1, lift at 1 in Hk.
  destruct (lookup "model" body) as [model_string|].
  2:{ inversion Hk; subst. left. exists probes.
      split; [reflexivity|]. split; [assumption | discriminate]. }
  unfold bind at 1, lift at 1 in Hk.
  destruct (_extract_model_id model_string) as [model_id|e].
  2:{ inversion Hk; subst. left. exists probes.
      split; [reflexivity|]. split; [assumption | discriminate]. }
  cbn [ret] in Hk. unfold bind at 1, lift at 1 in Hk.
  destruct (build_payload valves py_str body model_id out system_message)
    as [payload|e] eqn:Epayload.
  2:{ inversion Hk; subst. left. exists probes.
      split; [reflexivity|]. split; [assumption | discriminate]. }
  right. exists raw, system_message, messages, out, model_id, payload, probes.
  repeat (split; [first [assumption | reflexivity]|]).
  unfold try_except in Hk. destruct (truthy (dict_get body "stream" (JBool false))).
  - inversion Hk; subst. left. split; reflexivity.
  - unfold bind in Hk.
    destruct (non_stream_response_returns api_url (build_headers valves) payload
                (log ++ probes)%list) as [v Ev].
    rewrite Ev in Hk. inversion Hk; subst. right. exists v.
    split; [reflexivity | rewrite app_assoc; reflexivity].
Qed.

Lemma not_built_by_probes (log probes probes' : list call) (c : call) :
  probes_only probes -> is_post c = true ->
  (log ++ probes)%list <> (log ++ probes' ++ [c])%list.
Proof.
  intros Hp Hc E. apply app_inv_head in E. subst probes.
  apply Forall_app in Hp as [_ Hp]. inversion Hp; congruence.
Qed.

(** Whatever payload [pipe] builds is built from the normalised batch. *)
Lemma built_from_normalized (body : list (string * json)) (log : list call)
  (r : result pipe_return) (log' : list call) (payload : json) :
  pipe body log = (r, log') ->
  payload_built r log log' payload ->
  exists raw system_message messages out,
    lookup "messages" body = Some raw
    /\ pop_system_message raw = Ok (system_message, messages)
    /\ getitem payload "messages" = Ok (JList out)
    /\ Forall2 normalized_from messages out
    /\ (batch_inline_size messages <= inject_Z MAX_TOTAL_IMAGE_SIZE)%Q.
Proof.
  intros H Hbuilt.
  apply pipe_outcome in H
    as [(probes & -> & Hp & Hr)
       | (raw & sm & messages & out & model_id & payload0 & probes
          & Hraw & Hpop & Hnorm & Hsize & Hpayload & Hp & Hsent)].
  - exfalso. destruct Hbuilt as [(url & headers & ->) | (probes' & st & url & headers & E)].
    + eapply Hr; reflexivity.
    + exact (not_built_by_probes _ _ _ (PostCall st url headers payload) Hp eq_refl E).
  - assert (payload = payload0) as ->.
    { destruct Hsent as [(-> & ->) | (v & -> & ->)];
        destruct Hbuilt as [(url & headers & E) | (probes' & st & url & headers & E)].
      - inversion E; reflexivity.
      - exfalso. exact (not_built_by_probes _ _ _ (PostCall st url headers payload) Hp eq_refl E).
      - discriminate.
      - apply app_inv_head, app_inj_tail in E as [_ E]. inversion E; reflexivity. }
    exists raw, sm, messages, out.
    repeat (split; [first [assumption | eapply build_payload_messages; eassumption]|]).
    assumption.
Qed.

End WithEnvironment.

(** C10, as the code has it.  Whenever [pipe] builds a payload, its [messages]
    answer the caller's messages one for one, each with the role of its
    message: for a content list, a block of type "text" with the text of each
    item of type "text", an image block for each item of type "image_url",
    in the order of the items, and no block for an item of any other type; for
    a content that is not a list, a single block of type "text" with that
    content, the empty string when the message has none.  When every message
    has a string content, no content, or a list whose text items have a string
    for their text, every block of every message is exactly one of the two
    variants of the protocol, a text block or an image block. *)
Theorem payload_content_blocks :
  forall valves json_loads pop_system_message py_str http_head http_post
         body log r log' payload,
    Pipe.pipe valves json_loads pop_system_message py_str http_head http_post body log
    = (r, log') ->
    payload_built r log log' payload ->
    exists raw system_message messages out,
      lookup "messages" body = Some raw
      /\ pop_system_message raw = Ok (system_message, messages)
      /\ getitem payload "messages" = Ok (JList out)
      /\ Forall2 expected_message messages out
      /\ (Forall typed_content messages -> Forall protocol_message out).
Proof.
  intros valves json_loads pop py_str http_head http_post body log r log' payload H Hbuilt.
  destruct (built_from_normalized _ _ _ _ _ _ _ _ _ _ _ H Hbuilt)
    as (raw & sm & messages & out & Hraw & Hpop & Hmessages & Hnorm & _).
  exists raw, sm, messages, out. repeat (split; [assumption|]).
  clear - Hnorm. split.
  - induction Hnorm as [|message o messages out Hm _ IH]; constructor.
    + exact (expected_of_normalized _ _ Hm).
    + exact IH.
  - induction Hnorm as [|message o messages out Hm _ IH]; intros Htyped; constructor;
      inversion Htyped; subst.
    + apply (expected_message_typed message); [exact (expected_of_normalized _ _ Hm)|].
      assumption.
    + apply IH. assumption.
Qed.

(** C2, as the code has it.  When the inline images of the batch have
    estimated sizes that sum to more than 100 MiB, [pipe] builds no payload and
    makes no request to the messages endpoint; and when the batch is
    well-formed (items of type text with their text, inline images within
    5 MiB each, remote images that pass their probe, items of other types;
    messages with a role) and the API key is set, [pipe] returns the one text of
    the total-size error. *)
Theorem cumulative_image_limit :
  forall valves json_loads pop_system_message py_str http_head http_post
         body raw system_message messages log,
    lookup "messages" body = Some raw ->
    pop_system_message raw = Ok (system_message, messages) ->
    (inject_Z MAX_TOTAL_IMAGE_SIZE < batch_inline_size messages)%Q ->
    (forall r log',
        Pipe.pipe valves json_loads pop_system_message py_str http_head http_post body log
        = (r, log') ->
        (forall payload, ~ payload_built r log log' payload)
        /\ exists probes, log' = (log ++ probes)%list /\ probes_only probes)
    /\ (ANTHROPIC_API_KEY valves <> EmptyString ->
        Forall (valid_message http_head) messages ->
        exists t probes,
          (inject_Z MAX_TOTAL_IMAGE_SIZE < t)%Q
          /\ probes_only probes
          /\ Pipe.pipe valves json_loads pop_system_message py_str http_head http_post body log
             = (Ok (Value (JStr (total_size_error t))), (log ++ probes)%list)).
Proof.
  intros valves json_loads pop py_str http_head http_post body raw sm messages log
    Hraw Hpop Hsum.
  split.
  - intros r log' H. split.
    + intros payload Hbuilt.
      destruct (built_from_normalized _ _ _ _ _ _ _ _ _ _ _ H Hbuilt)
        as (raw' & sm' & messages' & out & Hraw' & Hpop' & _ & _ & Hsize).
      rewrite Hraw in Hraw'. inversion Hraw'; subst raw'.
      rewrite Hpop in Hpop'. inversion Hpop'; subst.
      exact (Qlt_not_le _ _ Hsum Hsize).
    + apply pipe_outcome in H
        as [(probes & -> & Hp & _)
           | (raw' & sm' & messages' & out & model_id & payload & probes
              & Hraw' & Hpop' & _ & Hsize & _)].
      * exists probes. split; [reflexivity | assumption].
      * exfalso. rewrite Hraw in Hraw'. inversion Hraw'; subst raw'.
        rewrite Hpop in Hpop'. inversion Hpop'; subst.
        exact (Qlt_not_le _ _ Hsum Hsize).
  - intros Hkey Hvalid.
    destruct (valid_messages_progress http_head messages Hvalid [] 0%Q log)
      as (step & log' & Hrun & Hstep).
    destruct (process_messages_outcome http_head messages _ _ _ _ _ Hrun)
      as (probes & -> & Hp & Hr).
    destruct step as [out|v].
    + exfalso. destruct Hr as (_ & Hbound).
      apply (Qlt_not_le _ _ Hsum). rewrite <- (Qplus_0_l (batch_inline_size messages)).
      apply Hbound. discriminate.
    + destruct Hstep as (t & Ht & ->). exists t, probes.
      split; [exact Ht|]. split; [exact Hp|].
      unfold Pipe.pipe. rewrite (ModelCatalog.truthy_str _ Hkey). cbn [negb].
      unfold bind, lift, getitem. rewrite Hraw, Hpop, Hrun. reflexivity.
Qed.

End Normalizer.

(* ================================================================== *)
(** * Remote images: the size probe *)

Module RemoteProbe.
Import Py Net Pipe Spec.

(** What the probe does where it is conclusive or fails as [requests] fails:
    a declared length above 5 MiB raises the image-too-large error, or the
    error of the division that computes its size in megabytes; a [requests]
    exception, a missing header or a length within the limit lets the URL block
    through. *)
Lemma probe_outcomes :
  forall http_head item image_url url log,
    getitem item "image_url" = Ok image_url ->
    getitem image_url "url" = Ok (JStr url) ->
    startswith url "data:image" = false ->
    (forall header n,
        http_head url = HeadResponse (Some header) ->
        int_of_str header = Ok n ->
        MAX_IMAGE_SIZE < n ->
        process_image http_head item log
        = (match true_div n (1024 * 1024) with
           | Ok size => Raise (ValueError ("Image at URL exceeds 5MB limit: "
                                           ++ format_2f size ++ "MB"))
           | Raise e => Raise e
           end,
           (log ++ [HeadCall url])%list))
    /\ (probe_passes http_head url ->
        process_image http_head item log
        = (Ok (url_image url), (log ++ [HeadCall url])%list)).
Proof.
  intros http_head item image_url url log H1 H2 H3. split.
  - intros header n Hhead Hint Hn. unfold process_image, bind, lift.
    rewrite H1, H2. cbn [str_method]. rewrite H3.
    unfold try_except, probe, bind, tell, lift, raise, ret. rewrite Hhead, Hint.
    assert ((MAX_IMAGE_SIZE <? n) = true) as -> by (apply Z.ltb_lt; exact Hn).
    destruct (true_div n (1024 * 1024)) as [size|e] eqn:E; [reflexivity|].
    apply PyFacts.true_div_raises in E as [(_ & ->) | (_ & ->)]; reflexivity.
  - exact (Normalizer.process_remote http_head item image_url url log H1 H2 H3).
Qed.

(** C9. Best-effort probe fails on a content length that is not a number: for
    the image URL [Demo.cat_url] and a reply to the probe whose header reads
    "abc", [int()] raises [ValueError], which the handler for [requests]
    exceptions does not catch; [process_image] raises, and [pipe] returns an
    error text instead of sending the request. *)
Theorem unusable_length_blocks_request :
  process_image Demo.garbled_length (Demo.image_item Demo.cat_url) []
  = (Raise (ValueError "invalid literal for int() with base 10: 'abc'"),
     [HeadCall Demo.cat_url])
  /\ pipe Demo.valves Demo.loads Demo.pop_system_message Demo.str Demo.garbled_length
       (Demo.always (Demo.replied 200 Demo.hello_body))
       (Demo.request false [Demo.message "user" (JList [Demo.image_item Demo.cat_url])]) []
     = (Ok (Value (JStr "Error: Failed to process image: invalid literal for int() with base 10: 'abc'")),
        [HeadCall Demo.cat_url]).
Proof. split; reflexivity. Qed.

End RemoteProbe.

(* ================================================================== *)
(** * Failures outside the image path *)

Module Propagation.
Import Py Net Pipe Spec.

(** A failure of the image path comes back as a text, also when streaming was
    asked for. *)
Example image_failure_is_a_text :
  pipe Demo.valves Demo.loads Demo.pop_system_message Demo.str Demo.no_length
    (Demo.always (Demo.replied 200 Demo.hello_body))
    (Demo.request true Demo.broken_image) []
  = (Ok (Value (JStr "Error: Failed to process image: 'image_url'")), []).
Proof. reflexivity. Qed.

(** C8. All-or-nothing normalisation with error texts fails outside the image
    path: for a text item without its [text], with streaming asked for,
    [item["text"]] raises [KeyError] where no handler is in scope, and the
    exception leaves [pipe]. *)
Theorem missing_text_raises_past_pipe :
  pipe Demo.valves Demo.loads Demo.pop_system_message Demo.str Demo.no_length
    (Demo.always (Demo.replied 200 Demo.hello_body))
    (Demo.request true Demo.broken_text) []
  = (Raise (KeyError "text"), []).
Proof. reflexivity. Qed.

End Propagation.

(* ================================================================== *)
(** * Worked examples *)

Module Examples.
Import Py Net Pipe Spec.

Lemma length_repeated (c : ascii) (n : N) :
  Z.of_nat (String.length (Demo.repeated c n)) = Z.of_N n.
Proof.
  unfold Demo.repeated. induction n as [|n IH] using N.peano_ind.
  - reflexivity.
  - rewrite N.iter_succ. cbn [String.length].
    rewrite Nat2Z.inj_succ, IH, N2Z.inj_succ. reflexivity.
Qed.

Lemma size_repeated (c : ascii) (n : N) :
  estimated_size (Demo.repeated c n) = (inject_Z (Z.of_N n * 3) / inject_Z 4)%Q.
Proof. unfold estimated_size. rewrite length_repeated. reflexivity. Qed.

Lemma model_resolution_witness :
  _extract_model_id (JStr "anthropic.claude-opus-4-5") = Ok (JStr "claude-opus-4-5")
  /\ _extract_model_id (JStr "claude-opus-4-5") = Ok (JStr "claude-opus-4-5")
  /\ pipe Demo.valves Demo.loads Demo.pop_system_message Demo.str Demo.no_length
       (Demo.always (Demo.replied 200 Demo.hello_body))
       [("model", JStr EmptyString);
        ("messages", JList [Demo.message "user" (JStr "hi")])] []
     = (Ok (Value (JStr "Error: Invalid model format: Model string is empty")), []).
Proof.
  destruct ModelCatalog.model_resolution as (Hsep & Hplain & _ & Hempty).
  split; [|split].
  - destruct (Hsep "anthropic.claude-opus-4-5" eq_refl) as (before & after & E & Hb & ->).
    assert (before = "anthropic" /\ after = "claude-opus-4-5") as [_ ->]; [|reflexivity].
    pose proof (PyFacts.cut_first "." before after Hb) as Hcut.
    change (String "." after) with ("." ++ after) in Hcut. rewrite <- E in Hcut.
    inversion Hcut. split; reflexivity.
  - apply Hplain; [discriminate | reflexivity].
  - apply (Hempty Demo.valves Demo.loads Demo.pop_system_message Demo.str Demo.no_length
             (Demo.always (Demo.replied 200 Demo.hello_body)) _
             (JList [Demo.message "user" (JStr "hi")]) JNone
             [Demo.message "user" (JStr "hi")]
             [JDict [("role", JStr "user");
                     ("content", JList [text_block (JStr "hi")])]] [] []);
      first [reflexivity | discriminate].
Defined.

Lemma inline_image_limit_witness :
  process_image Demo.no_length (Demo.png "aGVsbG8=") []
  = (Ok (base64_image "image/png" "aGVsbG8="), [])
  /\ process_image Demo.no_length (Demo.png Demo.beyond_limit) []
     = (Raise (ValueError "Image size exceeds 5MB limit: 5.01MB"), []).
Proof.
  assert (forall payload,
             (estimated_size payload
              == inject_Z (Z.of_nat (String.length payload)) * (3 # 4))%Q
             /\ ((inject_Z (5 * 1024 * 1024) < estimated_size payload)%Q ->
                 process_image Demo.no_length (Demo.png payload) []
                 = (Raise (ValueError ("Image size exceeds 5MB limit: "
                                       ++ format_2f (megabytes (estimated_size payload))
                                       ++ "MB")), []))
             /\ ((estimated_size payload <= inject_Z (5 * 1024 * 1024))%Q ->
                 process_image Demo.no_length (Demo.png payload) []
                 = (Ok (base64_image "image/png" payload), []))) as H.
  { intros payload.
    apply (MediaValidator.inline_image_limit Demo.no_length (Demo.png payload)
             (JDict [("url", JStr ("data:image/png;base64," ++ payload))])
             "image/png" ";base64" payload []); try reflexivity.
    right. exists "base64". reflexivity. }
  split.
  - apply (H "aGVsbG8="). discriminate.
  - destruct (H Demo.beyond_limit) as (_ & -> & _).
    + unfold Demo.beyond_limit. rewrite size_repeated. reflexivity.
    + unfold Demo.beyond_limit. rewrite size_repeated. reflexivity.
Defined.

Lemma png_is_valid (payload : string) :
  (estimated_size payload <= inject_Z MAX_IMAGE_SIZE)%Q ->
  valid_item Demo.no_length (Demo.png payload).
Proof.
  intros Hsize.
  apply (valid_inline Demo.no_length (Demo.png payload)
           (JDict [("url", JStr ("data:image/png;base64," ++ payload))])
           "image/png" ";base64" payload); try reflexivity; [|exact Hsize].
  right. exists "base64". reflexivity.
Qed.

Lemma cumulative_image_limit_witness :
  exists t probes,
    (inject_Z MAX_TOTAL_IMAGE_SIZE < t)%Q
    /\ probes_only probes
    /\ pipe Demo.valves Demo.loads Demo.pop_system_message Demo.str Demo.no_length
         (Demo.always (Demo.replied 200 Demo.hello_body))
         (Demo.request false (Demo.album Demo.within_limit)) []
       = (Ok (Value (JStr (total_size_error t))), ([] ++ probes)%list).
Proof.
  assert (forall payload,
             estimated_size payload = (inject_Z (6990506 * 3) / inject_Z 4)%Q ->
             exists t probes,
               (inject_Z MAX_TOTAL_IMAGE_SIZE < t)%Q
               /\ probes_only probes
               /\ pipe Demo.valves Demo.loads Demo.pop_system_message Demo.str Demo.no_length
                    (Demo.always (Demo.replied 200 Demo.hello_body))
                    (Demo.request false (Demo.album payload)) []
                  = (Ok (Value (JStr (total_size_error t))), ([] ++ probes)%list)) as H.
  { intros payload Hsize.
    refine (proj2 (Normalizer.cumulative_image_limit Demo.valves Demo.loads
                     Demo.pop_system_message Demo.str Demo.no_length
                     (Demo.always (Demo.replied 200 Demo.hello_body))
                     (Demo.request false (Demo.album payload))
                     (JList (Demo.album payload)) JNone (Demo.album payload) []
                     eq_refl eq_refl _) _ _).
    - cbv - [estimated_size Qplus Qlt inject_Z MAX_TOTAL_IMAGE_SIZE]. rewrite Hsize.
      reflexivity.
    - discriminate.
    - apply Forall_cons; [|apply Forall_nil].
      split; [eexists; reflexivity|]. eexists. split; [reflexivity|].
      intros items E. inversion E; subst items. clear E.
      assert (valid_item Demo.no_length (Demo.png payload)) as Hitem.
      { apply png_is_valid. rewrite Hsize. discriminate. }
      cbn [List.repeat]. repeat (apply Forall_cons; [exact Hitem|]). apply Forall_nil. }
  apply H. unfold Demo.within_limit. rewrite size_repeated. reflexivity.
Defined.

(** C2, as the claim has it, fails on a batch whose one inline image is beyond
    both limits: the sizes sum to more than 100 MiB, and [pipe] returns the
    text of the per-image error, which is not the total-size error. *)
Lemma oversized_image_reports_image_limit :
  (inject_Z MAX_TOTAL_IMAGE_SIZE
   < batch_inline_size [Demo.message "user" (JList [Demo.png Demo.huge])])%Q
  /\ pipe Demo.valves Demo.loads Demo.pop_system_message Demo.str Demo.no_length
       (Demo.always (Demo.replied 200 Demo.hello_body))
       (Demo.request false [Demo.message "user" (JList [Demo.png Demo.huge])]) []
     = (Ok (Value (JStr "Error: Failed to process image: Image size exceeds 5MB limit: 101.25MB")),
        [])
  /\ forall t,
       "Error: Failed to process image: Image size exceeds 5MB limit: 101.25MB"
       <> total_size_error t.
Proof.
  assert (forall payload,
             estimated_size payload = (inject_Z (141557760 * 3) / inject_Z 4)%Q ->
             (inject_Z MAX_TOTAL_IMAGE_SIZE
              < batch_inline_size [Demo.message "user" (JList [Demo.png payload])])%Q
             /\ pipe Demo.valves Demo.loads Demo.pop_system_message Demo.str Demo.no_length
                  (Demo.always (Demo.replied 200 Demo.hello_body))
                  (Demo.request false [Demo.message "user" (JList [Demo.png payload])]) []
                = (Ok (Value (JStr "Error: Failed to process image: Image size exceeds 5MB limit: 101.25MB")),
                   [])) as H.
  { intros payload Hsize. split.
    - cbv - [estimated_size Qplus Qlt inject_Z MAX_TOTAL_IMAGE_SIZE]. rewrite Hsize.
      reflexivity.
    - cbv - [estimated_size exceeds format_2f megabytes].
      rewrite Hsize. reflexivity. }
  destruct (H Demo.huge) as [Hsum Hrun].
  { unfold Demo.huge. rewrite size_repeated. reflexivity. }
  split; [exact Hsum|]. split; [exact Hrun|].
  intros t. unfold total_size_error. discriminate.
Qed.

Lemma payload_content_blocks_witness :
  exists out,
    getitem Demo.mixed_payload "messages" = Ok (JList out)
    /\ Forall2 expected_message (tl Demo.mixed_messages) out
    /\ Forall protocol_message out.
Proof.
  destruct (Normalizer.payload_content_blocks Demo.valves Demo.loads
              Demo.pop_system_message Demo.str Demo.no_length
              (Demo.always (Demo.streamed Demo.feed_a_b_stop))
              (Demo.request true Demo.mixed_messages) []
              (Ok (Generator api_url (build_headers Demo.valves) Demo.mixed_payload))
              [HeadCall Demo.cat_url] Demo.mixed_payload)
    as (raw & system_message & messages & out & Hraw & Hpop & Hout & Hexpected & Hblocks).
  - reflexivity.
  - left. eexists _, _. reflexivity.
  - inversion Hraw; subst raw. inversion Hpop; subst system_message messages.
    exists out. split; [exact Hout|]. split; [exact Hexpected|].
    apply Hblocks. apply Forall_cons; [exact I|]. apply Forall_cons; [|apply Forall_nil].
    apply Forall_cons; [intros _; eexists; reflexivity|].
    apply Forall_cons; [discriminate|]. apply Forall_cons; [discriminate|].
    apply Forall_cons; [discriminate | apply Forall_nil].
Defined.

(** C10, as the claim has it, fails on a message whose content is null: the
    request reaches payload construction and is sent, and the one block of its
    message has type "text" and the text null, which is neither a text block
    nor an image block. *)
Lemma null_content_is_no_content_block :
  pipe Demo.valves Demo.loads Demo.pop_system_message Demo.str Demo.no_length
    (Demo.always (Demo.replied 200 Demo.hello_body))
    (Demo.request false Cases.null_content) []
  = (Ok (Value (JStr "hello")),
     [PostCall false api_url (build_headers Demo.valves) Cases.null_content_payload])
  /\ payload_built (Ok (Value (JStr "hello"))) []
       [PostCall false api_url (build_headers Demo.valves) Cases.null_content_payload]
       Cases.null_content_payload
  /\ getitem Cases.null_content_payload "messages"
     = Ok (JList [JDict [("role", JStr "user"); ("content", JList [Cases.null_text])]])
  /\ ~ protocol_block Cases.null_text.
Proof.
  split; [reflexivity|].
  split; [right; exists [], false, api_url, (build_headers Demo.valves); reflexivity|].
  split; [reflexivity|].
  intros [[(text & d & E & _ & Hd) _] | [(source & (d & E & _ & Hd) & _) _]];
    inversion E; subst d.
  - inversion Hd as [|? ? _ Hrest]. inversion Hrest as [|? ? Htext _]. discriminate.
  - inversion Hd as [|? ? Htype _]. discriminate.
Qed.

End Examples.

(* ================================================================== *)
(** * The runs of [pipe] *)

Module Runs.
Import Py Net Pipe Spec Behaviour.

Lemma build_payload_ok (valves : Valves) (py_str : json -> string)
  (body : list (string * json)) (model_id : json) (out : list json) (system_message : json) :
  exists fields,
    build_payload valves py_str body model_id out system_message = Ok (JDict fields).
Proof.
  unfold build_payload, and_then, getitem, dict_get.
  destruct (lookup "stop" body) as [stop|]; [destruct (truthy stop)|];
    cbn [truthy]; destruct (truthy system_message); eexists; reflexivity.
Qed.

Section WithEnvironment.

Variable valves : Valves.
Variable json_loads : string -> result json.
Variable pop_system_message : json -> result (json * list json).
Variable py_str : json -> string.
Variable http_head : string -> head_reply.
Variable http_post : bool -> string -> json -> json -> post_reply.

Local Abbreviation pipe :=
  (pipe valves json_loads pop_system_message py_str http_head http_post).
Local Abbreviation pipe_run :=
  (pipe_run valves json_loads pop_system_message py_str http_head http_post).

(** Every result of [pipe] comes from one of the runs. *)
Lemma pipe_run_complete (body : list (string * json)) (log : list call)
  (r : result pipe_return) (log' : list call) :
  pipe body log = (r, log') -> pipe_run body log r log'.
Proof.
  unfold Pipe.pipe. intros H.
  destruct (String.eqb_spec (ANTHROPIC_API_KEY valves) EmptyString) as [Ekey|Ekey].
  { rewrite Ekey in H. cbn in H. inversion H; subst. apply run_no_key, Ekey. }
  rewrite (ModelCatalog.truthy_str _ Ekey) in H. cbn [negb] in H.
  unfold bind at 1, lift at 1 in H. cbn [getitem] in H.
  destruct (lookup "messages" body) as [raw|] eqn:Eraw.
  2:{ inversion H; subst. apply run_no_messages; assumption. }
  unfold bind at 1, lift at 1 in H.
  destruct (pop_system_message raw) as [[system_message messages]|e] eqn:Epop.
  2:{ inversion H; subst. eapply run_pop_raises; eassumption. }
  apply Normalizer.bind_inv in H as [(e & H & ->) | (normalized & log1 & H & Hk)].
  { eapply run_normalize_raises; eassumption. }
  destruct normalized as [out|v].
  2:{ inversion Hk; subst. eapply run_image_error; eassumption. }
  unfold bind at 1, try_except at 1, bind at 1, lift at 1 in Hk.
  assert (resolved_model body
          = match lookup "model" body with
            | Some model_string => _extract_model_id model_string
            | None => Raise (KeyError "model")
            end) as Eresolved.
  { unfold resolved_model, and_then. cbn [getitem].
    destruct (lookup "model" body); reflexivity. }
  destruct (lookup "model" body) as [model_string|].
  2:{ inversion Hk; subst.
      eapply run_model_error with (e := KeyError "model"); eassumption. }
  unfold bind at 1, lift at 1 in Hk.
  destruct (_extract_model_id model_string) as [model_id|e].
  2:{ inversion Hk; subst. eapply run_model_error with (e := e); eassumption. }
  cbn [ret] in Hk. unfold bind at 1, lift at 1 in Hk.
  destruct (build_payload_ok valves py_str body model_id out system_message)
    as [fields Epayload].
  rewrite Epayload in Hk. unfold try_except in Hk.
  destruct (truthy (dict_get body "stream" (JBool false))) eqn:Estream.
  - inversion Hk; subst. eapply run_stream; eassumption.
  - unfold bind in Hk.
    destruct (Normalizer.non_stream_response_returns json_loads http_post api_url
                (build_headers valves) (JDict fields) log1) as [v Ev].
    rewrite Ev in Hk. inversion Hk; subst. eapply run_post; eassumption.
Qed.

End WithEnvironment.
(** X1. Missing credential: with an empty API key [pipe] returns the text
    "Error: ANTHROPIC_API_KEY not configured" for every body, without reading
    the body and without any network call. *)
Theorem missing_credential :
  forall valves json_loads pop_system_message py_str http_head http_post body log,
    ANTHROPIC_API_KEY valves = EmptyString ->
    Pipe.pipe valves json_loads pop_system_message py_str http_head http_post body log
    = (Ok (Value (JStr "Error: ANTHROPIC_API_KEY not configured")), log).
Proof.
  intros valves json_loads pop py_str http_head http_post body log Hkey.
  unfold Pipe.pipe. rewrite Hkey. reflexivity.
Qed.

Lemma missing_credential_witness :
  Pipe.pipe Cases.no_key Demo.loads Demo.pop_system_message Demo.str Demo.no_length
    (Demo.always (Demo.replied 200 Demo.hello_body)) [] []
  = (Ok (Value (JStr "Error: ANTHROPIC_API_KEY not configured")), []).
Proof.
  apply (missing_credential Cases.no_key Demo.loads Demo.pop_system_message Demo.str
           Demo.no_length (Demo.always (Demo.replied 200 Demo.hello_body)) [] []).
  reflexivity.
Defined.

(** X2. Where [pipe] raises: an exception leaves [pipe] only from
    [body["messages"]], from [pop_system_message] or from the normalisation
    loops; by then only probes have been made.  Model resolution, payload
    construction and the request itself never raise out of [pipe]. *)
Theorem raises_only_before_request :
  forall valves json_loads pop_system_message py_str http_head http_post body log e log',
    Pipe.pipe valves json_loads pop_system_message py_str http_head http_post body log
    = (Raise e, log') ->
    (exists probes, log' = (log ++ probes)%list /\ probes_only probes)
    /\ ((lookup "messages" body = None /\ e = KeyError "messages")
        \/ (exists raw, lookup "messages" body = Some raw /\ pop_system_message raw = Raise e)
        \/ (exists raw system_message messages,
               lookup "messages" body = Some raw
               /\ pop_system_message raw = Ok (system_message, messages)
               /\ process_messages http_head messages [] 0%Q log = (Raise e, log'))).
Proof.
  intros valves json_loads pop py_str http_head http_post body log e log' H.
  apply pipe_run_complete in H.
  inversion H as [| Hkey Hraw | raw e0 Hkey Hraw Hpop
                  | raw sm messages e0 log1 Hkey Hraw Hpop Hrun | | | |]; subst.
  - split; [exists []; rewrite app_nil_r; split; [reflexivity | apply Forall_nil]|].
    left. split; [assumption | reflexivity].
  - split; [exists []; rewrite app_nil_r; split; [reflexivity | apply Forall_nil]|].
    right. left. eauto.
  - split.
    + destruct (Normalizer.process_messages_outcome _ _ _ _ _ _ _ Hrun)
        as (probes & -> & Hp & _). eauto.
    + right. right. eauto 6.
Qed.

Lemma raises_only_before_request_witness :
  (exists probes, [] = ([] ++ probes)%list /\ probes_only probes)
  /\ ((lookup "messages" (Demo.request true Demo.broken_text) = None
       /\ KeyError "text" = KeyError "messages")
      \/ (exists raw,
             lookup "messages" (Demo.request true Demo.broken_text) = Some raw
             /\ Demo.pop_system_message raw = Raise (KeyError "text"))
      \/ (exists raw system_message messages,
             lookup "messages" (Demo.request true Demo.broken_text) = Some raw
             /\ Demo.pop_system_message raw = Ok (system_message, messages)
             /\ process_messages Demo.no_length messages [] 0%Q []
                = (Raise (KeyError "text"), []))).
Proof.
  apply (raises_only_before_request Demo.valves Demo.loads Demo.pop_system_message
           Demo.str Demo.no_length (Demo.always (Demo.replied 200 Demo.hello_body))
           (Demo.request true Demo.broken_text) [] (KeyError "text") []).
  reflexivity.
Defined.

(** X3. Failures of model resolution: once the batch is normalised, every
    exception of [_extract_model_id(body["model"])], the [KeyError] of a body
    without "model" included, comes back as the text
    "Error: Invalid model format: <str(e)>"; nothing is sent. *)
Theorem model_failure_is_a_text :
  forall valves json_loads pop_system_message py_str http_head http_post
         body raw system_message messages out log log1,
    ANTHROPIC_API_KEY valves <> EmptyString ->
    lookup "messages" body = Some raw ->
    pop_system_message raw = Ok (system_message, messages) ->
    process_messages http_head messages [] 0%Q log = (Ok (Next out), log1) ->
    (lookup "model" body = None ->
     Pipe.pipe valves json_loads pop_system_message py_str http_head http_post body log
     = (Ok (Value (JStr "Error: Invalid model format: 'model'")), log1))
    /\ (forall model_string e,
           lookup "model" body = Some model_string ->
           _extract_model_id model_string = Raise e ->
           Pipe.pipe valves json_loads pop_system_message py_str http_head http_post body log
           = (Ok (Value (JStr ("Error: Invalid model format: " ++ str_exn e))), log1)).
Proof.
  intros valves json_loads pop py_str http_head http_post body raw sm messages out
    log log1 Hkey Hraw Hpop Hrun.
  split.
  - intros Hmodel. unfold Pipe.pipe. rewrite (ModelCatalog.truthy_str _ Hkey). cbn [negb].
    unfold bind, lift, try_except, getitem. rewrite Hraw, Hpop, Hrun, Hmodel. reflexivity.
  - intros model_string e Hmodel He. unfold Pipe.pipe.
    rewrite (ModelCatalog.truthy_str _ Hkey). cbn [negb].
    unfold bind, lift, try_except, getitem. rewrite Hraw, Hpop, Hrun, Hmodel, He.
    reflexivity.
Qed.

Lemma model_failure_is_a_text_witness :
  Pipe.pipe Demo.valves Demo.loads Demo.pop_system_message Demo.str Demo.no_length
    (Demo.always (Demo.replied 200 Demo.hello_body)) Cases.without_model []
  = (Ok (Value (JStr "Error: Invalid model format: 'model'")), [])
  /\ Pipe.pipe Demo.valves Demo.loads Demo.pop_system_message Demo.str Demo.no_length
       (Demo.always (Demo.replied 200 Demo.hello_body)) Cases.numeric_model []
     = (Ok (Value (JStr "Error: Invalid model format: argument of type 'int' is not iterable")),
        []).
Proof.
  split.
  - refine (proj1 (model_failure_is_a_text Demo.valves Demo.loads Demo.pop_system_message
                     Demo.str Demo.no_length (Demo.always (Demo.replied 200 Demo.hello_body))
                     Cases.without_model (JList [Demo.message "user" (JStr "hi")]) JNone
                     [Demo.message "user" (JStr "hi")]
                     [JDict [("role", JStr "user");
                             ("content", JList [text_block (JStr "hi")])]]
                     [] [] _ eq_refl eq_refl eq_refl) eq_refl).
    discriminate.
  - refine (proj2 (model_failure_is_a_text Demo.valves Demo.loads Demo.pop_system_message
                     Demo.str Demo.no_length (Demo.always (Demo.replied 200 Demo.hello_body))
                     Cases.numeric_model (JList [Demo.message "user" (JStr "hi")]) JNone
                     [Demo.message "user" (JStr "hi")]
                     [JDict [("role", JStr "user");
                             ("content", JList [text_block (JStr "hi")])]]
                     [] [] _ eq_refl eq_refl eq_refl)
              (JInt 5) (TypeError "argument of type 'int' is not iterable")
              eq_refl eq_refl).
    discriminate.
Defined.

Lemma run_without_post (log probes probes' : list call) (c : call) :
  probes_only probes -> is_post c = true ->
  (log ++ probes)%list = (log ++ probes' ++ [c])%list -> False.
Proof.
  intros Hp Hc E. apply app_inv_head in E. subst probes.
  apply Forall_app in Hp as [_ Hp]. inversion Hp; congruence.
Qed.

(** X4. Dispatch on the stream flag: whenever [pipe] builds a payload, either
    [body.get("stream")] is true and [pipe] returns the generator for that
    payload having made no request (the request waits for the consumer), or
    it is false and [pipe] returns a value after exactly one request, made
    last, with the stream flag off, to the messages endpoint with the
    configured headers.  The calls before it are probes. *)
Theorem dispatch_follows_stream_flag :
  forall valves json_loads pop_system_message py_str http_head http_post
         body log r log' payload,
    Pipe.pipe valves json_loads pop_system_message py_str http_head http_post body log
    = (r, log') ->
    payload_built r log log' payload ->
    exists probes,
      probes_only probes
      /\ ((truthy (dict_get body "stream" (JBool false)) = true
           /\ r = Ok (Generator api_url (build_headers valves) payload)
           /\ log' = (log ++ probes)%list)
          \/ (truthy (dict_get body "stream" (JBool false)) = false
              /\ (exists v, r = Ok (Value v))
              /\ log' = (log ++ probes
                           ++ [PostCall false api_url (build_headers valves) payload])%list)).
Proof.
  intros valves json_loads pop py_str http_head http_post body log r log' payload H Hbuilt.
  apply pipe_run_complete in H.
  assert (forall probes, probes_only probes -> log' = (log ++ probes)%list ->
          (forall url headers p, r <> Ok (Generator url headers p)) -> False) as Hearly.
  { intros probes Hp -> Hr.
    destruct Hbuilt as [(url & headers & ->) | (probes' & st & url & headers & E)].
    - eapply Hr; reflexivity.
    - exact (run_without_post _ _ _ (PostCall st url headers payload) Hp eq_refl E). }
  inversion H as [Hkey | Hkey Hraw | raw e Hkey Hraw Hpop
                  | raw sm messages e log1 Hkey Hraw Hpop Hrun
                  | raw sm messages v log1 Hkey Hraw Hpop Hrun
                  | raw sm messages out log1 e Hkey Hraw Hpop Hrun Hmodel
                  | raw sm messages out log1 model_id payload0 Hkey Hraw Hpop Hrun Hmodel
                      Hpayload Hstream
                  | raw sm messages out log1 model_id payload0 v Hkey Hraw Hpop Hrun Hmodel
                      Hpayload Hstream Hpost]; subst.
  - exfalso. apply (Hearly []); [apply Forall_nil | rewrite app_nil_r; reflexivity
                                | discriminate].
  - exfalso. apply (Hearly []); [apply Forall_nil | rewrite app_nil_r; reflexivity
                                | discriminate].
  - exfalso. apply (Hearly []); [apply Forall_nil | rewrite app_nil_r; reflexivity
                                | discriminate].
  - exfalso. destruct (Normalizer.process_messages_outcome _ _ _ _ _ _ _ Hrun)
      as (probes & -> & Hp & _).
    apply (Hearly probes); [assumption | reflexivity | discriminate].
  - exfalso. destruct (Normalizer.process_messages_outcome _ _ _ _ _ _ _ Hrun)
      as (probes & -> & Hp & _).
    apply (Hearly probes); [assumption | reflexivity | discriminate].
  - exfalso. destruct (Normalizer.process_messages_outcome _ _ _ _ _ _ _ Hrun)
      as (probes & -> & Hp & _).
    apply (Hearly probes); [assumption | reflexivity | discriminate].
  - destruct (Normalizer.process_messages_outcome _ _ _ _ _ _ _ Hrun)
      as (probes & -> & Hp & _).
    exists probes. split; [assumption|]. left. split; [assumption|].
    destruct Hbuilt as [(url & headers & E) | (probes' & st & url & headers & E)].
    + inversion E; subst. split; reflexivity.
    + exfalso. exact (run_without_post _ _ _ (PostCall st url headers payload) Hp eq_refl E).
  - destruct (Normalizer.process_messages_outcome _ _ _ _ _ _ _ Hrun)
      as (probes & -> & Hp & _).
    exists probes. split; [assumption|]. right. split; [assumption|].
    split; [eexists; reflexivity|].
    destruct Hbuilt as [(url & headers & E) | (probes' & st & url & headers & E)];
      [discriminate|].
    rewrite <- app_assoc in E. apply app_inv_head, app_inj_tail in E as [_ E].
    inversion E; subst. rewrite app_assoc. reflexivity.
Qed.

Lemma dispatch_follows_stream_flag_witness :
  exists probes,
    probes_only probes
    /\ ((truthy (dict_get (Demo.request true Demo.mixed_messages) "stream" (JBool false)) = true
         /\ Ok (Generator api_url (build_headers Demo.valves) Demo.mixed_payload)
            = Ok (Generator api_url (build_headers Demo.valves) Demo.mixed_payload)
         /\ [HeadCall Demo.cat_url] = ([] ++ probes)%list)
        \/ (truthy (dict_get (Demo.request true Demo.mixed_messages) "stream" (JBool false))
            = false
            /\ (exists v,
                   Ok (Generator api_url (build_headers Demo.valves) Demo.mixed_payload)
                   = Ok (Value v))
            /\ [HeadCall Demo.cat_url]
               = ([] ++ probes
                    ++ [PostCall false api_url (build_headers Demo.valves)
                          Demo.mixed_payload])%list)).
Proof.
  apply (dispatch_follows_stream_flag Demo.valves Demo.loads Demo.pop_system_message
           Demo.str Demo.no_length (Demo.always (Demo.streamed Demo.feed_a_b_stop))
           (Demo.request true Demo.mixed_messages) []
           (Ok (Generator api_url (build_headers Demo.valves) Demo.mixed_payload))
           [HeadCall Demo.cat_url] Demo.mixed_payload).
  - reflexivity.
  - left. eexists _, _. reflexivity.
Defined.

End Runs.

(* ================================================================== *)
(** * Payload Builder: [build_payload] *)

Module PayloadBuilder.
Import Py Net Pipe Spec Behaviour.

(** The payload as one list: the five fixed fields, then the optional ones. *)
Lemma build_payload_fields (valves : Valves) (py_str : json -> string)
  (body : list (string * json)) (model_id : json) (out : list json) (system_message : json) :
  build_payload valves py_str body model_id out system_message
  = Ok (JDict ([("model", model_id);
                ("messages", JList out);
                ("max_tokens", dict_get body "max_tokens" (JInt (MAX_TOKENS valves)));
                ("temperature", dict_get body "temperature" (JFloat (TEMPERATURE valves)));
                ("stream", dict_get body "stream" (JBool false))]
               ++ (if truthy (dict_get body "stop" JNone)
                   then [("stop_sequences", dict_get body "stop" JNone)] else [])
               ++ (if truthy system_message
                   then [("system", JStr (py_str system_message))] else []))%list).
Proof.
  unfold build_payload, and_then, getitem.
  generalize (dict_get body "max_tokens" (JInt (MAX_TOKENS valves))),
    (dict_get body "temperature" (JFloat (TEMPERATURE valves))),
    (dict_get body "stream" (JBool false)).
  intros max_tokens temperature stream. unfold dict_get.
  destruct (lookup "stop" body) as [stop|]; [destruct (truthy stop)|]; cbn [truthy];
    destruct (truthy system_message); reflexivity.
Qed.

Lemma defaulted_dict_get (body fields : list (string * json)) (k : string) (default : json) :
  lookup k fields = Some (dict_get body k default) -> defaulted body fields k default.
Proof.
  unfold defaulted, dict_get. intros ->. split.
  - intros v ->. reflexivity.
  - intros ->. reflexivity.
Qed.

(** X5. Required payload fields: the payload is always built (no input makes
    the construction fail); it holds the resolved model and the normalised
    messages, and for "max_tokens", "temperature" and "stream" the caller's
    value whenever the body has the key, whatever the value, and the
    configured default (the valves' [MAX_TOKENS] and [TEMPERATURE], [False])
    only when the key is absent. *)
Theorem payload_required_fields :
  forall valves py_str body model_id out system_message,
  exists fields,
    build_payload valves py_str body model_id out system_message = Ok (JDict fields)
    /\ lookup "model" fields = Some model_id
    /\ lookup "messages" fields = Some (JList out)
    /\ defaulted body fields "max_tokens" (JInt (MAX_TOKENS valves))
    /\ defaulted body fields "temperature" (JFloat (TEMPERATURE valves))
    /\ defaulted body fields "stream" (JBool false).
Proof.
  intros valves py_str body model_id out sm.
  eexists. split; [apply build_payload_fields|].
  split; [reflexivity|]. split; [reflexivity|].
  split; [|split]; apply defaulted_dict_get; reflexivity.
Qed.

(** X6. Optional payload fields: "stop_sequences" is in the payload exactly
    when [body.get("stop")] is true, and is then [body["stop"]]; "system" is
    in the payload exactly when the system message is true, and is then its
    [str].  An absent, null or empty stop list and an absent system message
    leave no key behind. *)
Theorem payload_optional_fields :
  forall valves py_str body model_id out system_message,
  exists fields,
    build_payload valves py_str body model_id out system_message = Ok (JDict fields)
    /\ lookup "stop_sequences" fields
       = (if truthy (dict_get body "stop" JNone) then lookup "stop" body else None)
    /\ lookup "system" fields
       = (if truthy system_message then Some (JStr (py_str system_message)) else None).
Proof.
  intros valves py_str body model_id out sm.
  eexists. split; [apply build_payload_fields|].
  generalize (dict_get body "max_tokens" (JInt (MAX_TOKENS valves))),
    (dict_get body "temperature" (JFloat (TEMPERATURE valves))),
    (dict_get body "stream" (JBool false)).
  intros max_tokens temperature stream. unfold dict_get.
  destruct (lookup "stop" body) as [stop|]; [destruct (truthy stop)|]; cbn [truthy];
    destruct (truthy sm); split; reflexivity.
Qed.

End PayloadBuilder.

(* ================================================================== *)
(** * The two response paths and the transport *)

Module Transport.
Import Py Net Pipe Spec Behaviour.

(** X7. One request, no exception: [stream_response], run to its end, and
    [non_stream_response] each make exactly one request, with the stream flag
    on and off, and end without an exception whatever the transport does and
    whatever the response holds. *)
Theorem one_request_no_exception :
  forall json_loads decode_utf8 http_post url headers payload log,
    (exists yielded,
        stream_response json_loads decode_utf8 http_post url headers payload log
        = ((yielded, None), (log ++ [PostCall true url headers payload])%list))
    /\ (exists v,
           non_stream_response json_loads http_post url headers payload log
           = (Ok v, (log ++ [PostCall false url headers payload])%list)).
Proof.
  intros json_loads decode_utf8 http_post url headers payload log. split.
  - unfold stream_response, stream_try.
    destruct (http_post true url headers payload) as [e|response].
    + eexists; reflexivity.
    + destruct (negb (status_code response =? 200)); [eexists; reflexivity|].
      destruct (stream_lines json_loads decode_utf8 (lines response) (lines_end response))
        as [yielded [e|]]; eexists; reflexivity.
  - apply Normalizer.non_stream_response_returns.
Qed.

(** X8. Failure of the transport: when the request itself raises [e], the
    generator yields exactly one text and ends, and the non-streaming path
    returns one text: "Error: Request timeout" for a timeout on both paths;
    for another [requests] exception "Error: Request failed: <e>" when
    streaming but "Error: <e>" when not; "Error: <e>" for any other
    exception. *)
Theorem transport_failure_texts :
  forall json_loads decode_utf8 http_post url headers payload log e,
    (forall stream, http_post stream url headers payload = PostRaises e) ->
    stream_response json_loads decode_utf8 http_post url headers payload log
    = (([JStr (if is_timeout e then "Error: Request timeout"
               else if is_request_exception e then "Error: Request failed: " ++ str_exn e
                    else "Error: " ++ str_exn e)], None),
       (log ++ [PostCall true url headers payload])%list)
    /\ non_stream_response json_loads http_post url headers payload log
       = (Ok (JStr (if is_timeout e then "Error: Request timeout"
                    else "Error: " ++ str_exn e)),
          (log ++ [PostCall false url headers payload])%list).
Proof.
  intros json_loads decode_utf8 http_post url headers payload log e Hpost. split.
  - unfold stream_response, stream_try, stream_error. rewrite Hpost.
    destruct (is_timeout e); [reflexivity|]. destruct (is_request_exception e); reflexivity.
  - unfold non_stream_response, try_except, non_stream_try, bind, tell, raise, ret.
    rewrite Hpost. destruct (is_timeout e); reflexivity.
Qed.

Lemma transport_failure_texts_witness :
  (stream_response Demo.loads Demo.decode
     (Cases.failing (RequestsTimeout "read timed out")) api_url JNone JNone []
   = (([JStr "Error: Request timeout"], None), [PostCall true api_url JNone JNone])
   /\ non_stream_response Demo.loads
        (Cases.failing (RequestsTimeout "read timed out")) api_url JNone JNone []
      = (Ok (JStr "Error: Request timeout"), [PostCall false api_url JNone JNone]))
  /\ (stream_response Demo.loads Demo.decode
        (Cases.failing (RequestException "Connection refused")) api_url JNone JNone []
      = (([JStr "Error: Request failed: Connection refused"], None),
         [PostCall true api_url JNone JNone])
      /\ non_stream_response Demo.loads
           (Cases.failing (RequestException "Connection refused")) api_url JNone JNone []
         = (Ok (JStr "Error: Connection refused"), [PostCall false api_url JNone JNone])).
Proof.
  split.
  - apply (transport_failure_texts Demo.loads Demo.decode
             (Cases.failing (RequestsTimeout "read timed out")) api_url JNone JNone []
             (RequestsTimeout "read timed out")).
    reflexivity.
  - apply (transport_failure_texts Demo.loads Demo.decode
             (Cases.failing (RequestException "Connection refused")) api_url JNone JNone []
             (RequestException "Connection refused")).
    reflexivity.
Defined.

End Transport.

(* ================================================================== *)
(** * The event feed as a whole *)

Module StreamSemantics.
Import Py Net Pipe Spec Behaviour.

Section Lines.

Variable json_loads : string -> result json.
Variable decode_utf8 : string -> result string.

Lemma skip_unhandled (line : string) (data : json) (rest : list string)
  (ending : option exn) :
  data_line_of json_loads decode_utf8 line data ->
  unhandled_event data ->
  stream_lines json_loads decode_utf8 (line :: rest) ending
  = stream_lines json_loads decode_utf8 rest ending.
Proof.
  intros (Hne & s & Hs & Hp & Hload)
    (fields & -> & [Htype | [(ty & Htype & Hd & Hstop) | (Htype & Hdelta)]]);
    cbn [stream_lines]; rewrite (StreamParser.nonempty_eqb line Hne), Hs, Hp;
    unfold data_line, on_data; rewrite Hload; cbn [and_then getitem contains];
    rewrite Htype.
  - reflexivity.
  - cbn [and_then]. rewrite Hd. cbn [and_then]. rewrite Hstop. reflexivity.
  - change (eq_str (JStr "content_block_delta") "content_block_delta") with true.
    cbn [and_then]. destruct Hdelta as [Hdelta | (delta & Hdelta & Htext)]; rewrite Hdelta.
    + reflexivity.
    + cbn [and_then getitem contains]. rewrite Htext. reflexivity.
Qed.

Lemma pass_over (line : string) (rest : list string) (ending : option exn) :
  passed_over json_loads decode_utf8 line ->
  stream_lines json_loads decode_utf8 (line :: rest) ending
  = stream_lines json_loads decode_utf8 rest ending.
Proof.
  intros [H | [H | (data & Hline & Hdata)]].
  - apply StreamParser.pass_ignorable, H.
  - apply StreamParser.skip_undecodable, H.
  - exact (skip_unhandled line data rest ending Hline Hdata).
Qed.

(** The loop over the lines follows the events of the feed. *)
Lemma stream_lines_of_feed (lines : list string) (texts : list json) (stopped : bool) :
  feed json_loads decode_utf8 lines texts stopped ->
  forall ending,
    stream_lines json_loads decode_utf8 lines ending
    = (texts, if stopped then None else ending).
Proof.
  induction 1 as [|line rest texts stopped Hpass _ IH
                  |line data t rest texts stopped Hline Hdelta _ IH
                  |line data rest Hline Hstop]; intros ending.
  - reflexivity.
  - rewrite pass_over by assumption. apply IH.
  - rewrite (StreamParser.emit_delta _ _ line data t rest ending Hline Hdelta), IH.
    reflexivity.
  - exact (StreamParser.stop_at _ _ line data rest ending Hline Hstop).
Qed.

End Lines.

(** X9. The streaming parser as a whole: on a 200 response, reading the feed
    line by line (blank lines, lines without the "data: " prefix, data lines
    of invalid JSON, objects without a type, events of other types and
    deltas without text are passed over), the generator yields the texts of
    the content deltas met before the first stop event, in order; after a
    stop event or a clean end of the feed it yields nothing more; if the feed
    breaks off with an exception before any stop event, the texts already
    yielded stay and one error text follows. *)
Theorem stream_response_of_feed :
  forall json_loads decode_utf8 http_post url headers payload log response texts stopped,
    http_post true url headers payload = PostResponse response ->
    status_code response = 200 ->
    feed json_loads decode_utf8 (lines response) texts stopped ->
    stream_response json_loads decode_utf8 http_post url headers payload log
    = (((texts ++ feed_tail stopped (lines_end response))%list, None),
       (log ++ [PostCall true url headers payload])%list).
Proof.
  intros json_loads decode_utf8 http_post url headers payload log response texts stopped
    Hpost Hstatus Hfeed.
  unfold stream_response, stream_try. rewrite Hpost, Hstatus. cbn [Z.eqb Pos.eqb negb].
  rewrite (stream_lines_of_feed _ _ _ _ _ Hfeed). unfold feed_tail.
  destruct stopped; [rewrite app_nil_r; reflexivity|].
  destruct (lines_end response); [reflexivity | rewrite app_nil_r; reflexivity].
Qed.

Lemma stream_response_of_feed_witness :
  stream_response Demo.loads Demo.decode (Demo.always (Cases.interrupted Cases.feed_mixed))
    api_url JNone JNone []
  = (([JStr "a"; JStr "b"; JStr "Error: Request failed: Connection broken"], None),
     [PostCall true api_url JNone JNone]).
Proof.
  apply (stream_response_of_feed Demo.loads Demo.decode
           (Demo.always (Cases.interrupted Cases.feed_mixed)) api_url JNone JNone []
           (Cases.interrupted Cases.feed_mixed) [JStr "a"; JStr "b"] false).
  - reflexivity.
  - reflexivity.
  - apply feed_pass; [left; right; eexists; split; reflexivity|].
    apply feed_pass.
    { right. right. eexists. split.
      - split; [discriminate|]. eexists. repeat split; reflexivity.
      - eexists. split; [reflexivity|]. right. left. eexists. repeat split; reflexivity. }
    apply feed_pass; [left; left; reflexivity|].
    eapply feed_delta.
    { split; [discriminate|]. eexists. repeat split; reflexivity. }
    { do 2 eexists. repeat split; reflexivity. }
    apply feed_pass.
    { right. right. eexists. split.
      - split; [discriminate|]. eexists. repeat split; reflexivity.
      - eexists. split; [reflexivity|]. right. left. eexists. repeat split; reflexivity. }
    apply feed_pass.
    { right. left. split; [discriminate|]. eexists _, _. repeat split; reflexivity. }
    apply feed_pass.
    { right. right. eexists. split.
      - split; [discriminate|]. eexists. repeat split; reflexivity.
      - eexists. split; [reflexivity|]. right. right. split; [reflexivity|].
        right. eexists. split; reflexivity. }
    apply feed_pass.
    { right. right. eexists. split.
      - split; [discriminate|]. eexists. repeat split; reflexivity.
      - eexists. split; [reflexivity|]. left. reflexivity. }
    eapply feed_delta.
    { split; [discriminate|]. eexists. repeat split; reflexivity. }
    { do 2 eexists. repeat split; reflexivity. }
    apply feed_end.
Defined.

End StreamSemantics.

(* ================================================================== *)
(** * Bodies without a text, bodies that are not as expected *)

Module NonStreamEdges.
Import Py Net Pipe Spec Behaviour.

(** X10. No content, no text: on a 200 response whose body is a JSON object
    without "content", or whose "content" is false as a condition (null, an
    empty list, an empty string, zero), [non_stream_response] returns the
    empty string. *)
Theorem no_content_is_the_empty_string :
  forall json_loads http_post url headers payload log response fields,
    http_post false url headers payload = PostResponse response ->
    status_code response = 200 ->
    json_loads (text response) = Ok (JDict fields) ->
    lookup "content" fields = None
    \/ (exists content, lookup "content" fields = Some content /\ truthy content = false) ->
    non_stream_response json_loads http_post url headers payload log
    = (Ok (JStr EmptyString), (log ++ [PostCall false url headers payload])%list).
Proof.
  intros json_loads http_post url headers payload log response fields
    Hpost Hstatus Hbody Hcontent.
  unfold non_stream_response, try_except, non_stream_try, bind, tell, lift, ret, response_json.
  rewrite Hpost, Hstatus, Hbody. cbn [Z.eqb Pos.eqb negb contains getitem].
  destruct Hcontent as [-> | (content & -> & ->)]; reflexivity.
Qed.

Lemma no_content_is_the_empty_string_witness :
  non_stream_response Demo.loads (Demo.always (Demo.replied 200 Cases.no_content_body))
    api_url JNone JNone []
  = (Ok (JStr EmptyString), [PostCall false api_url JNone JNone])
  /\ non_stream_response Demo.loads (Demo.always (Demo.replied 200 Cases.null_content_body))
       api_url JNone JNone []
     = (Ok (JStr EmptyString), [PostCall false api_url JNone JNone]).
Proof.
  split.
  - apply (no_content_is_the_empty_string Demo.loads
             (Demo.always (Demo.replied 200 Cases.no_content_body)) api_url JNone JNone []
             (Demo.replied 200 Cases.no_content_body)
             [("id", JStr "msg_3"); ("type", JStr "message")]);
      try reflexivity.
    left. reflexivity.
  - apply (no_content_is_the_empty_string Demo.loads
             (Demo.always (Demo.replied 200 Cases.null_content_body)) api_url JNone JNone []
             (Demo.replied 200 Cases.null_content_body)
             [("id", JStr "msg_4"); ("content", JNone)]);
      try reflexivity.
    right. exists JNone. split; reflexivity.
Defined.

(** X11. Bodies that are not as expected come back as texts: on a 200
    response, a body that is not JSON gives "Error: <message of the decoder>",
    and a content list whose first element is not an object gives
    "Error: '<type>' object has no attribute 'get'"; in both cases
    [non_stream_response] returns the text and does not raise. *)
Theorem unexpected_body_is_a_text :
  forall json_loads http_post url headers payload log response,
    http_post false url headers payload = PostResponse response ->
    status_code response = 200 ->
    (forall msg,
        json_loads (text response) = Raise (JSONDecodeError msg) ->
        non_stream_response json_loads http_post url headers payload log
        = (Ok (JStr ("Error: " ++ msg)),
           (log ++ [PostCall false url headers payload])%list))
    /\ (forall fields block rest,
           json_loads (text response) = Ok (JDict fields) ->
           lookup "content" fields = Some (JList (block :: rest)) ->
           (forall d, block <> JDict d) ->
           non_stream_response json_loads http_post url headers payload log
           = (Ok (JStr ("Error: '" ++ type_name block
                        ++ "' object has no attribute 'get'")),
              (log ++ [PostCall false url headers payload])%list)).
Proof.
  intros json_loads http_post url headers payload log response Hpost Hstatus. split.
  - intros msg Hbody.
    unfold non_stream_response, try_except, non_stream_try, bind, tell, lift, ret,
      response_json.
    rewrite Hpost, Hstatus, Hbody. reflexivity.
  - intros fields block rest Hbody Hcontent Hblock.
    rewrite (NonStreamParser.non_stream_scan json_loads http_post url headers payload
               response fields (block :: rest) Hpost Hstatus Hbody Hcontent log).
    destruct block; try reflexivity. exfalso. eapply Hblock. reflexivity.
Qed.

Lemma unexpected_body_is_a_text_witness :
  non_stream_response Demo.loads (Demo.always (Demo.replied 200 Cases.html_body))
    api_url JNone JNone []
  = (Ok (JStr "Error: Expecting value"), [PostCall false api_url JNone JNone])
  /\ non_stream_response Demo.loads (Demo.always (Demo.replied 200 Cases.string_blocks_body))
       api_url JNone JNone []
     = (Ok (JStr "Error: 'str' object has no attribute 'get'"),
        [PostCall false api_url JNone JNone]).
Proof.
  split.
  - apply (proj1 (unexpected_body_is_a_text Demo.loads
                    (Demo.always (Demo.replied 200 Cases.html_body)) api_url JNone JNone []
                    (Demo.replied 200 Cases.html_body) eq_refl eq_refl)
             "Expecting value").
    reflexivity.
  - apply (proj2 (unexpected_body_is_a_text Demo.loads
                    (Demo.always (Demo.replied 200 Cases.string_blocks_body))
                    api_url JNone JNone []
                    (Demo.replied 200 Cases.string_blocks_body) eq_refl eq_refl)
             [("content", JList [JStr "hello"])] (JStr "hello") []);
      try reflexivity.
    intros d. discriminate.
Defined.

End NonStreamEdges.

(* ================================================================== *)
(** * The image path *)

Module ImagePath.
Import Py Net Pipe Spec Behaviour PyFacts.

(** X12. Malformed image items: an item without "image_url", an "image_url"
    without "url", and a URL that starts with "data:image" but has no comma
    each make [process_image] raise ([KeyError] for the missing key,
    [ValueError] "not enough values to unpack (expected 2, got 1)" for the
    missing comma) before any network call. *)
Theorem malformed_image_item :
  forall (http_head : string -> head_reply) item log,
    (forall e,
        getitem item "image_url" = Raise e ->
        process_image http_head item log = (Raise e, log))
    /\ (forall image_url e,
           getitem item "image_url" = Ok image_url ->
           getitem image_url "url" = Raise e ->
           process_image http_head item log = (Raise e, log))
    /\ (forall image_url url,
           getitem item "image_url" = Ok image_url ->
           getitem image_url "url" = Ok (JStr url) ->
           startswith url "data:image" = true ->
           str_in "," url = false ->
           process_image http_head item log
           = (Raise (ValueError "not enough values to unpack (expected 2, got 1)"), log)).
Proof.
  intros http_head item log. unfold process_image, bind, lift. repeat split.
  - intros e ->. reflexivity.
  - intros image_url e -> ->. reflexivity.
  - intros image_url url -> -> Hinline Hcomma. cbn [str_method]. rewrite Hinline.
    unfold split1. rewrite (cut_absent "," url Hcomma). reflexivity.
Qed.

Lemma malformed_image_item_witness :
  process_image Demo.no_length Cases.no_image_url [] = (Raise (KeyError "image_url"), [])
  /\ process_image Demo.no_length Cases.no_url [] = (Raise (KeyError "url"), [])
  /\ process_image Demo.no_length Cases.no_comma []
     = (Raise (ValueError "not enough values to unpack (expected 2, got 1)"), []).
Proof.
  split; [|split].
  - apply (proj1 (malformed_image_item Demo.no_length Cases.no_image_url [])). reflexivity.
  - apply (proj1 (proj2 (malformed_image_item Demo.no_length Cases.no_url []))
             (JDict [])); reflexivity.
  - apply (proj2 (proj2 (malformed_image_item Demo.no_length Cases.no_comma []))
             (JDict [("url", JStr "data:image/png;base64")]) "data:image/png;base64");
      reflexivity.
Defined.

(** X13. Failures of the image path are reported, not raised: when
    [process_image] raises [e] on an item of type "image_url", the loop over
    the items ends at once with the return value
    "Error: Failed to process image: <str(e)>"; the blocks gathered so far
    and the items after it play no part. *)
Theorem image_failure_is_reported :
  forall http_head item rest processed total log e log1,
    getitem item "type" = Ok (JStr "image_url") ->
    process_image http_head item log = (Raise e, log1) ->
    process_items http_head (item :: rest) processed total log
    = (Ok (Return (JStr ("Error: Failed to process image: " ++ str_exn e))), log1).
Proof.
  intros http_head item rest processed total log e log1 Htype Himage.
  cbn [process_items]. unfold bind at 1, lift at 1. rewrite Htype.
  change (eq_str (JStr "image_url") "text") with false. cbv iota.
  unfold bind at 1, lift at 1.
  change (eq_str (JStr "image_url") "image_url") with true. cbv iota.
  unfold bind at 1, try_except, bind at 1, image_item, bind at 1.
  rewrite Himage. reflexivity.
Qed.

Lemma image_failure_is_reported_witness :
  process_items Demo.no_length
    [Cases.no_image_url; Demo.png "aGVsbG8="] [text_block (JStr "hi")] 0%Q []
  = (Ok (Return (JStr "Error: Failed to process image: 'image_url'")), []).
Proof.
  apply (image_failure_is_reported Demo.no_length Cases.no_image_url
           [Demo.png "aGVsbG8="] [text_block (JStr "hi")] 0%Q [] (KeyError "image_url") []);
    reflexivity.
Defined.

Lemma size_within_limit (payload : string) :
  (estimated_size payload <= inject_Z MAX_IMAGE_SIZE)%Q
  <-> Z.of_nat (String.length payload) <= 6990506.
Proof.
  unfold estimated_size, MAX_IMAGE_SIZE, Qle, Qdiv, Qmult, Qinv, inject_Z. cbn. lia.
Qed.

(** X14. The per-image limit in characters: an inline image is accepted
    exactly when its base64 payload has at most 6990506 characters (an
    estimate of 5242879.5 bytes); from 6990507 characters on it is
    rejected. *)
Theorem inline_acceptance_threshold :
  forall (http_head : string -> head_reply) image_data image_url media_type params payload log,
    getitem image_data "image_url" = Ok image_url ->
    getitem image_url "url" = Ok (JStr ("data:" ++ media_type ++ params ++ "," ++ payload)) ->
    startswith media_type "image" = true ->
    str_in ":" media_type = false ->
    str_in ";" media_type = false ->
    str_in "," media_type = false ->
    params = EmptyString \/ (exists p, params = ";" ++ p) ->
    str_in "," params = false ->
    ((exists block, process_image http_head image_data log = (Ok block, log))
     <-> Z.of_nat (String.length payload) <= 6990506).
Proof.
  intros http_head image_data image_url media_type params payload log
    H1 H2 H3 H4 H5 H6 H7 H8.
  rewrite (MediaValidator.process_inline http_head _ _ _ _ _ H1 H2 H3 H4 H5 H6 H7 H8 log).
  rewrite <- size_within_limit.
  pose proof (MediaValidator.exceeds_spec (estimated_size payload) MAX_IMAGE_SIZE) as Hspec.
  destruct (exceeds (estimated_size payload) MAX_IMAGE_SIZE).
  - split; [intros [block Hb]; discriminate|].
    intros Hle. exfalso. exact (Qlt_not_le _ _ Hspec Hle).
  - split; [intros _; exact Hspec | intros _; eexists; reflexivity].
Qed.

Lemma inline_acceptance_threshold_witness :
  (exists block, process_image Demo.no_length (Demo.png Demo.within_limit) [] = (Ok block, []))
  /\ ~ (exists block,
          process_image Demo.no_length (Demo.png (Demo.repeated "A" 6990507)) []
          = (Ok block, [])).
Proof.
  assert (forall payload,
             (exists block,
                 process_image Demo.no_length (Demo.png payload) [] = (Ok block, []))
             <-> Z.of_nat (String.length payload) <= 6990506) as H.
  { intros payload.
    apply (inline_acceptance_threshold Demo.no_length (Demo.png payload)
             (JDict [("url", JStr ("data:image/png;base64," ++ payload))])
             "image/png" ";base64" payload []); try reflexivity.
    right. exists "base64". reflexivity. }
  split.
  - apply H. unfold Demo.within_limit. rewrite Examples.length_repeated. discriminate.
  - intros Hok. apply H in Hok. rewrite Examples.length_repeated in Hok.
    apply Hok. reflexivity.
Defined.

(** X15. Validation of a remote image, case by case: for a URL that does not
    start with "data:image", [process_image] makes one HEAD request and then
    returns the URL block when the request raises a [requests] exception, when
    the reply has no content length, or when the declared length is at most
    5 MiB (zero and negative lengths included); it lets any other exception of
    the request through.  When the declared length is above 5 MiB it raises:
    below 2^1044 - 2^990 the image-too-large [ValueError], whose text gives
    the float [content_length / (1024 * 1024)] with two decimals, which below
    2^53 is the exact quotient; from 2^1044 - 2^990 on, where the quotient is
    beyond the range of floats, the [OverflowError] of the division. *)
Theorem remote_image_validation :
  forall http_head item image_url url log,
    getitem item "image_url" = Ok image_url ->
    getitem image_url "url" = Ok (JStr url) ->
    startswith url "data:image" = false ->
    (forall e,
        http_head url = HeadRaises e ->
        process_image http_head item log
        = (if is_request_exception e then Ok (url_image url) else Raise e,
           (log ++ [HeadCall url])%list))
    /\ (http_head url = HeadResponse None ->
        process_image http_head item log
        = (Ok (url_image url), (log ++ [HeadCall url])%list))
    /\ (forall header n,
           http_head url = HeadResponse (Some header) ->
           int_of_str header = Ok n ->
           (n <= 5 * 1024 * 1024 ->
            process_image http_head item log
            = (Ok (url_image url), (log ++ [HeadCall url])%list))
           /\ (5 * 1024 * 1024 < n < 2 ^ 1044 - 2 ^ 990 ->
               exists size,
                 true_div n (1024 * 1024) = Ok size
                 /\ process_image http_head item log
                    = (Raise (ValueError ("Image at URL exceeds 5MB limit: "
                                          ++ format_2f size ++ "MB")),
                       (log ++ [HeadCall url])%list))
           /\ (5 * 1024 * 1024 < n < 2 ^ 53 ->
               process_image http_head item log
               = (Raise (ValueError ("Image at URL exceeds 5MB limit: "
                                     ++ format_2f (megabytes (inject_Z n)) ++ "MB")),
                  (log ++ [HeadCall url])%list))
           /\ (2 ^ 1044 - 2 ^ 990 <= n ->
               process_image http_head item log
               = (Raise (OverflowError "integer division result too large for a float"),
                  (log ++ [HeadCall url])%list))).
Proof.
  intros http_head item image_url url log H1 H2 H3.
  unfold process_image, bind, lift. rewrite H1, H2. cbn [str_method]. rewrite H3.
  unfold try_except, probe, bind, tell, lift, raise, ret.
  split; [|split].
  - intros e ->. destruct (is_request_exception e); reflexivity.
  - intros ->. reflexivity.
  - intros header n -> ->. change (5 * 1024 * 1024) with MAX_IMAGE_SIZE.
    assert (2 ^ 53 < 2 ^ 1044 - 2 ^ 990) as Hfloat by (vm_compute; reflexivity).
    assert (0 < MAX_IMAGE_SIZE < 2 ^ 53) as Hlimit by (split; reflexivity).
    split; [|split; [|split]].
    + intros Hn. apply Z.ltb_ge in Hn. rewrite Hn. reflexivity.
    + intros [Hlow Hhigh]. apply Z.ltb_lt in Hlow as Hlt. rewrite Hlt.
      assert (0 < n) as Hpos by lia.
      destruct (PyFacts.true_div_overflow n Hpos) as [_ Hok].
      destruct (Hok Hhigh) as (size & Hsize). exists size. split; [exact Hsize|].
      rewrite Hsize. reflexivity.
    + intros [Hlow Hhigh]. apply Z.ltb_lt in Hlow as Hlt. rewrite Hlt.
      destruct (PyFacts.true_div_exact n) as (size & -> & Hsize); [lia|].
      unfold megabytes. rewrite (PyFacts.format_2f_Qeq _ _ Hsize). reflexivity.
    + intros Hn. assert (MAX_IMAGE_SIZE < n) as Hlow by lia.
      apply Z.ltb_lt in Hlow as Hlt. rewrite Hlt.
      assert (0 < n) as Hpos by lia.
      destruct (PyFacts.true_div_overflow n Hpos) as [Hiff _].
      rewrite (proj2 Hiff Hn). reflexivity.
Qed.

Lemma remote_image_validation_witness :
  process_image Cases.unreachable (Demo.image_item Demo.cat_url) []
  = (Ok (url_image Demo.cat_url), [HeadCall Demo.cat_url])
  /\ process_image (Cases.declared "-1") (Demo.image_item Demo.cat_url) []
     = (Ok (url_image Demo.cat_url), [HeadCall Demo.cat_url])
  /\ process_image (Cases.declared "6000000") (Demo.image_item Demo.cat_url) []
     = (Raise (ValueError "Image at URL exceeds 5MB limit: 5.72MB"), [HeadCall Demo.cat_url])
  /\ process_image (Cases.declared "1000000000000000000000000")
       (Demo.image_item Demo.cat_url) []
     = (Raise (ValueError "Image at URL exceeds 5MB limit: 953674316406249984.00MB"),
        [HeadCall Demo.cat_url])
  /\ process_image (Cases.declared Cases.googol4) (Demo.image_item Demo.cat_url) []
     = (Raise (OverflowError "integer division result too large for a float"),
        [HeadCall Demo.cat_url]).
Proof.
  split; [|split; [|split; [|split]]].
  - apply (proj1 (remote_image_validation Cases.unreachable (Demo.image_item Demo.cat_url)
                    (JDict [("url", JStr Demo.cat_url)]) Demo.cat_url []
                    eq_refl eq_refl eq_refl)
             (RequestException "Connection refused")).
    reflexivity.
  - apply (proj1 (proj2 (proj2 (remote_image_validation (Cases.declared "-1")
                                  (Demo.image_item Demo.cat_url)
                                  (JDict [("url", JStr Demo.cat_url)]) Demo.cat_url []
                                  eq_refl eq_refl eq_refl))
                    "-1" (-1) eq_refl eq_refl)).
    discriminate.
  - apply (proj1 (proj2 (proj2 (proj2 (proj2 (remote_image_validation
                                                (Cases.declared "6000000")
                                                (Demo.image_item Demo.cat_url)
                                                (JDict [("url", JStr Demo.cat_url)])
                                                Demo.cat_url []
                                                eq_refl eq_refl eq_refl))
                                  "6000000" 6000000 eq_refl eq_refl)))).
    split; reflexivity.
  - destruct (proj1 (proj2 (proj2 (proj2 (remote_image_validation
                                            (Cases.declared "1000000000000000000000000")
                                            (Demo.image_item Demo.cat_url)
                                            (JDict [("url", JStr Demo.cat_url)])
                                            Demo.cat_url []
                                            eq_refl eq_refl eq_refl))
                              "1000000000000000000000000" (10 ^ 24) eq_refl eq_refl)))
      as (size & Hsize & Hrun).
    + split; reflexivity.
    + rewrite Hrun. vm_compute in Hsize. inversion Hsize. reflexivity.
  - apply (proj2 (proj2 (proj2 (proj2 (proj2 (remote_image_validation
                                                (Cases.declared Cases.googol4)
                                                (Demo.image_item Demo.cat_url)
                                                (JDict [("url", JStr Demo.cat_url)])
                                                Demo.cat_url []
                                                eq_refl eq_refl eq_refl))
                                  Cases.googol4 (10 ^ 400) eq_refl eq_refl)))).
    vm_compute. discriminate.
Defined.

(** X16. Network calls of the validator: [process_image] makes no call at all,
    or exactly one, a HEAD request for the item's own URL, and that only for a
    URL that does not start with "data:image"; an inline image is never
    fetched and nothing is ever posted. *)
Theorem image_validation_calls :
  forall http_head item log r log',
    process_image http_head item log = (r, log') ->
    log' = log
    \/ (exists image_url url,
           getitem item "image_url" = Ok image_url
           /\ getitem image_url "url" = Ok (JStr url)
           /\ startswith url "data:image" = false
           /\ log' = (log ++ [HeadCall url])%list).
Proof.
  intros http_head item log r log'. unfold process_image, bind, lift. intros H.
  destruct (getitem item "image_url") as [image_url|e] eqn:E1;
    [|inversion H; left; reflexivity].
  destruct (getitem image_url "url") as [url_obj|e] eqn:E2;
    [|inversion H; left; reflexivity].
  destruct url_obj as [| | | |url| |]; try (inversion H; left; reflexivity).
  cbn [str_method] in H. destruct (startswith url "data:image") eqn:E3.
  - left. unfold split1 in H.
    destruct (cut "," url) as [mime_type [base64_data|]]; cbn [unpack2] in H;
      [|inversion H; reflexivity].
    destruct (index (split ":" mime_type) 1) as [after_colon|e];
      [|inversion H; reflexivity].
    destruct (index (split ";" after_colon) 0) as [media_type|e];
      [|inversion H; reflexivity].
    destruct (exceeds (estimated_size base64_data) MAX_IMAGE_SIZE);
      inversion H; reflexivity.
  - right. exists image_url, url.
    do 3 (split; [first [assumption | reflexivity]|]).
    unfold try_except, probe, bind, tell, lift, raise, ret in H.
    destruct (http_head url) as [e|[header|]].
    + destruct (is_request_exception e); inversion H; reflexivity.
    + destruct (int_of_str header) as [n|e].
      * destruct (MAX_IMAGE_SIZE <? n);
          [destruct (true_div n (1024 * 1024)) as [size|e]|];
          cbn in H; [|destruct (is_request_exception e)|]; inversion H; reflexivity.
      * cbn in H. destruct (is_request_exception e); inversion H; reflexivity.
    + cbn in H. inversion H; reflexivity.
Qed.

Lemma image_validation_calls_witness :
  [HeadCall Demo.cat_url] = []
  \/ (exists image_url url,
         getitem (Demo.image_item Demo.cat_url) "image_url" = Ok image_url
         /\ getitem image_url "url" = Ok (JStr url)
         /\ startswith url "data:image" = false
         /\ [HeadCall Demo.cat_url] = ([] ++ [HeadCall url])%list).
Proof.
  apply (image_validation_calls Demo.no_length (Demo.image_item Demo.cat_url) []
           (Ok (url_image Demo.cat_url)) [HeadCall Demo.cat_url]).
  reflexivity.
Defined.

End ImagePath.

(* ================================================================== *)
(** * The per-image limit, seen from the payload *)

Module SizeInvariant.
Import Py Net Pipe Spec Behaviour.

Lemma text_block_within (t : json) : within_image_limit (text_block t).
Proof. intros media_type data E. discriminate. Qed.

Lemma url_image_within (url : string) : within_image_limit (url_image url).
Proof. intros media_type data E. discriminate. Qed.

Section WithProbe.

Variable http_head : string -> head_reply.

Lemma process_image_within (item : json) (log : list call) (block : json)
  (log' : list call) :
  process_image http_head item log = (Ok block, log') -> within_image_limit block.
Proof.
  unfold process_image, bind, lift. intros H.
  destruct (getitem item "image_url") as [image_url|e]; [|discriminate].
  destruct (getitem image_url "url") as [url_obj|e]; [|discriminate].
  destruct url_obj as [| | | |url| |]; try discriminate.
  cbn [str_method] in H. destruct (startswith url "data:image").
  - unfold split1 in H.
    destruct (cut "," url) as [mime_type [base64_data|]]; cbn [unpack2] in H;
      [|discriminate].
    destruct (index (split ":" mime_type) 1) as [after_colon|e]; [|discriminate].
    destruct (index (split ";" after_colon) 0) as [media_type|e]; [|discriminate].
    pose proof (MediaValidator.exceeds_spec (estimated_size base64_data) MAX_IMAGE_SIZE)
      as Hspec.
    destruct (exceeds (estimated_size base64_data) MAX_IMAGE_SIZE); [discriminate|].
    inversion H; subst. intros media_type' data E. inversion E; subst. exact Hspec.
  - apply Normalizer.bind_inv in H as [(e & _ & E) | ([] & log1 & _ & H)]; [discriminate|].
    inversion H; subst. apply url_image_within.
Qed.

Lemma image_item_within (item : json) (processed : list json) (total : Q)
  (log : list call) (processed' : list json) (total' : Q) (log' : list call) :
  image_item http_head item processed total log = (Ok (processed', total'), log') ->
  Forall within_image_limit processed ->
  Forall within_image_limit processed'.
Proof.
  unfold image_item. intros H Hprocessed.
  apply Normalizer.bind_inv in H as [(e & _ & E) | (block & log1 & Himage & Hk)];
    [discriminate|].
  pose proof (process_image_within _ _ _ _ Himage) as Hblock.
  assert (processed' = (processed ++ [block])%list) as ->.
  { apply Normalizer.process_image_outcome in Himage
      as [(_ & Hshape) | (url & _ & _ & Hshape)].
    - destruct (Hshape block eq_refl) as (media_type & payload & _ & ->). cbn in Hk.
      match type of Hk with
      | (if ?b then _ else _) _ = _ => destruct b
      end; inversion Hk; reflexivity.
    - rewrite (Hshape block eq_refl) in *. cbn in Hk. inversion Hk; reflexivity. }
  apply Forall_app. split; [assumption | constructor; [assumption | constructor]].
Qed.

Lemma process_items_within (items : list json) :
  forall processed total log processed' total' log',
    process_items http_head items processed total log
    = (Ok (Next (processed', total')), log') ->
    Forall within_image_limit processed ->
    Forall within_image_limit processed'.
Proof.
  induction items as [|item rest IH];
    intros processed total log processed' total' log' H Hprocessed.
  - inversion H; subst. assumption.
  - cbn [process_items] in H. unfold bind at 1, lift at 1 in H.
    destruct (getitem item "type") as [ty|e]; [|discriminate].
    destruct (eq_str ty "text").
    + unfold bind at 1, lift at 1 in H.
      destruct (getitem item "text") as [t|e]; [|discriminate].
      apply IH in H; [assumption|].
      apply Forall_app. split; [assumption|].
      constructor; [apply text_block_within | constructor].
    + unfold bind at 1, lift at 1 in H. destruct (eq_str ty "image_url").
      * apply Normalizer.bind_inv in H as [(e & _ & E) | (step & log1 & H & Hk)];
          [discriminate|].
        unfold try_except in H.
        destruct (bind (image_item http_head item processed total)
                    (fun st => ret (Next st)) log) as [r1 log2] eqn:Estep.
        apply Normalizer.bind_inv in Estep
          as [(e & _ & ->) | ([processed1 total1] & log3 & Hitem & Hret)].
        { inversion H; subst. discriminate. }
        inversion Hret; subst. inversion H; subst.
        apply IH in Hk; [assumption|].
        exact (image_item_within _ _ _ _ _ _ _ Hitem Hprocessed).
      * apply IH in H; assumption.
Qed.

Lemma process_messages_within (messages : list json) :
  forall processed total log processed' log',
    process_messages http_head messages processed total log = (Ok (Next processed'), log') ->
    Forall message_within_limit processed ->
    Forall message_within_limit processed'.
Proof.
  induction messages as [|message rest IH];
    intros processed total log processed' log' H Hprocessed.
  - inversion H; subst. assumption.
  - cbn [process_messages] in H. unfold bind at 1, lift at 1 in H.
    destruct (get message "content" JNone) as [content|e]; [|discriminate].
    apply Normalizer.bind_inv in H
      as [(e & _ & E) | ([[processed_content total1]|v] & log1 & H & Hk)];
      [discriminate| |discriminate].
    assert (Forall within_image_limit processed_content) as Hcontent.
    { destruct content;
        try (unfold bind, lift, ret in H;
             destruct (get message "content" (JStr EmptyString)); [|discriminate];
             inversion H; subst; constructor; [apply text_block_within | constructor]).
      eapply process_items_within; [exact H | constructor]. }
    unfold bind at 1, lift at 1 in Hk.
    destruct (getitem message "role") as [role|e]; [|discriminate].
    apply IH in Hk; [assumption|].
    apply Forall_app. split; [assumption|].
    constructor; [|constructor].
    intros role' blocks E. inversion E; subst. assumption.
Qed.

End WithProbe.

(** X17. The per-image limit holds in every payload: whenever [pipe] builds a
    payload, every inline image block of every message in it carries base64
    data whose estimated size is at most 5 MiB. *)
Theorem payload_images_within_limit :
  forall valves json_loads pop_system_message py_str http_head http_post
         body log r log' payload,
    Pipe.pipe valves json_loads pop_system_message py_str http_head http_post body log
    = (r, log') ->
    payload_built r log log' payload ->
    exists out,
      getitem payload "messages" = Ok (JList out)
      /\ Forall message_within_limit out.
Proof.
  intros valves json_loads pop py_str http_head http_post body log r log' payload H Hbuilt.
  apply Runs.pipe_run_complete in H.
  assert (forall probes, probes_only probes -> log' = (log ++ probes)%list ->
          (forall url headers p, r <> Ok (Generator url headers p)) -> False) as Hearly.
  { intros probes Hp -> Hr.
    destruct Hbuilt as [(url & headers & ->) | (probes' & st & url & headers & E)].
    - eapply Hr; reflexivity.
    - exact (Runs.run_without_post _ _ _ (PostCall st url headers payload) Hp eq_refl E). }
  assert (forall messages out log1 model_id system_message payload0,
             process_messages http_head messages [] 0%Q log = (Ok (Next out), log1) ->
             build_payload valves py_str body model_id out system_message = Ok payload0 ->
             payload = payload0 ->
             exists out0,
               getitem payload "messages" = Ok (JList out0)
               /\ Forall message_within_limit out0) as Hlate.
  { intros messages out log1 model_id sm payload0 Hrun Hpayload ->.
    exists out. split.
    - exact (Normalizer.build_payload_messages _ _ _ _ _ _ _ Hpayload).
    - exact (process_messages_within http_head messages _ _ _ _ _ Hrun (Forall_nil _)). }
  inversion H as [Hkey | Hkey Hraw | raw e Hkey Hraw Hpop
                  | raw sm messages e log1 Hkey Hraw Hpop Hrun
                  | raw sm messages v log1 Hkey Hraw Hpop Hrun
                  | raw sm messages out log1 e Hkey Hraw Hpop Hrun Hmodel
                  | raw sm messages out log1 model_id payload0 Hkey Hraw Hpop Hrun Hmodel
                      Hpayload Hstream
                  | raw sm messages out log1 model_id payload0 v Hkey Hraw Hpop Hrun Hmodel
                      Hpayload Hstream Hpost]; subst.
  - exfalso. apply (Hearly []); [apply Forall_nil | rewrite app_nil_r; reflexivity
                                | discriminate].
  - exfalso. apply (Hearly []); [apply Forall_nil | rewrite app_nil_r; reflexivity
                                | discriminate].
  - exfalso. apply (Hearly []); [apply Forall_nil | rewrite app_nil_r; reflexivity
                                | discriminate].
  - exfalso. destruct (Normalizer.process_messages_outcome _ _ _ _ _ _ _ Hrun)
      as (probes & -> & Hp & _).
    apply (Hearly probes); [assumption | reflexivity | discriminate].
  - exfalso. destruct (Normalizer.process_messages_outcome _ _ _ _ _ _ _ Hrun)
      as (probes & -> & Hp & _).
    apply (Hearly probes); [assumption | reflexivity | discriminate].
  - exfalso. destruct (Normalizer.process_messages_outcome _ _ _ _ _ _ _ Hrun)
      as (probes & -> & Hp & _).
    apply (Hearly probes); [assumption | reflexivity | discriminate].
  - apply (Hlate _ _ _ _ _ _ Hrun Hpayload).
    destruct (Normalizer.process_messages_outcome _ _ _ _ _ _ _ Hrun)
      as (probes & -> & Hp & _).
    destruct Hbuilt as [(url & headers & E) | (probes' & st & url & headers & E)].
    + inversion E; reflexivity.
    + exfalso.
      exact (Runs.run_without_post _ _ _ (PostCall st url headers payload) Hp eq_refl E).
  - apply (Hlate _ _ _ _ _ _ Hrun Hpayload).
    destruct (Normalizer.process_messages_outcome _ _ _ _ _ _ _ Hrun)
      as (probes & -> & Hp & _).
    destruct Hbuilt as [(url & headers & E) | (probes' & st & url & headers & E)];
      [discriminate|].
    rewrite <- app_assoc in E. apply app_inv_head, app_inj_tail in E as [_ E].
    inversion E; reflexivity.
Qed.

Lemma payload_images_within_limit_witness :
  exists out,
    getitem Demo.mixed_payload "messages" = Ok (JList out)
    /\ Forall message_within_limit out.
Proof.
  apply (payload_images_within_limit Demo.valves Demo.loads Demo.pop_system_message
           Demo.str Demo.no_length (Demo.always (Demo.streamed Demo.feed_a_b_stop))
           (Demo.request true Demo.mixed_messages) []
           (Ok (Generator api_url (build_headers Demo.valves) Demo.mixed_payload))
           [HeadCall Demo.cat_url] Demo.mixed_payload).
  - reflexivity.
  - left. eexists _, _. reflexivity.
Defined.

End SizeInvariant.

(* ================================================================== *)
(** * Model resolution and the catalog *)

Module Resolution.
Import Py Net Pipe Spec PyFacts.

Lemma length_app (a b : string) :
  String.length (a ++ b) = (String.length a + String.length b)%nat.
Proof. induction a as [|c a IH]; simpl; congruence. Qed.

(** X18. Shape of a resolved model: [_extract_model_id] returns its argument
    unchanged exactly for the non-empty strings without "."; and whatever
    string it returns is a suffix of the argument, so resolution never
    invents or rewrites characters. *)
Theorem resolution_fixed_points :
  forall s,
    (_extract_model_id (JStr s) = Ok (JStr s)
     <-> s <> EmptyString /\ str_in "." s = false)
    /\ (forall id,
           _extract_model_id (JStr s) = Ok id ->
           exists before after, id = JStr after /\ s = before ++ after).
Proof.
  intros s.
  assert (s = EmptyString
          \/ (s <> EmptyString /\ str_in "." s = false)
          \/ (exists before after,
                 s = before ++ "." ++ after /\ str_in "." before = false)) as Hcases.
  { destruct (String.eqb_spec s EmptyString) as [Hs|Hs]; [left; exact Hs|]. right.
    destruct (str_in "." s) eqn:E.
    - right. destruct (cut_present "." s E) as (before & after & Hsplit & Hb).
      exists before, after. split; [exact Hsplit | exact Hb].
    - left. split; [exact Hs | reflexivity]. }
  destruct Hcases as [-> | [[Hne Hdot] | (before & after & -> & Hb)]].
  - split; [split; [discriminate | intros [H _]; contradiction]|].
    intros id H. discriminate.
  - rewrite (ModelCatalog.extract_without_separator s Hne Hdot).
    split; [split; auto|].
    intros id E. inversion E; subst. exists EmptyString, s. split; reflexivity.
  - rewrite (ModelCatalog.extract_with_separator before after Hb). split.
    + split.
      * intros E. exfalso. inversion E as [Hlen].
        apply (f_equal String.length) in Hlen. rewrite !length_app in Hlen.
        cbn in Hlen. lia.
      * intros [_ Hdot]. exfalso.
        rewrite str_in_char_app in Hdot. apply orb_false_iff in Hdot as [_ Hdot].
        change ("." ++ after) with (String "." after) in Hdot.
        rewrite str_in_char, Ascii.eqb_refl in Hdot. discriminate.
    + intros id E. inversion E; subst. exists (before ++ "."), after.
      split; [reflexivity|]. rewrite MediaValidator.append_assoc. reflexivity.
Qed.

(** X19. The catalog and the resolver agree: [pipes] lists each model as an
    object with a string "id" and a string "name"; no id contains ".", so each
    id resolves to itself, and behind any prefix without "." (as in
    "anthropic.<id>") it resolves to the id again. *)
Theorem catalog_ids_resolve :
  Forall (fun model =>
            exists id name,
              model = JDict [("id", JStr id); ("name", JStr name)]
              /\ str_in "." id = false
              /\ _extract_model_id (JStr id) = Ok (JStr id)
              /\ forall prefix,
                   str_in "." prefix = false ->
                   _extract_model_id (JStr (prefix ++ "." ++ id)) = Ok (JStr id))
    pipes.
Proof.
  unfold pipes, get_anthropic_models.
  repeat (apply Forall_cons;
          [eexists _, _; split; [reflexivity|]; split; [reflexivity|];
           split; [reflexivity | intros prefix Hp;
                                 apply ModelCatalog.extract_with_separator, Hp]|]).
  apply Forall_nil.
Qed.

End Resolution.

(* ================================================================== *)
(** * The probes of a request *)

Module Probes.
Import Py Net Pipe Spec Behaviour.

Section WithProbe.

Variable http_head : string -> head_reply.

Lemma process_image_probes (item : json) (log : list call) (block : json)
  (log' : list call) :
  process_image http_head item log = (Ok block, log') ->
  log' = (log ++ block_probes block)%list.
Proof.
  intros H. apply Normalizer.process_image_outcome in H
    as [(-> & Hshape) | (url & -> & _ & Hshape)].
  - destruct (Hshape block eq_refl) as (media_type & payload & _ & ->).
    cbn. rewrite app_nil_r. reflexivity.
  - rewrite (Hshape block eq_refl). reflexivity.
Qed.

Lemma image_item_probes (item : json) (processed : list json) (total : Q)
  (log : list call) (processed' : list json) (total' : Q) (log' : list call) :
  image_item http_head item processed total log = (Ok (processed', total'), log') ->
  exists block,
    processed' = (processed ++ [block])%list
    /\ log' = (log ++ block_probes block)%list.
Proof.
  unfold image_item. intros H.
  apply Normalizer.bind_inv in H as [(e & _ & E) | (block & log1 & Himage & Hk)];
    [discriminate|].
  pose proof (process_image_probes _ _ _ _ Himage) as ->.
  exists block.
  apply Normalizer.process_image_outcome in Himage
    as [(_ & Hshape) | (url & _ & _ & Hshape)].
  - destruct (Hshape block eq_refl) as (media_type & payload & _ & ->). cbn in Hk.
    match type of Hk with
    | (if ?b then _ else _) _ = _ => destruct b
    end; inversion Hk; subst. split; reflexivity.
  - rewrite (Hshape block eq_refl) in *. cbn in Hk. inversion Hk; subst.
    split; reflexivity.
Qed.

Lemma process_items_probes (items : list json) :
  forall processed total log processed' total' log',
    process_items http_head items processed total log
    = (Ok (Next (processed', total')), log') ->
    exists blocks,
      processed' = (processed ++ blocks)%list
      /\ log' = (log ++ flat_map block_probes blocks)%list.
Proof.
  induction items as [|item rest IH]; intros processed total log processed' total' log' H.
  - inversion H; subst. exists []. rewrite !app_nil_r. split; reflexivity.
  - cbn [process_items] in H. unfold bind at 1, lift at 1 in H.
    destruct (getitem item "type") as [ty|e]; [|discriminate].
    destruct (eq_str ty "text").
    + unfold bind at 1, lift at 1 in H.
      destruct (getitem item "text") as [t|e]; [|discriminate].
      apply IH in H as (blocks & -> & ->). exists (text_block t :: blocks).
      rewrite <- app_assoc. split; reflexivity.
    + unfold bind at 1, lift at 1 in H. destruct (eq_str ty "image_url").
      * apply Normalizer.bind_inv in H as [(e & _ & E) | (step & log1 & H & Hk)];
          [discriminate|].
        unfold try_except in H.
        destruct (bind (image_item http_head item processed total)
                    (fun st => ret (Next st)) log) as [r1 log2] eqn:Estep.
        apply Normalizer.bind_inv in Estep
          as [(e & _ & ->) | ([processed1 total1] & log3 & Hitem & Hret)].
        { inversion H; subst. discriminate. }
        inversion Hret; subst. inversion H; subst.
        apply image_item_probes in Hitem as (block & -> & ->).
        apply IH in Hk as (blocks & -> & ->). exists (block :: blocks).
        cbn [flat_map]. rewrite <- !app_assoc. split; reflexivity.
      * apply IH in H. exact H.
Qed.

Lemma process_messages_probes (messages : list json) :
  forall processed total log processed' log',
    process_messages http_head messages processed total log = (Ok (Next processed'), log') ->
    exists out,
      processed' = (processed ++ out)%list
      /\ log' = (log ++ flat_map message_probes out)%list.
Proof.
  induction messages as [|message rest IH]; intros processed total log processed' log' H.
  - inversion H; subst. exists []. rewrite !app_nil_r. split; reflexivity.
  - cbn [process_messages] in H. unfold bind at 1, lift at 1 in H.
    destruct (get message "content" JNone) as [content|e]; [|discriminate].
    apply Normalizer.bind_inv in H
      as [(e & _ & E) | ([[processed_content total1]|v] & log1 & H & Hk)];
      [discriminate| |discriminate].
    assert (log1 = (log ++ flat_map block_probes processed_content)%list) as ->.
    { destruct content;
        try (unfold bind, lift, ret in H;
             destruct (get message "content" (JStr EmptyString)); [|discriminate];
             inversion H; subst; cbn; rewrite app_nil_r; reflexivity).
      apply process_items_probes in H as (blocks & -> & ->). reflexivity. }
    unfold bind at 1, lift at 1 in Hk.
    destruct (getitem message "role") as [role|e]; [|discriminate].
    apply IH in Hk as (out & -> & ->).
    exists (JDict [("role", role); ("content", JList processed_content)] :: out).
    rewrite <- !app_assoc. split; reflexivity.
Qed.

End WithProbe.

(** X20. The probes of a request are the remote images of its payload:
    whenever [pipe] builds a payload, the calls it has made are one HEAD
    request for each URL image block of the payload, in the order of the
    blocks, and nothing else, followed, when the answer is not streamed, by the
    one request that carries the payload. *)
Theorem probes_are_the_remote_images :
  forall valves json_loads pop_system_message py_str http_head http_post
         body log r log' payload,
    Pipe.pipe valves json_loads pop_system_message py_str http_head http_post body log
    = (r, log') ->
    payload_built r log log' payload ->
    exists out request,
      getitem payload "messages" = Ok (JList out)
      /\ log' = (log ++ flat_map message_probes out ++ request)%list
      /\ (request = []
          \/ request = [PostCall false api_url (build_headers valves) payload]).
Proof.
  intros valves json_loads pop py_str http_head http_post body log r log' payload H Hbuilt.
  apply Runs.pipe_run_complete in H.
  assert (forall probes, probes_only probes -> log' = (log ++ probes)%list ->
          (forall url headers p, r <> Ok (Generator url headers p)) -> False) as Hearly.
  { intros probes Hp -> Hr.
    destruct Hbuilt as [(url & headers & ->) | (probes' & st & url & headers & E)].
    - eapply Hr; reflexivity.
    - exact (Runs.run_without_post _ _ _ (PostCall st url headers payload) Hp eq_refl E). }
  inversion H as [Hkey | Hkey Hraw | raw e Hkey Hraw Hpop
                  | raw sm messages e log1 Hkey Hraw Hpop Hrun
                  | raw sm messages v log1 Hkey Hraw Hpop Hrun
                  | raw sm messages out log1 e Hkey Hraw Hpop Hrun Hmodel
                  | raw sm messages out log1 model_id payload0 Hkey Hraw Hpop Hrun Hmodel
                      Hpayload Hstream
                  | raw sm messages out log1 model_id payload0 v Hkey Hraw Hpop Hrun Hmodel
                      Hpayload Hstream Hpost]; subst.
  - exfalso. apply (Hearly []); [apply Forall_nil | rewrite app_nil_r; reflexivity
                                | discriminate].
  - exfalso. apply (Hearly []); [apply Forall_nil | rewrite app_nil_r; reflexivity
                                | discriminate].
  - exfalso. apply (Hearly []); [apply Forall_nil | rewrite app_nil_r; reflexivity
                                | discriminate].
  - exfalso. destruct (Normalizer.process_messages_outcome _ _ _ _ _ _ _ Hrun)
      as (probes & -> & Hp & _).
    apply (Hearly probes); [assumption | reflexivity | discriminate].
  - exfalso. destruct (Normalizer.process_messages_outcome _ _ _ _ _ _ _ Hrun)
      as (probes & -> & Hp & _).
    apply (Hearly probes); [assumption | reflexivity | discriminate].
  - exfalso. destruct (Normalizer.process_messages_outcome _ _ _ _ _ _ _ Hrun)
      as (probes & -> & Hp & _).
    apply (Hearly probes); [assumption | reflexivity | discriminate].
  - destruct (Normalizer.process_messages_outcome _ _ _ _ _ _ _ Hrun)
      as (probes & Elog & Hp & _).
    destruct (process_messages_probes _ _ _ _ _ _ _ Hrun) as (out0 & Eout & Eprobes).
    cbn [app] in Eout. subst out0.
    assert (payload = payload0) as ->.
    { destruct Hbuilt as [(url & headers & E) | (probes' & st & url & headers & E)].
      - inversion E; reflexivity.
      - exfalso. rewrite Elog in E.
        exact (Runs.run_without_post _ _ _ (PostCall st url headers payload) Hp eq_refl E). }
    exists out, []. rewrite app_nil_r.
    split; [exact (Normalizer.build_payload_messages _ _ _ _ _ _ _ Hpayload)|].
    split; [exact Eprobes | left; reflexivity].
  - destruct (process_messages_probes _ _ _ _ _ _ _ Hrun) as (out0 & Eout & Eprobes).
    cbn [app] in Eout. subst out0.
    assert (payload = payload0) as ->.
    { destruct Hbuilt as [(url & headers & E) | (probes' & st & url & headers & E)];
        [discriminate|].
      destruct (Normalizer.process_messages_outcome _ _ _ _ _ _ _ Hrun)
        as (probes & Elog & _). rewrite Elog in E.
      rewrite <- app_assoc in E. apply app_inv_head, app_inj_tail in E as [_ E].
      inversion E; reflexivity. }
    exists out, [PostCall false api_url (build_headers valves) payload0].
    split; [exact (Normalizer.build_payload_messages _ _ _ _ _ _ _ Hpayload)|].
    split; [rewrite Eprobes, <- app_assoc; reflexivity | right; reflexivity].
Qed.

Lemma probes_are_the_remote_images_witness :
  exists out request,
    getitem Demo.mixed_payload "messages" = Ok (JList out)
    /\ [HeadCall Demo.cat_url] = ([] ++ flat_map message_probes out ++ request)%list
    /\ (request = []
        \/ request = [PostCall false api_url (build_headers Demo.valves) Demo.mixed_payload]).
Proof.
  apply (probes_are_the_remote_images Demo.valves Demo.loads Demo.pop_system_message
           Demo.str Demo.no_length (Demo.always (Demo.streamed Demo.feed_a_b_stop))
           (Demo.request true Demo.mixed_messages) []
           (Ok (Generator api_url (build_headers Demo.valves) Demo.mixed_payload))
           [HeadCall Demo.cat_url] Demo.mixed_payload).
  - reflexivity.
  - left. eexists _, _. reflexivity.
Defined.

End Probes.
